(** * Cartrita orchestration bus: router, tool registry, schema validator,
      framed transport and worker bridge, embedded from the Python sources.

    Python dictionaries are [gmap string _] where only lookups matter and
    association lists where iteration order matters; strings are
    [String.string]; Python exceptions are explicit results. *)

From Stdlib Require Import String Ascii List ZArith QArith Qround Lia Lqa Bool.
From Stdlib Require Strings.Byte.
From Stdlib Require Import Floats.
From stdpp Require Import gmap strings list fin_maps.

Local Open Scope string_scope.
Local Open Scope list_scope.

(* ===================================================================== *)
(** ** Python string primitives *)
(* ===================================================================== *)

Module PyStr.

(** [needle in haystack] *)
Fixpoint contains (needle haystack : string) : bool :=
  if String.prefix needle haystack then true
  else match haystack with
       | EmptyString => false
       | String _ rest => contains needle rest
       end.

(** [any(kw in s for kw in kws)] *)
Definition any_in (kws : list string) (s : string) : bool :=
  existsb (fun kw => contains kw s) kws.

(** [s.startswith(p)] *)
Definition startswith (s p : string) : bool := String.prefix p s.

(** [bool(s)] for a string. *)
Definition truthy (s : string) : bool :=
  match s with EmptyString => false | _ => true end.

Definition is_upper (c : ascii) : bool :=
  let n := nat_of_ascii c in (65 <=? n)%nat && (n <=? 90)%nat.
Definition is_lower (c : ascii) : bool :=
  let n := nat_of_ascii c in (97 <=? n)%nat && (n <=? 122)%nat.

Definition lower_char (c : ascii) : ascii :=
  if is_upper c then ascii_of_nat (nat_of_ascii c + 32) else c.
Definition upper_char (c : ascii) : ascii :=
  if is_lower c then ascii_of_nat (nat_of_ascii c - 32) else c.

(** [str.lower] and [str.upper] on ASCII text. *)
Fixpoint lower (s : string) : string :=
  match s with
  | EmptyString => EmptyString
  | String c r => String (lower_char c) (lower r)
  end.
Fixpoint upper (s : string) : string :=
  match s with
  | EmptyString => EmptyString
  | String c r => String (upper_char c) (upper r)
  end.

(** [s.replace(a, b)] for single characters. *)
Fixpoint replace_char (a b : ascii) (s : string) : string :=
  match s with
  | EmptyString => EmptyString
  | String c r => String (if Ascii.eqb c a then b else c) (replace_char a b r)
  end.

(** [s.split(sep)] for a single-character separator. *)
Fixpoint split_aux (sep : ascii) (cur : string) (s : string) : list string :=
  match s with
  | EmptyString => [cur]
  | String c r =>
      if Ascii.eqb c sep then cur :: split_aux sep EmptyString r
      else split_aux sep (cur +:+ String c EmptyString) r
  end.
Definition split (sep : ascii) (s : string) : list string :=
  split_aux sep EmptyString s.

Lemma prefix_app (p rest : string) : String.prefix p (p +:+ rest) = true.
Proof.
  induction p as [|c p IH]; simpl; [by destruct rest|].
  by destruct (ascii_dec c c).
Qed.

Lemma prefix_inv (p s : string) :
  String.prefix p s = true -> exists rest, s = p +:+ rest.
Proof.
  revert s. induction p as [|c p IH]; intros s H.
  - by exists s.
  - destruct s as [|d s]; simpl in H; [done|].
    destruct (ascii_dec c d) as [->|]; [|done].
    destruct (IH _ H) as [rest ->]. by exists rest.
Qed.

Lemma contains_eq (needle s : string) :
  contains needle s =
  if String.prefix needle s then true
  else match s with EmptyString => false | String _ r => contains needle r end.
Proof. by destruct s. Qed.

(** [contains] is Python's substring test. *)
Lemma contains_spec (needle s : string) :
  contains needle s = true <-> exists pre post, s = pre +:+ needle +:+ post.
Proof.
  split.
  - induction s as [|c s IH]; rewrite contains_eq;
      destruct (String.prefix needle _) eqn:E.
    + intros _. destruct (prefix_inv _ _ E) as [rest Hr]. by exists "", rest.
    + done.
    + intros _. destruct (prefix_inv _ _ E) as [rest Hr]. by exists "", rest.
    + intros H. destruct (IH H) as (pre & post & ->).
      by exists (String c pre), post.
  - intros (pre & post & ->). induction pre as [|c pre IH].
    + rewrite contains_eq.
      change ("" +:+ needle +:+ post) with (needle +:+ post).
      by rewrite prefix_app.
    + rewrite contains_eq.
      change (String c pre +:+ needle +:+ post)
        with (String c (pre +:+ needle +:+ post)).
      destruct (String.prefix needle _); [done|]. exact IH.
Qed.

Lemma lower_char_idem (c : ascii) : lower_char (lower_char c) = lower_char c.
Proof.
  unfold lower_char. destruct (is_upper c) eqn:E; [|by rewrite E].
  unfold is_upper in *. apply andb_prop in E as [H1 H2].
  apply Nat.leb_le in H1, H2.
  rewrite nat_ascii_embedding by lia.
  replace (nat_of_ascii c + 32 <=? 90)%nat with false; [by rewrite andb_false_r|].
  symmetry. apply Nat.leb_gt. lia.
Qed.

Lemma lower_idem (s : string) : lower (lower s) = lower s.
Proof. induction s as [|c s IH]; simpl; [done|]. by rewrite lower_char_idem, IH. Qed.

End PyStr.

(* ===================================================================== *)
(** ** Agent manager and router (cartrita_core/agent_manager.py) *)
(* ===================================================================== *)

Module AgentManager.
Import PyStr.

Inductive AgentType :=
| SUPERVISOR | RESEARCH | WRITER | VISION
| COMPUTER_USE | CODE_WRITER | ANALYST | CUSTOM.

(** [AgentConfig] without its [system_prompt], a text no operation below
    reads. *)
Record AgentConfig := mkAgentConfig {
  agent_type : AgentType;
  model : string;
  computer_use_enabled : bool;
  max_iterations : Z;
  tools_allowed : list string;
  capabilities : list string
}.

(** The part of [CartritaCoreAgent] that [create_agent] fills in. *)
Record CartritaCoreAgent := mkCoreAgent {
  ca_agent_id : string;
  ca_model : string;
  ca_computer_use_enabled : bool;
  ca_max_iterations : Z
}.

Record AgentTask := mkAgentTask {
  id : string;
  description : string;
  task_tools_allowed : list string;
  task_computer_use_enabled : bool
}.

Record CartritaResponse := mkResponse {
  success : bool;
  content : string;
  agent_id : string;
  task_id : string;
  execution_time_ms : Z;
  error : option string
}.

(** One entry of [agent_performance]. Python floats are rationals here,
    every float operation being followed by a rounding [rnd]. *)
Record Perf := mkPerf {
  tasks_completed : Z;
  success_rate : Q;
  average_response_time : Q;
  last_active : string
}.

Record Delegation := mkDelegation {
  d_task_id : string;
  d_description : string;
  d_assigned_agent : string;
  d_success : bool;
  d_execution_time : Z;
  d_timestamp : string
}.

Record Manager := mkManager {
  agents : gmap string CartritaCoreAgent;
  agent_configs : gmap string AgentConfig;
  active_tasks : gmap string AgentTask;
  task_results : gmap string CartritaResponse;
  delegation_history : list Delegation;
  agent_performance : gmap string Perf;
  supervisor_agent_id : string
}.

(** State right after [__init__], before the default agents exist. *)
Definition init : Manager :=
  mkManager ∅ ∅ ∅ ∅ [] ∅ "supervisor_cartrita_v2".

Definition computer_keywords : list string :=
  [ "screenshot"; "click"; "type"; "scroll"; "navigate"; "browse";
    "open application"; "close window"; "desktop"; "automate";
    "gui"; "interface"; "button"; "menu"; "mouse"; "keyboard" ].

Definition research_keywords : list string :=
  [ "search"; "research"; "find information"; "look up"; "investigate";
    "gather data"; "fact check"; "web search"; "current events" ].

Definition vision_keywords : list string :=
  [ "image"; "picture"; "screenshot"; "visual"; "analyze image";
    "ocr"; "computer vision"; "describe image" ].

Definition code_keywords : list string :=
  [ "code"; "program"; "script"; "function"; "debug"; "implement";
    "programming"; "software"; "algorithm"; "javascript"; "python" ].

Definition writing_keywords : list string :=
  [ "write"; "create content"; "article"; "blog"; "essay"; "documentation";
    "report"; "copy"; "compose" ].

Definition _get_default_tools : list string :=
  [ "web_search"; "file_read"; "file_write"; "screenshot";
    "system_info"; "execute_code" ].

Section Manager.
(** [str.lower]. *)
Variable lower : string -> string.
(** Rounding of a real result to a float. *)
Variable rnd : Q -> Q.
(** The worker's own [execute_task]: a response, or the text of the
    exception it raised. *)
Variable agent_execute : CartritaCoreAgent -> AgentTask -> string + CartritaResponse.

Definition _requires_computer_use (task_description : string) : bool :=
  any_in computer_keywords (lower task_description).

Definition _route_task (m : Manager) (task : AgentTask) : string :=
  let task_description := lower (description task) in
  if _requires_computer_use task_description then "computer_use_agent_v2"
  else if any_in research_keywords task_description then "research_agent_v2"
  else if any_in vision_keywords task_description then "vision_agent_v2"
  else if any_in code_keywords task_description then "code_writer_agent_v2"
  else if any_in writing_keywords task_description then "writer_agent_v2"
  else supervisor_agent_id m.

(** [create_agent]: [inl] is the [ValueError] for a duplicate id. *)
Definition create_agent (now : string) (agent_id : string)
    (config : AgentConfig) (m : Manager) : string + Manager :=
  if bool_decide (agent_id ∈ dom (agents m)) then
    inl ("Agent " +:+ agent_id +:+ " already exists")
  else
    let agent := mkCoreAgent agent_id (model config)
                   (computer_use_enabled config) (max_iterations config) in
    inr (mkManager (<[agent_id := agent]> (agents m))
           (<[agent_id := config]> (agent_configs m))
           (active_tasks m) (task_results m) (delegation_history m)
           (<[agent_id := mkPerf 0 1%Q 0%Q now]> (agent_performance m))
           (supervisor_agent_id m)).

Definition alpha : Q := rnd (1 # 10).

(** [alpha * sample + (1 - alpha) * prev] in float arithmetic. *)
Definition ema (sample prev : Q) : Q :=
  rnd (rnd (alpha * sample) + rnd (rnd (1 - alpha) * prev))%Q.

Definition update_perf (now : string) (response : CartritaResponse)
    (perf : Perf) : Perf :=
  let current_success : Q := if success response then 1%Q else 0%Q in
  mkPerf (tasks_completed perf + 1)
    (ema current_success (success_rate perf))
    (if (0 <? execution_time_ms response)%Z
     then ema (rnd (inject_Z (execution_time_ms response)))
              (average_response_time perf)
     else average_response_time perf)
    now.

Definition _update_agent_performance (now : string) (agent_id : string)
    (response : CartritaResponse) (m : Manager) : Manager :=
  match agent_performance m !! agent_id with
  | None => m
  | Some perf =>
      mkManager (agents m) (agent_configs m) (active_tasks m)
        (task_results m) (delegation_history m)
        (<[agent_id := update_perf now response perf]> (agent_performance m))
        (supervisor_agent_id m)
  end.

(** Lines 319-322 of [execute_task]: the worker the task is given to. *)
Definition assign_agent (m : Manager) (task : AgentTask)
    (preferred_agent : option string) : string :=
  match preferred_agent with
  | Some p =>
      if truthy p && bool_decide (p ∈ dom (agents m)) then p
      else _route_task m task
  | None => _route_task m task
  end.

Definition with_active (m : Manager) (a : gmap string AgentTask) : Manager :=
  mkManager (agents m) (agent_configs m) a (task_results m)
    (delegation_history m) (agent_performance m) (supervisor_agent_id m).

Definition store_result (m : Manager) (tid : string) (r : CartritaResponse)
    : Manager :=
  mkManager (agents m) (agent_configs m) (active_tasks m)
    (<[tid := r]> (task_results m))
    (delegation_history m) (agent_performance m) (supervisor_agent_id m).

Definition record_delegation (m : Manager) (d : Delegation) : Manager :=
  mkManager (agents m) (agent_configs m) (active_tasks m) (task_results m)
    (delegation_history m ++ [d]) (agent_performance m) (supervisor_agent_id m).

Definition manager_error (tid e : string) : CartritaResponse :=
  mkResponse false "Task execution failed" "manager" tid 0 (Some e).

(** [execute_task]; [uuid] is the fresh task id, [now1] and [now2] the
    two clock readings taken on the success path. *)
Definition execute_task (uuid now1 now2 : string) (task_description : string)
    (preferred_agent : option string) (m : Manager)
    : CartritaResponse * Manager :=
  let task := mkAgentTask uuid task_description _get_default_tools
                (_requires_computer_use task_description) in
  let m1 := with_active m (<[uuid := task]> (active_tasks m)) in
  let assigned_agent_id := assign_agent m1 task preferred_agent in
  let '(response, m2) :=
    match agents m1 !! assigned_agent_id with
    | None => let r := manager_error uuid ("'" +:+ assigned_agent_id +:+ "'") in
              (r, store_result m1 uuid r)
    | Some agent =>
        match agent_execute agent task with
        | inl e => let r := manager_error uuid e in
                   (r, store_result m1 uuid r)
        | inr response =>
            let m' := store_result m1 uuid response in
            let m' := _update_agent_performance now1 assigned_agent_id response m' in
            let m' := record_delegation m'
                        (mkDelegation uuid (String.substring 0 100 task_description)
                           assigned_agent_id (success response)
                           (execution_time_ms response) now2) in
            (response, m')
        end
    end in
  (response, with_active m2 (delete uuid (active_tasks m2))).

Definition shutdown_agent (agent_id : string) (m : Manager) : bool * Manager :=
  if bool_decide (agent_id ∈ dom (agents m)) then
    (true, mkManager (delete agent_id (agents m))
             (delete agent_id (agent_configs m))
             (active_tasks m) (task_results m) (delegation_history m)
             (delete agent_id (agent_performance m))
             (supervisor_agent_id m))
  else (false, m).

Definition shutdown_all (m : Manager) : Manager :=
  mkManager ∅ ∅ ∅ (task_results m) (delegation_history m) ∅
    (supervisor_agent_id m).

(** [os.getenv(name)]. *)
Variable getenv : string -> option string.

Definition get_model_for_agent (agent_type : string) : string :=
  let env name dflt := default dflt (getenv name) in
  if String.eqb agent_type "supervisor" then env "SUPERVISOR_AGENT_MODEL" "gpt-4o"
  else if String.eqb agent_type "research" then env "RESEARCH_AGENT_MODEL" "gpt-4o"
  else if String.eqb agent_type "writer" then env "WRITER_AGENT_MODEL" "gpt-4o"
  else if String.eqb agent_type "vision" then env "VISION_AGENT_MODEL" "gpt-4o"
  else if String.eqb agent_type "computer_use" then env "COMPUTER_USE_AGENT_MODEL" "gpt-4o-mini"
  else if String.eqb agent_type "code_writer" then env "CODE_WRITER_AGENT_MODEL" "gpt-4o"
  else "gpt-4o".

(** The [create_agent] calls of [_initialize_default_agents], in order. *)
Definition default_agents (m : Manager) : list (string * AgentConfig) :=
  [ (supervisor_agent_id m,
     mkAgentConfig SUPERVISOR (get_model_for_agent "supervisor") false 10
       ["delegate_task"; "get_agent_status"; "web_search"]
       ["task_delegation"; "agent_coordination"; "workflow_management"]);
    ("research_agent_v2",
     mkAgentConfig RESEARCH (get_model_for_agent "research") false 10
       ["web_search"; "file_read"; "file_write"; "system_info"]
       ["web_research"; "fact_checking"; "data_analysis"]);
    ("writer_agent_v2",
     mkAgentConfig WRITER (get_model_for_agent "writer") false 10
       ["file_read"; "file_write"; "web_search"]
       ["content_creation"; "documentation"; "copywriting"; "technical_writing"]);
    ("vision_agent_v2",
     mkAgentConfig VISION (get_model_for_agent "vision") false 10
       ["screenshot"; "file_read"; "system_info"]
       ["image_analysis"; "ocr"; "visual_recognition"; "screenshot_analysis"]);
    ("computer_use_agent_v2",
     mkAgentConfig COMPUTER_USE (get_model_for_agent "computer_use") true 10
       ["screenshot"; "system_info"; "file_read"; "file_write"]
       ["gui_automation"; "desktop_control"; "web_navigation"; "app_interaction"]);
    ("code_writer_agent_v2",
     mkAgentConfig CODE_WRITER (get_model_for_agent "code_writer") false 10
       ["file_read"; "file_write"; "execute_code"; "web_search"]
       ["programming"; "debugging"; "code_review"; "architecture_design"]);
    ("research_agent_v2",
     mkAgentConfig RESEARCH "gpt-4o" false 10
       ["web_search"; "file_read"; "web_fetch"]
       ["web_research"; "fact_checking"; "data_analysis"]);
    ("writer_agent_v2",
     mkAgentConfig WRITER "gpt-4o" false 10
       ["file_write"; "file_read"; "web_search"]
       ["content_creation"; "documentation"; "copywriting"; "technical_writing"]);
    ("vision_agent_v2",
     mkAgentConfig VISION "gpt-4o" false 10
       ["screenshot"; "image_analysis"; "ocr"]
       ["image_analysis"; "ocr"; "visual_recognition"; "screenshot_analysis"]);
    ("computer_use_agent_v2",
     mkAgentConfig COMPUTER_USE "gpt-4o-mini" true 10
       ["screenshot"; "click"; "type"; "scroll"; "system_info"]
       ["gui_automation"; "desktop_control"; "web_navigation"; "app_interaction"]);
    ("code_writer_agent_v2",
     mkAgentConfig CODE_WRITER "gpt-4o" false 10
       ["file_read"; "file_write"; "execute_code"; "web_search"]
       ["programming"; "debugging"; "code_review"; "architecture_design"]) ].

(** A sequence of awaited [create_agent] calls: the first [ValueError]
    ends it, keeping the agents created so far. *)
Fixpoint create_all (now : string) (l : list (string * AgentConfig))
    (m : Manager) : option string * Manager :=
  match l with
  | [] => (None, m)
  | (aid, cfg) :: rest =>
      match create_agent now aid cfg m with
      | inl e => (Some e, m)
      | inr m' => create_all now rest m'
      end
  end.

Definition _initialize_default_agents (now : string) (m : Manager)
    : option string * Manager :=
  create_all now (default_agents m) m.

End Manager.

(** The identifiers the router can return besides the supervisor's. *)
Definition routed_worker_ids : list string :=
  [ "computer_use_agent_v2"; "research_agent_v2"; "vision_agent_v2";
    "code_writer_agent_v2"; "writer_agent_v2" ].

(** A pool "containing the default workers". *)
Definition has_default_workers (m : Manager) : Prop :=
  supervisor_agent_id m ∈ dom (agents m) /\
  Forall (fun w => w ∈ dom (agents m)) routed_worker_ids.

(** *** Routing facts *)

Section RouterFacts.
Variable lower : string -> string.
Hypothesis lower_idem : forall s, lower (lower s) = lower s.

(** [_route_task] hands an already lower-cased text to
    [_requires_computer_use], which lower-cases it again. *)
Lemma requires_computer_use_lowered (d : string) :
  _requires_computer_use lower (lower d) = any_in computer_keywords (lower d).
Proof. unfold _requires_computer_use. by rewrite lower_idem. Qed.

Lemma route_task_in_pool (m : Manager) (task : AgentTask) :
  has_default_workers m -> _route_task lower m task ∈ dom (agents m).
Proof.
  intros [Hsup Hall]. unfold routed_worker_ids in Hall.
  repeat match goal with
         | H : Forall _ (_ :: _) |- _ => apply Forall_cons in H as [? H]
         end.
  unfold _route_task.
  repeat match goal with |- context [if ?b then _ else _] => destruct b end;
    assumption.
Qed.

Lemma assign_agent_in_pool (m : Manager) (task : AgentTask)
    (preferred : option string) :
  has_default_workers m -> assign_agent lower m task preferred ∈ dom (agents m).
Proof.
  intros Hm. unfold assign_agent. destruct preferred as [p|].
  - destruct (truthy p); simpl; [|by apply route_task_in_pool].
    case_bool_decide; [done|by apply route_task_in_pool].
  - by apply route_task_in_pool.
Qed.

Lemma assign_agent_preferred (m : Manager) (task : AgentTask) (p : string) :
  p <> "" -> p ∈ dom (agents m) -> assign_agent lower m task (Some p) = p.
Proof.
  intros Hne Hin. unfold assign_agent.
  destruct p; [done|]. simpl. by rewrite bool_decide_eq_true_2.
Qed.

Lemma assign_agent_fallback (m : Manager) (task : AgentTask)
    (preferred : option string) :
  (preferred = None \/ preferred = Some "" \/
   exists p, preferred = Some p /\ p ∉ dom (agents m)) ->
  assign_agent lower m task preferred = _route_task lower m task.
Proof.
  intros [->|[->|(p & -> & Hp)]]; [done|done|]. unfold assign_agent.
  rewrite bool_decide_eq_false_2 by done. by rewrite andb_false_r.
Qed.

End RouterFacts.

(** *** Performance facts *)

(** What the argument needs of float rounding: it is monotone, keeps 0
    and 1, fixes its own results, and the two weights of the moving
    average do not add up to more than 1. *)
Record Rounding (rnd : Q -> Q) : Prop := {
  rnd_mono : forall x y, (x <= y)%Q -> (rnd x <= rnd y)%Q;
  rnd_0 : (rnd 0 == 0)%Q;
  rnd_1 : (rnd 1 == 1)%Q;
  rnd_idem : forall x, (rnd (rnd x) == rnd x)%Q;
  rnd_weights : (rnd (rnd (1 # 10) + rnd (1 - rnd (1 # 10))) <= 1)%Q
}.

Definition unit_interval (x : Q) : Prop := (0 <= x /\ x <= 1)%Q.

Definition perf_ok (p : Perf) : Prop := unit_interval (success_rate p).

Definition manager_ok (m : Manager) : Prop :=
  map_Forall (fun _ p => perf_ok p) (agent_performance m).

(** The operations of the manager that touch the performance map. *)
Inductive Op :=
| OpCreate (now agent_id : string) (config : AgentConfig)
| OpExecute (uuid now1 now2 task_description : string)
            (preferred_agent : option string)
| OpUpdate (now agent_id : string) (response : CartritaResponse)
| OpShutdownAgent (agent_id : string)
| OpShutdownAll.

Section Run.
Variable lower : string -> string.
Variable rnd : Q -> Q.
Variable agent_execute : CartritaCoreAgent -> AgentTask -> string + CartritaResponse.

Definition apply_op (o : Op) (m : Manager) : Manager :=
  match o with
  | OpCreate now agent_id config =>
      match create_agent now agent_id config m with
      | inl _ => m
      | inr m' => m'
      end
  | OpExecute uuid now1 now2 d pref =>
      snd (execute_task lower rnd agent_execute uuid now1 now2 d pref m)
  | OpUpdate now agent_id response =>
      _update_agent_performance rnd now agent_id response m
  | OpShutdownAgent agent_id => snd (shutdown_agent agent_id m)
  | OpShutdownAll => shutdown_all m
  end.

Definition run (ops : list Op) (m : Manager) : Manager :=
  fold_left (fun m o => apply_op o m) ops m.

Hypothesis R : Rounding rnd.

Lemma rnd_proper (x y : Q) : (x == y)%Q -> (rnd x == rnd y)%Q.
Proof.
  intros E.
  assert (rnd x <= rnd y)%Q by (apply (rnd_mono _ R); lra).
  assert (rnd y <= rnd x)%Q by (apply (rnd_mono _ R); lra).
  lra.
Qed.

Lemma rnd_nonneg (x : Q) : (0 <= x)%Q -> (0 <= rnd x)%Q.
Proof.
  intros H. pose proof (rnd_0 _ R). pose proof (rnd_mono _ R 0 x H). lra.
Qed.

Lemma rnd_le_1 (x : Q) : (x <= 1)%Q -> (rnd x <= 1)%Q.
Proof.
  intros H. pose proof (rnd_1 _ R). pose proof (rnd_mono _ R x 1 H). lra.
Qed.

Lemma alpha_unit : unit_interval (alpha rnd).
Proof.
  unfold unit_interval, alpha. split; [apply rnd_nonneg|apply rnd_le_1]; lra.
Qed.

Lemma beta_unit : unit_interval (rnd (1 - alpha rnd)).
Proof.
  destruct alpha_unit as [Ha0 Ha1].
  split; [apply rnd_nonneg|apply rnd_le_1]; lra.
Qed.

Lemma rnd_scaled_prev (prev : Q) :
  unit_interval prev ->
  (0 <= rnd (rnd (1 - alpha rnd) * prev) /\
   rnd (rnd (1 - alpha rnd) * prev) <= rnd (1 - alpha rnd))%Q.
Proof.
  intros [Hp0 Hp1]. destruct beta_unit as [Hb0 Hb1]. split.
  - apply rnd_nonneg. by apply Qmult_le_0_compat.
  - pose proof (rnd_idem _ R (1 - alpha rnd)) as Hi.
    assert (Hm : (rnd (1 - alpha rnd) * prev <= rnd (1 - alpha rnd))%Q) by nra.
    pose proof (rnd_mono _ R _ _ Hm). lra.
Qed.

Lemma ema_success_unit (prev : Q) :
  unit_interval prev -> unit_interval (ema rnd 1 prev).
Proof.
  intros Hp. destruct (rnd_scaled_prev prev Hp) as [Hs0 Hs1].
  destruct alpha_unit as [Ha0 Ha1].
  assert (Ea : (rnd (alpha rnd * 1) == alpha rnd)%Q).
  { pose proof (rnd_proper (alpha rnd * 1) (alpha rnd) (Qmult_1_r _)).
    pose proof (rnd_idem _ R (1 # 10)). unfold alpha in *. lra. }
  unfold ema. split.
  - apply rnd_nonneg. lra.
  - pose proof (rnd_weights _ R) as Hw.
    assert (Hm : (rnd (alpha rnd * 1) + rnd (rnd (1 - alpha rnd) * prev)
                  <= rnd (1 # 10) + rnd (1 - rnd (1 # 10)))%Q)
      by (unfold alpha in *; lra).
    pose proof (rnd_mono _ R _ _ Hm). lra.
Qed.

Lemma ema_failure_unit (prev : Q) :
  unit_interval prev -> unit_interval (ema rnd 0 prev).
Proof.
  intros Hp. destruct (rnd_scaled_prev prev Hp) as [Hs0 Hs1].
  destruct beta_unit as [Hb0 Hb1].
  assert (Ea : (rnd (alpha rnd * 0) == 0)%Q).
  { pose proof (rnd_proper (alpha rnd * 0) 0 (Qmult_0_r _)).
    pose proof (rnd_0 _ R). lra. }
  unfold ema. split.
  - apply rnd_nonneg. lra.
  - apply rnd_le_1. lra.
Qed.

Lemma update_perf_ok (now : string) (response : CartritaResponse) (p : Perf) :
  perf_ok p -> perf_ok (update_perf rnd now response p).
Proof.
  unfold perf_ok, update_perf. simpl. intros Hp.
  destruct (success response); [by apply ema_success_unit|by apply ema_failure_unit].
Qed.

Lemma update_agent_performance_ok now agent_id response (m : Manager) :
  manager_ok m -> manager_ok (_update_agent_performance rnd now agent_id response m).
Proof.
  intros Hm. unfold _update_agent_performance.
  destruct (agent_performance m !! agent_id) as [p|] eqn:E; [|done].
  unfold manager_ok. simpl. apply map_Forall_insert_2; [|done].
  apply update_perf_ok. by apply (Hm agent_id).
Qed.

Lemma create_agent_ok now agent_id config (m m' : Manager) :
  manager_ok m -> create_agent now agent_id config m = inr m' -> manager_ok m'.
Proof.
  intros Hm. unfold create_agent. case_bool_decide; [done|].
  intros [= <-]. unfold manager_ok. simpl. apply map_Forall_insert_2; [|done].
  unfold perf_ok, unit_interval. simpl. lra.
Qed.

Lemma execute_task_ok uuid now1 now2 d pref (m : Manager) :
  manager_ok m ->
  manager_ok (snd (execute_task lower rnd agent_execute uuid now1 now2 d pref m)).
Proof.
  intros Hm. unfold execute_task.
  set (task := mkAgentTask _ _ _ _).
  set (m1 := with_active m _).
  set (a := assign_agent lower m1 task pref).
  assert (H1 : manager_ok m1) by done.
  destruct (agents m1 !! a) as [agent|]; [|done].
  destruct (agent_execute agent task) as [e|response]; [done|].
  simpl. unfold manager_ok. simpl.
  apply (update_agent_performance_ok now1 a response (store_result m1 uuid response)).
  done.
Qed.

Lemma apply_op_ok (o : Op) (m : Manager) : manager_ok m -> manager_ok (apply_op o m).
Proof.
  intros Hm. destruct o; simpl.
  - destruct (create_agent _ _ _ _) eqn:E; [done|]. by eapply create_agent_ok.
  - by apply execute_task_ok.
  - by apply update_agent_performance_ok.
  - unfold shutdown_agent. case_bool_decide; [|done]. simpl.
    unfold manager_ok. simpl. by apply map_Forall_delete.
  - unfold shutdown_all, manager_ok. simpl. apply map_Forall_empty.
Qed.

Lemma run_ok (ops : list Op) (m : Manager) : manager_ok m -> manager_ok (run ops m).
Proof.
  revert m. induction ops as [|o ops IH]; intros m Hm; [done|].
  simpl. apply IH. by apply apply_op_ok.
Qed.

End Run.

Lemma exact_rounding : Rounding (fun x => x).
Proof. split; intros; try done; try reflexivity. Qed.

(** A rounding that does lose digits: down to the next multiple of
    2^-53. *)
Definition grid : Q := inject_Z (2 ^ 53).

Definition round_down (x : Q) : Q := (inject_Z (Qfloor (x * grid)) / grid)%Q.

Lemma grid_pos : (0 < grid)%Q.
Proof. reflexivity. Qed.

Lemma round_down_le (x : Q) : (round_down x <= x)%Q.
Proof.
  unfold round_down. apply Qle_shift_div_r; [apply grid_pos|]. apply Qfloor_le.
Qed.

Lemma round_down_mono (x y : Q) : (x <= y)%Q -> (round_down x <= round_down y)%Q.
Proof.
  intros H. unfold round_down. apply Qmult_le_compat_r.
  - rewrite <- Zle_Qle. apply Qfloor_resp_le. apply Qmult_le_compat_r; [done|].
    apply Qlt_le_weak, grid_pos.
  - apply Qinv_le_0_compat, Qlt_le_weak, grid_pos.
Qed.

Lemma round_down_grid (k : Z) :
  (round_down (inject_Z k / grid) == inject_Z k / grid)%Q.
Proof.
  unfold round_down.
  assert (E : (inject_Z k / grid * grid == inject_Z k)%Q).
  { field. intros H. pose proof grid_pos. lra. }
  rewrite (Qfloor_comp _ _ E), Qfloor_Z. reflexivity.
Qed.

Lemma round_down_rounding : Rounding round_down.
Proof.
  split.
  - apply round_down_mono.
  - reflexivity.
  - reflexivity.
  - intros x. unfold round_down at 2 3. apply round_down_grid.
  - assert (H1 := round_down_le (1 # 10)).
    assert (H2 := round_down_le (1 - round_down (1 # 10))).
    assert (H3 : (round_down (1 # 10) + round_down (1 - round_down (1 # 10)) <= 1)%Q)
      by lra.
    apply round_down_mono in H3.
    assert (H4 : (round_down 1 == 1)%Q) by reflexivity. lra.
Qed.

(** On binary64 itself the two weights add up to exactly 1: with [0.1]
    the double nearest to one tenth, [0.1 + (1 - 0.1)] evaluates to [1]. *)
Example binary64_weights :
  let tenth : PrimFloat.float := 0x1.999999999999ap-4%float in
  PrimFloat.eqb (PrimFloat.add tenth (PrimFloat.sub PrimFloat.one tenth))
    PrimFloat.one = true.
Proof. reflexivity. Qed.

(** *** The router's rule order *)

(** The rules in the order the specification lists them, for a
    description already lower-cased to [d] and the chosen worker [w]. *)
Definition keyword_rules (m : Manager) (d w : string) : Prop :=
  (any_in computer_keywords d = true -> w = "computer_use_agent_v2") /\
  (any_in computer_keywords d = false ->
     (any_in research_keywords d = true -> w = "research_agent_v2") /\
     (any_in research_keywords d = false ->
        (any_in vision_keywords d = true -> w = "vision_agent_v2") /\
        (any_in vision_keywords d = false ->
           (any_in code_keywords d = true -> w = "code_writer_agent_v2") /\
           (any_in code_keywords d = false ->
              (any_in writing_keywords d = true -> w = "writer_agent_v2") /\
              (any_in writing_keywords d = false -> w = supervisor_agent_id m))))).

Definition rule_order (lower : string -> string) (m : Manager)
    (task : AgentTask) (preferred : option string) (w : string) : Prop :=
  w ∈ dom (agents m) /\
  (forall p, preferred = Some p -> p <> "" -> p ∈ dom (agents m) -> w = p) /\
  ((preferred = None \/ preferred = Some "" \/
    exists p, preferred = Some p /\ p ∉ dom (agents m)) ->
   keyword_rules m (lower (description task)) w).

Lemma route_task_keyword_rules (lower : string -> string) (m : Manager)
    (task : AgentTask) :
  (forall s, lower (lower s) = lower s) ->
  keyword_rules m (lower (description task)) (_route_task lower m task).
Proof.
  intros Hidem. unfold keyword_rules, _route_task.
  rewrite (requires_computer_use_lowered lower Hidem).
  repeat match goal with
         | |- context [if ?b then _ else _] => destruct b
         end; repeat split; intros; try done.
Qed.

(** The pool [_initialize_default_agents] leaves behind, with no
    environment override of the model names. *)
Definition default_pool : Manager :=
  snd (_initialize_default_agents (fun _ => None) "2025-01-01T00:00:00" init).

Definition blank_config : AgentConfig := mkAgentConfig CUSTOM "gpt-4o" false 10 [] [].

(** The default pool with one more worker, registered under the empty id. *)
Definition pool_with_blank_id : Manager :=
  match create_agent "2025-01-01T00:00:01" "" blank_config default_pool with
  | inr m => m
  | inl _ => default_pool
  end.

Definition task_of (d : string) : AgentTask :=
  mkAgentTask "00000000-0000-4000-8000-000000000000" d _get_default_tools
    (_requires_computer_use PyStr.lower d).

Lemma default_pool_ids :
  dom (agents default_pool) =
  {[ "supervisor_cartrita_v2"; "research_agent_v2"; "writer_agent_v2";
     "vision_agent_v2"; "computer_use_agent_v2"; "code_writer_agent_v2" ]}.
Proof. apply (bool_decide_unpack _). by vm_compute. Qed.

(** The second round of declarations stops at its first duplicate. *)
Lemma initialize_default_agents_raises :
  fst (_initialize_default_agents (fun _ => None) "2025-01-01T00:00:00" init)
  = Some "Agent research_agent_v2 already exists".
Proof. vm_compute. reflexivity. Qed.

Lemma default_pool_has_default_workers : has_default_workers default_pool.
Proof.
  unfold has_default_workers, routed_worker_ids. rewrite default_pool_ids.
  split; [change (supervisor_agent_id default_pool) with "supervisor_cartrita_v2"|];
    repeat constructor; set_solver.
Qed.

(** Scenarios 1 to 4 of the specification, on the default pool. *)
Example route_code :
  assign_agent PyStr.lower default_pool
    (task_of "Please write a python script to sort a list") None
  = "code_writer_agent_v2".
Proof. by vm_compute. Qed.

Example route_computer_use :
  assign_agent PyStr.lower default_pool
    (task_of "Take a screenshot of the current desktop") None
  = "computer_use_agent_v2"
  /\ task_computer_use_enabled (task_of "Take a screenshot of the current desktop") = true.
Proof. by vm_compute. Qed.

Example route_default :
  assign_agent PyStr.lower default_pool (task_of "Summarize my week") None
  = "supervisor_cartrita_v2".
Proof. by vm_compute. Qed.

Example route_preferred :
  assign_agent PyStr.lower default_pool (task_of "research the CVE feed")
    (Some "writer_agent_v2")
  = "writer_agent_v2".
Proof. by vm_compute. Qed.

(** C1, as amended: for every task and every pool containing the default
    workers the router picks one worker, which is in the pool; a
    non-empty preferred id that exists in the pool is chosen; when no
    preferred id is given, or it is empty or not in the pool, the
    lower-cased description is matched against the computer-use keywords
    first, then against the research, vision, code and writing groups in
    that order, the first group with a substring match selecting its
    worker, and the supervisor is chosen when none matches. *)
Theorem router_rule_order
    (lower : string -> string)
    (lower_idem : forall s, lower (lower s) = lower s)
    (m : Manager) (task : AgentTask) (preferred : option string) :
  has_default_workers m ->
  rule_order lower m task preferred (assign_agent lower m task preferred).
Proof.
  intros Hm. unfold rule_order. split; [|split].
  - by apply assign_agent_in_pool.
  - intros p -> Hne Hin. by apply assign_agent_preferred.
  - intros Hno. rewrite (assign_agent_fallback lower m task preferred Hno).
    by apply route_task_keyword_rules.
Qed.

Lemma router_rule_order_witness :
  (forall s, PyStr.lower (PyStr.lower s) = PyStr.lower s) /\
  has_default_workers default_pool /\
  rule_order PyStr.lower default_pool
    (task_of "Please write a python script to sort a list") None
    (assign_agent PyStr.lower default_pool
       (task_of "Please write a python script to sort a list") None).
Proof.
  split; [exact PyStr.lower_idem|].
  split; [exact default_pool_has_default_workers|].
  apply (router_rule_order PyStr.lower PyStr.lower_idem default_pool
           (task_of "Please write a python script to sort a list") None).
  exact default_pool_has_default_workers.
Defined.

(** C1 as stated fails: a preferred id that is given and exists in the
    pool is passed over when it is the empty string, which Python's
    [if preferred_agent and ...] counts as absent. *)
Lemma preferred_blank_id_passed_over :
  has_default_workers pool_with_blank_id /\
  "" ∈ dom (agents pool_with_blank_id) /\
  assign_agent PyStr.lower pool_with_blank_id
    (task_of "research the CVE feed") (Some "")
  = "research_agent_v2".
Proof.
  split; [|split].
  - split; [apply (bool_decide_unpack _); by vm_compute|].
    unfold routed_worker_ids.
    repeat constructor; apply (bool_decide_unpack _); by vm_compute.
  - apply (bool_decide_unpack _). by vm_compute.
  - by vm_compute.
Qed.

(** C9: from the empty manager, after any finite sequence of agent
    creations, task executions, performance updates and shutdowns, every
    worker's success rate lies in the closed interval [0,1]. *)
Theorem success_rate_in_unit_interval
    (lower : string -> string) (rnd : Q -> Q)
    (agent_execute : CartritaCoreAgent -> AgentTask -> string + CartritaResponse)
    (R : Rounding rnd) (ops : list Op) :
  map_Forall (fun _ p => (0 <= success_rate p /\ success_rate p <= 1)%Q)
    (agent_performance (run lower rnd agent_execute ops init)).
Proof.
  apply (run_ok lower rnd agent_execute R ops init).
  unfold manager_ok, init. simpl. apply map_Forall_empty.
Qed.

Definition failing_response : CartritaResponse :=
  mkResponse false "" "research_agent_v2" "t1" 120 (Some "boom").
Definition passing_response : CartritaResponse :=
  mkResponse true "done" "research_agent_v2" "t2" 80 None.

Lemma success_rate_in_unit_interval_witness :
  Rounding round_down /\
  map_Forall (fun _ p => (0 <= success_rate p /\ success_rate p <= 1)%Q)
    (agent_performance
       (run PyStr.lower round_down (fun _ _ => inr passing_response)
          [ OpCreate "t0" "research_agent_v2" blank_config;
            OpUpdate "t1" "research_agent_v2" failing_response;
            OpUpdate "t2" "research_agent_v2" passing_response;
            OpExecute "u1" "t3" "t4" "look up the weather" None ]
          init)).
Proof.
  split; [exact round_down_rounding|].
  apply (success_rate_in_unit_interval PyStr.lower round_down
           (fun _ _ => inr passing_response) round_down_rounding).
Defined.

(** With exact arithmetic one failure then one success give 0.91. *)
Example success_rate_after_two_updates :
  (success_rate
     (update_perf (fun x => x) "t2" passing_response
        (update_perf (fun x => x) "t1" failing_response (mkPerf 0 1 0 "t0")))
   == 91 # 100)%Q.
Proof. by vm_compute. Qed.

End AgentManager.


(* ===================================================================== *)
(** ** Python values *)
(* ===================================================================== *)

Module Py.

(** Python values that travel as tool parameters, tool results and raw
    message data; a [datetime] is its timestamp in microseconds. *)
#[local] Unset Elimination Schemes.
Inductive PyVal :=
| VNone
| VBool (b : bool)
| VInt (n : Z)
| VFloat (q : Q)
| VStr (s : string)
| VDatetime (t : Z)
| VList (l : list PyVal)
| VDict (kvs : list (string * PyVal)).
#[local] Set Elimination Schemes.

Definition Dict := list (string * PyVal).

(** [d[k] = v] on an insertion-ordered dictionary. *)
Fixpoint dict_set (k : string) (v : PyVal) (d : Dict) : Dict :=
  match d with
  | [] => [(k, v)]
  | (k', v') :: rest =>
      if String.eqb k' k then (k, v) :: rest else (k', v') :: dict_set k v rest
  end.

Fixpoint dict_get (k : string) (d : Dict) : option PyVal :=
  match d with
  | [] => None
  | (k', v) :: rest => if String.eqb k' k then Some v else dict_get k rest
  end.

End Py.


(* ===================================================================== *)
(** ** Tool registry (cartrita_core/tools.py) *)
(* ===================================================================== *)

Module ToolRegistry.
Import PyStr Py.

Inductive ToolPermissionLevel := PUBLIC | RESTRICTED | SUPERVISED | ADMIN.

Definition level_eqb (a b : ToolPermissionLevel) : bool :=
  match a, b with
  | PUBLIC, PUBLIC | RESTRICTED, RESTRICTED
  | SUPERVISED, SUPERVISED | ADMIN, ADMIN => true
  | _, _ => false
  end.

(** What calling a tool function yields. *)
Inductive Outcome :=
| Returned (result : PyVal)
| Raised (message : string).

(** One entry of [execution_history]. *)
Record LogEntry := mkLogEntry {
  log_tool_name : string;
  log_agent_id : string;
  log_success : bool;
  log_execution_time : option Z;
  log_error : option string;
  log_timestamp : Z
}.

Section Registry.
(** Whatever the registered callables act upon. *)
Variable World : Type.

Definition ToolFn := Dict -> World -> Outcome * World.

Record Tool := mkTool {
  function : ToolFn;
  tool_description : string;
  parameters : PyVal;
  registered_at : Z
}.

Record Registry := mkRegistry {
  tools : gmap string Tool;
  tool_permissions : gmap string ToolPermissionLevel;
  agent_permissions : gmap string (list string);
  tool_usage : gmap string Z;
  execution_history : list LogEntry
}.

Definition empty_registry : Registry := mkRegistry ∅ ∅ ∅ ∅ [].

Definition register_tool (now : Z) (name : string) (fn : ToolFn)
    (permission_level : ToolPermissionLevel) (descr : string)
    (params : PyVal) (r : Registry) : Registry :=
  mkRegistry (<[name := mkTool fn descr params now]> (tools r))
    (<[name := permission_level]> (tool_permissions r))
    (agent_permissions r)
    (<[name := 0%Z]> (tool_usage r))
    (execution_history r).

Definition mem (x : string) (l : list string) : bool :=
  existsb (String.eqb x) l.

(** The loop body of [grant_permission]. *)
Definition grant_one (r : Registry) (granted : list string) (tool_name : string)
    : list string :=
  if bool_decide (tool_name ∈ dom (tools r)) then
    if mem tool_name granted then granted else granted ++ [tool_name]
  else granted.

Definition grant_permission (agent_id : string) (tool_names : list string)
    (r : Registry) : Registry :=
  let current := default [] (agent_permissions r !! agent_id) in
  mkRegistry (tools r) (tool_permissions r)
    (<[agent_id := fold_left (grant_one r) tool_names current]> (agent_permissions r))
    (tool_usage r) (execution_history r).

(** [list.remove]: the first occurrence only. *)
Fixpoint remove_first (x : string) (l : list string) : list string :=
  match l with
  | [] => []
  | y :: rest => if String.eqb x y then rest else y :: remove_first x rest
  end.

Definition revoke_permission (agent_id : string) (tool_names : list string)
    (r : Registry) : Registry :=
  match agent_permissions r !! agent_id with
  | None => r
  | Some current =>
      mkRegistry (tools r) (tool_permissions r)
        (<[agent_id := fold_left (fun g t => remove_first t g) tool_names current]>
           (agent_permissions r))
        (tool_usage r) (execution_history r)
  end.

Definition _check_permission (r : Registry) (agent_id tool_name : string) : bool :=
  let permission_level := default ADMIN (tool_permissions r !! tool_name) in
  if level_eqb permission_level PUBLIC then true
  else mem tool_name (default [] (agent_permissions r !! agent_id)).

(** [json.loads]: [None] is a [JSONDecodeError]. *)
Variable json_loads : string -> option PyVal.
(** [str(x)]. *)
Variable py_str : PyVal -> string.

(** [bool(x)] for a non-string parameter value. *)
Definition truthy_val (v : PyVal) : bool :=
  match v with
  | VNone => false
  | VBool b => b
  | VInt n => negb (n =? 0)%Z
  | VFloat q => negb (Qeq_bool q 0)
  | VStr s => truthy s
  | VDatetime _ => true
  | VList l => match l with [] => false | _ => true end
  | VDict d => match d with [] => false | _ => true end
  end.

(** The "Parse parameters" step. *)
Definition parse_parameters (raw : PyVal) : PyVal :=
  match raw with
  | VStr s => match json_loads s with
              | Some v => v
              | None => VDict [("input", VStr s)]
              end
  | v => if truthy_val v then v else VDict []
  end.

(** The call of the tool function on the parsed keyword arguments:
    anything but a mapping is a [TypeError]. *)
Definition call_tool (fn : ToolFn) (params : PyVal) (w : World) : Outcome * World :=
  match params with
  | VDict kwargs => fn kwargs w
  | _ => (Raised "argument after ** must be a mapping", w)
  end.

Record Execution := mkExecution {
  ex_result : Dict;
  ex_registry : Registry;
  ex_world : World;
  (** the callable that was invoked, with its arguments, if any was *)
  ex_invoked : option (string * PyVal)
}.

Definition not_found (tool_name : string) : Dict :=
  [("success", VBool false); ("error", VStr ("Tool " +:+ tool_name +:+ " not found"))].

Definition permission_denied (agent_id tool_name : string) : Dict :=
  [("success", VBool false);
   ("error", VStr ("Agent " +:+ agent_id +:+ " lacks permission for tool " +:+ tool_name))].

(** [execute_tool]; [t0] and [t1] are the clock readings before and after
    the call, in microseconds. *)
Definition execute_tool (t0 t1 : Z) (tool_name : string) (raw : PyVal)
    (agent_id : string) (r : Registry) (w : World) : Execution :=
  match tools r !! tool_name with
  | None => mkExecution (not_found tool_name) r w None
  | Some tool =>
      if negb (_check_permission r agent_id tool_name) then
        mkExecution (permission_denied agent_id tool_name) r w None
      else
        let params := parse_parameters raw in
        let failed e w' :=
          mkExecution [("success", VBool false); ("error", VStr e)]
            (mkRegistry (tools r) (tool_permissions r) (agent_permissions r)
               (tool_usage r)
               (execution_history r ++
                  [mkLogEntry tool_name agent_id false None (Some e) t1]))
            w' (Some (tool_name, params)) in
        match call_tool (function tool) params w with
        | (Raised e, w') => failed e w'
        | (Returned result, w') =>
            let execution_time := (t1 - t0)%Z in
            match tool_usage r !! tool_name with
            | None => failed ("'" +:+ tool_name +:+ "'") w'
            | Some n =>
                let r' :=
                  mkRegistry (tools r) (tool_permissions r) (agent_permissions r)
                    (<[tool_name := (n + 1)%Z]> (tool_usage r))
                    (execution_history r ++
                       [mkLogEntry tool_name agent_id true (Some execution_time)
                          None t0]) in
                let d := match result with
                         | VDict d => d
                         | other => [("output", VStr (py_str other))]
                         end in
                mkExecution
                  (dict_set "execution_time" (VInt execution_time)
                     (dict_set "success" (VBool true) d))
                  r' w' (Some (tool_name, params))
            end
        end
  end.

End Registry.

Arguments mkTool {World}.
Arguments mkRegistry {World}.
Arguments tools {World}.
Arguments tool_permissions {World}.
Arguments agent_permissions {World}.
Arguments tool_usage {World}.
Arguments execution_history {World}.
Arguments ex_result {World}.
Arguments ex_registry {World}.
Arguments ex_world {World}.
Arguments ex_invoked {World}.
Arguments _check_permission {World}.
Arguments register_tool {World}.
Arguments grant_permission {World}.
Arguments revoke_permission {World}.
Arguments empty_registry {World}.
Arguments execute_tool {World}.

(** *** Permission check *)

Lemma mem_spec (x : string) (l : list string) : mem x l = true <-> x ∈ l.
Proof.
  unfold mem. rewrite existsb_exists. split.
  - intros (y & Hin & Heq). apply String.eqb_eq in Heq as ->.
    by apply list_elem_of_In.
  - intros Hin. exists x. split; [by apply list_elem_of_In|apply String.eqb_refl].
Qed.

Lemma check_permission_spec {World} (r : Registry World) (agent_id tool_name : string) :
  _check_permission r agent_id tool_name = true <->
  tool_permissions r !! tool_name = Some PUBLIC \/
  tool_name ∈ default [] (agent_permissions r !! agent_id).
Proof.
  unfold _check_permission.
  destruct (tool_permissions r !! tool_name) as [[]|]; simpl; rewrite ?mem_spec;
    (split; [auto|intros [?|?]; done]).
Qed.


(** The JSON-schema dictionaries handed to [register_tool]. *)
Definition prop_schema (ty descr : string) (dflt : option PyVal) : PyVal :=
  VDict ([("type", VStr ty); ("description", VStr descr)] ++
         match dflt with Some d => [("default", d)] | None => [] end).

Definition object_schema (props : list (string * PyVal)) (required : option (list string))
    : PyVal :=
  VDict ([("type", VStr "object"); ("properties", VDict props)] ++
         match required with
         | Some l => [("required", VList (map VStr l))]
         | None => []
         end).

(** [_register_core_tools], for given implementations of the six tools. *)
Definition _register_core_tools {World} (now : Z)
    (_web_search _file_read _file_write _screenshot _system_info _execute_code
       : ToolFn World)
    (r : Registry World) : Registry World :=
  let r := register_tool now "web_search" _web_search PUBLIC
             "Search the web for information"
             (object_schema
                [("query", prop_schema "string" "Search query" None);
                 ("num_results",
                  prop_schema "integer" "Number of results to return" (Some (VInt 5)))]
                (Some ["query"])) r in
  let r := register_tool now "file_read" _file_read RESTRICTED
             "Read contents of a file"
             (object_schema
                [("file_path", prop_schema "string" "Path to file to read" None)]
                (Some ["file_path"])) r in
  let r := register_tool now "file_write" _file_write RESTRICTED
             "Write content to a file"
             (object_schema
                [("file_path", prop_schema "string" "Path to file to write" None);
                 ("content", prop_schema "string" "Content to write to file" None);
                 ("mode",
                  prop_schema "string" "Write mode: 'w' (overwrite) or 'a' (append)"
                    (Some (VStr "w")))]
                (Some ["file_path"; "content"])) r in
  let r := register_tool now "screenshot" _screenshot RESTRICTED
             "Take a screenshot of the current desktop"
             (object_schema
                [("region",
                  VDict [("type", VStr "array");
                         ("description",
                          VStr "Optional region [x, y, width, height] to capture");
                         ("items", VDict [("type", VStr "integer")]);
                         ("minItems", VInt 4); ("maxItems", VInt 4)])]
                None) r in
  let r := register_tool now "system_info" _system_info PUBLIC
             "Get system information"
             (object_schema
                [("info_type",
                  prop_schema "string"
                    "Type of info: 'basic', 'processes', 'memory', 'disk'"
                    (Some (VStr "basic")))]
                None) r in
  register_tool now "execute_code" _execute_code SUPERVISED
    "Execute code in a sandboxed environment"
    (object_schema
       [("code", prop_schema "string" "Code to execute" None);
        ("language",
         prop_schema "string" "Programming language: 'python', 'javascript', 'bash'"
           (Some (VStr "python")));
        ("timeout",
         prop_schema "integer" "Execution timeout in seconds" (Some (VInt 30)))]
       (Some ["code"])) r.

(** A registry whose tools only count their calls. *)
Definition counting_tool : ToolFn nat :=
  fun _ n => (Returned (VDict [("calls", VInt (Z.of_nat (S n)))]), S n).

Definition core_registry : Registry nat :=
  _register_core_tools 0 counting_tool counting_tool counting_tool
    counting_tool counting_tool counting_tool empty_registry.

(** Scenario 5: agent [A], without any grant, asks for [file_read]. *)
Example permission_denial :
  let ex := execute_tool (fun _ => None) (fun _ => "") 10 20 "file_read"
              (VDict [("file_path", VStr "/tmp/x")]) "A" core_registry 0%nat in
  ex_result ex =
    [("success", VBool false);
     ("error", VStr "Agent A lacks permission for tool file_read")] /\
  execution_history (ex_registry ex) = [] /\ ex_world ex = 0%nat.
Proof. by vm_compute. Qed.

(** After a grant the same call goes through and is logged. *)
Example permission_granted :
  let r := grant_permission "A" ["file_read"] core_registry in
  let ex := execute_tool (fun _ => None) (fun _ => "") 10 20 "file_read"
              (VDict [("file_path", VStr "/tmp/x")]) "A" r 0%nat in
  ex_result ex =
    [("calls", VInt 1); ("success", VBool true); ("execution_time", VInt 10)] /\
  execution_history (ex_registry ex) =
    [mkLogEntry "file_read" "A" true (Some 10%Z) None 10] /\
  ex_world ex = 1%nat.
Proof. by vm_compute. Qed.

(** A public tool needs no grant. *)
Example public_tool_runs :
  ex_world (execute_tool (fun _ => None) (fun _ => "") 10 20 "web_search"
              (VStr "rocq") "A" core_registry 0%nat) = 1%nat.
Proof. by vm_compute. Qed.

End ToolRegistry.


(* ===================================================================== *)
(** ** File tools of the registry (cartrita_core/tools.py) *)
(* ===================================================================== *)

Module FileTools.
Import PyStr Py ToolRegistry.

Definition safe_dirs : list string := ["/tmp"; "/home"; "/var/tmp"].

(** The security check of both tools, on the resolved path as a string. *)
Definition in_safe_dirs (resolved : string) : bool :=
  existsb (fun safe_dir => startswith resolved safe_dir) safe_dirs.

(** A resolved path lies under directory [dir]: it is [dir] itself or
    continues it after a separator. *)
Definition under (dir resolved : string) : Prop :=
  resolved = dir \/ exists rest, resolved = dir +:+ "/" +:+ rest.

Definition under_safe_dir (resolved : string) : Prop :=
  Exists (fun dir => under dir resolved) safe_dirs.

(** What touched a file or created a directory. *)
Inductive FsOp :=
| OpRead (path : string)
| OpMkdir (path : string)
| OpWrite (path mode : string).

Section Tools.
Variable FS : Type.
(** [Path(p).exists()], [Path(p).is_dir()], [str(Path(p).resolve())] and
    [Path(p).parent]; [inl] carries the text of a raised exception:
    [exists] and [is_dir] answer False for a missing path and raise the
    other errors of the system call (a name that is too long, a directory
    that may not be searched). *)
Variable path_exists : FS -> string -> string + bool.
Variable path_is_dir : FS -> string -> string + bool.
Variable path_resolve : FS -> string -> string + string.
Variable path_parent : string -> string.
(** [open(p, 'r').read()], [mkdir(parents=True, exist_ok=True)] and
    [open(p, mode).write(content)]. *)
Variable read_text : FS -> string -> string + string.
Variable mkdir_parents : FS -> string -> string + FS.
Variable write_text : FS -> string -> string -> string -> string + FS.

Record FileResult := mkFileResult {
  fr_result : Dict;
  fr_fs : FS;
  fr_ops : list FsOp
}.

Definition error_result (msg : string) (fs : FS) (ops : list FsOp) : FileResult :=
  mkFileResult [("error", VStr msg)] fs ops.

Definition access_denied : string := "Access denied: unsafe directory".

(** The part of [_file_read] after the tests of [exists] and [is_dir]. *)
Definition read_checked (file_path : string) (fs : FS) : FileResult :=
  match path_resolve fs file_path with
  | inl e => error_result ("File read failed: " +:+ e) fs []
  | inr resolved =>
      if negb (in_safe_dirs resolved) then error_result access_denied fs []
      else
        match read_text fs file_path with
        | inl e => error_result ("File read failed: " +:+ e) fs [OpRead file_path]
        | inr content =>
            mkFileResult
              [("file_path", VStr file_path); ("content", VStr content);
               ("size_bytes", VInt (Z.of_nat (String.length content)))]
              fs [OpRead file_path]
        end
  end.

Definition _file_read (file_path : string) (fs : FS) : FileResult :=
  match path_exists fs file_path with
  | inl e => error_result ("File read failed: " +:+ e) fs []
  | inr false => error_result ("File not found: " +:+ file_path) fs []
  | inr true =>
      match path_is_dir fs file_path with
      | inl e => error_result ("File read failed: " +:+ e) fs []
      | inr true => error_result ("Path is a directory: " +:+ file_path) fs []
      | inr false => read_checked file_path fs
      end
  end.

Definition _file_write (file_path content mode : string) (fs : FS) : FileResult :=
  match path_resolve fs file_path with
  | inl e => error_result ("File write failed: " +:+ e) fs []
  | inr resolved =>
      if negb (in_safe_dirs resolved) then error_result access_denied fs []
      else
        match mkdir_parents fs (path_parent file_path) with
        | inl e =>
            error_result ("File write failed: " +:+ e) fs
              [OpMkdir (path_parent file_path)]
        | inr fs1 =>
            match write_text fs1 file_path mode content with
            | inl e =>
                error_result ("File write failed: " +:+ e) fs1
                  [OpMkdir (path_parent file_path); OpWrite file_path mode]
            | inr fs2 =>
                mkFileResult
                  [("file_path", VStr file_path);
                   ("bytes_written", VInt (Z.of_nat (String.length content)));
                   ("mode", VStr mode)]
                  fs2 [OpMkdir (path_parent file_path); OpWrite file_path mode]
            end
        end
  end.

End Tools.

Arguments fr_result {FS}.
Arguments fr_fs {FS}.
Arguments fr_ops {FS}.

(** *** A small file system to run the tools on: absolute paths without
    links, a directory being a path mapped to [None]. *)

Definition SimpleFS := gmap string (option string).

(** A component of more than 255 bytes: the system call fails with
    ENAMETOOLONG, an error [exists] and [is_dir] pass on. *)
Definition name_too_long (p : string) : bool :=
  existsb (fun component => (255 <? String.length component)%nat) (split "/"%char p).

Definition too_long_error (p : string) : string :=
  "[Errno 36] File name too long: '" +:+ p +:+ "'".

Definition sfs_exists (fs : SimpleFS) (p : string) : string + bool :=
  if name_too_long p then inl (too_long_error p)
  else inr (bool_decide (is_Some (fs !! p))).

Definition sfs_is_dir (fs : SimpleFS) (p : string) : string + bool :=
  if name_too_long p then inl (too_long_error p)
  else inr (bool_decide (fs !! p = Some None)).

Definition sfs_resolve (fs : SimpleFS) (p : string) : string + string := inr p.

(** Everything before the last separator. *)
Fixpoint drop_last_component (acc cur p : string) : string :=
  match p with
  | EmptyString => acc
  | String c rest =>
      if Ascii.eqb c "/"%char
      then drop_last_component (acc +:+ cur) (String c EmptyString) rest
      else drop_last_component acc (cur +:+ String c EmptyString) rest
  end.

Definition sfs_parent (p : string) : string :=
  match drop_last_component "" "" p with
  | EmptyString => "/"
  | d => d
  end.

Definition sfs_read (fs : SimpleFS) (p : string) : string + string :=
  match fs !! p with
  | Some (Some content) => inr content
  | _ => inl ("[Errno 2] No such file or directory: '" +:+ p +:+ "'")
  end.

Definition sfs_mkdir (fs : SimpleFS) (p : string) : string + SimpleFS :=
  match fs !! p with
  | Some (Some _) => inl ("[Errno 17] File exists: '" +:+ p +:+ "'")
  | _ => inr (<[p := None]> fs)
  end.

Definition sfs_write (fs : SimpleFS) (p mode content : string) : string + SimpleFS :=
  match fs !! p with
  | Some None => inl ("[Errno 21] Is a directory: '" +:+ p +:+ "'")
  | old =>
      if String.eqb mode "w" then inr (<[p := Some content]> fs)
      else if String.eqb mode "a" then
        inr (<[p := Some (default "" (mjoin old) +:+ content)]> fs)
      else inl ("invalid mode: '" +:+ mode +:+ "'")
  end.

Definition simple_read (p : string) (fs : SimpleFS) : FileResult SimpleFS :=
  _file_read SimpleFS sfs_exists sfs_is_dir sfs_resolve sfs_read p fs.

Definition simple_write (p content mode : string) (fs : SimpleFS)
    : FileResult SimpleFS :=
  _file_write SimpleFS sfs_resolve sfs_parent sfs_mkdir sfs_write p content mode fs.

Definition sample_fs : SimpleFS :=
  {[ "/tmp" := None; "/home" := None; "/etc" := None;
     "/etc/passwd" := Some "root:x:0:0"; "/tmp/a.txt" := Some "hello" ]}.

(** *** Facts about the security check *)

Definition under_b (dir resolved : string) : bool :=
  String.eqb resolved dir || startswith resolved (dir +:+ "/").

Definition under_safe_dir_b (resolved : string) : bool :=
  existsb (fun dir => under_b dir resolved) safe_dirs.

Lemma append_assoc (a b c : string) : (a +:+ b) +:+ c = a +:+ b +:+ c.
Proof.
  induction a as [|x a IH]; [done|].
  change (String x ((a +:+ b) +:+ c) = String x (a +:+ b +:+ c)). by f_equal.
Qed.

Lemma append_empty_r (a : string) : a +:+ "" = a.
Proof.
  induction a as [|x a IH]; [done|].
  change (String x (a +:+ "") = String x a). by f_equal.
Qed.

Lemma under_b_spec (dir resolved : string) :
  under_b dir resolved = true <-> under dir resolved.
Proof.
  unfold under_b, under, startswith. rewrite orb_true_iff, String.eqb_eq. split.
  - intros [->|H]; [by left|]. right.
    destruct (prefix_inv _ _ H) as [rest ->]. exists rest. by rewrite append_assoc.
  - intros [->|[rest ->]]; [by left|]. right.
    rewrite <- append_assoc. apply prefix_app.
Qed.

Lemma under_safe_dir_b_spec (resolved : string) :
  under_safe_dir_b resolved = true <-> under_safe_dir resolved.
Proof.
  unfold under_safe_dir_b, under_safe_dir. rewrite existsb_exists, Exists_exists.
  split; intros (d & Hin & Hd); exists d;
    (split; [by apply list_elem_of_In|by apply under_b_spec]).
Qed.

Lemma under_startswith (dir resolved : string) :
  under dir resolved -> startswith resolved dir = true.
Proof.
  unfold startswith. intros [->|[rest ->]].
  - rewrite <- (append_empty_r dir) at 2. apply prefix_app.
  - apply prefix_app.
Qed.

(** Whatever lies under a safe directory passes the check. *)
Lemma under_safe_dir_passes (resolved : string) :
  under_safe_dir resolved -> in_safe_dirs resolved = true.
Proof.
  unfold under_safe_dir, in_safe_dirs. rewrite existsb_exists, Exists_exists.
  intros (d & Hin & Hd). exists d.
  split; [by apply list_elem_of_In|by apply under_startswith].
Qed.

(** What does not begin with a safe directory's name is not under one. *)
Lemma rejected_not_under (resolved : string) :
  in_safe_dirs resolved = false -> ~ under_safe_dir resolved.
Proof. intros H Hu. apply under_safe_dir_passes in Hu. congruence. Qed.

Section ToolFacts.
Variable FS : Type.
Variable path_exists : FS -> string -> string + bool.
Variable path_is_dir : FS -> string -> string + bool.
Variable path_resolve : FS -> string -> string + string.
Variable path_parent : string -> string.
Variable read_text : FS -> string -> string + string.
Variable mkdir_parents : FS -> string -> string + FS.
Variable write_text : FS -> string -> string -> string -> string + FS.

Abbreviation file_read := (_file_read FS path_exists path_is_dir path_resolve read_text).
Abbreviation file_write := (_file_write FS path_resolve path_parent mkdir_parents write_text).

(** The error [_file_read] gives for a path that fails the check. *)
Definition read_refusal (file_path : string) (fs : FS) : string :=
  match path_exists fs file_path with
  | inl e => "File read failed: " +:+ e
  | inr false => "File not found: " +:+ file_path
  | inr true =>
      match path_is_dir fs file_path with
      | inl e => "File read failed: " +:+ e
      | inr true => "Path is a directory: " +:+ file_path
      | inr false => access_denied
      end
  end.

(** What [_file_write] does to an allowed target. *)
Definition write_allowed (file_path content mode : string) (fs : FS)
    : FileResult FS :=
  match mkdir_parents fs (path_parent file_path) with
  | inl e =>
      error_result FS ("File write failed: " +:+ e) fs
        [OpMkdir (path_parent file_path)]
  | inr fs1 =>
      match write_text fs1 file_path mode content with
      | inl e =>
          error_result FS ("File write failed: " +:+ e) fs1
            [OpMkdir (path_parent file_path); OpWrite file_path mode]
      | inr fs2 =>
          mkFileResult FS
            [("file_path", VStr file_path);
             ("bytes_written", VInt (Z.of_nat (String.length content)));
             ("mode", VStr mode)]
            fs2 [OpMkdir (path_parent file_path); OpWrite file_path mode]
      end
  end.

Lemma file_write_rejected (file_path content mode resolved : string) (fs : FS) :
  path_resolve fs file_path = inr resolved ->
  in_safe_dirs resolved = false ->
  file_write file_path content mode fs = error_result FS access_denied fs [].
Proof. intros Hr Hs. unfold _file_write. by rewrite Hr, Hs. Qed.

Lemma file_read_rejected (file_path resolved : string) (fs : FS) :
  path_resolve fs file_path = inr resolved ->
  in_safe_dirs resolved = false ->
  file_read file_path fs = error_result FS (read_refusal file_path fs) fs [].
Proof.
  intros Hr Hs. unfold _file_read, read_refusal, read_checked.
  destruct (path_exists fs file_path) as [e|[|]]; [done| |done].
  destruct (path_is_dir fs file_path) as [e|[|]]; [done|done|].
  by rewrite Hr, Hs.
Qed.

Lemma file_write_allowed (file_path content mode resolved : string) (fs : FS) :
  path_resolve fs file_path = inr resolved ->
  under_safe_dir resolved ->
  file_write file_path content mode fs = write_allowed file_path content mode fs.
Proof.
  intros Hr Hu. unfold _file_write, write_allowed.
  by rewrite Hr, (under_safe_dir_passes _ Hu).
Qed.

(** The parent directories come first in every run of [write_allowed]. *)
Lemma write_allowed_mkdir_first (file_path content mode : string) (fs : FS) :
  exists rest,
    fr_ops (write_allowed file_path content mode fs)
    = OpMkdir (path_parent file_path) :: rest /\
    Forall (fun op => op = OpWrite file_path mode) rest.
Proof.
  unfold write_allowed.
  destruct (mkdir_parents fs (path_parent file_path)) as [e|fs1]; simpl.
  - by exists [].
  - destruct (write_text fs1 file_path mode content); simpl;
      (eexists; split; [done|by repeat constructor]).
Qed.

End ToolFacts.

(** C7, as amended: for a path whose resolved form does not begin with
    /tmp, /home or /var/tmp, file-write returns the access-denied error
    and file-read returns a read-failed error when the test of existence
    or of being a directory itself raises, file-not-found when the path
    does not exist, is-a-directory when it is a directory and
    access-denied otherwise, and neither reads, writes nor changes
    anything; for a path whose resolved form lies under one of the three
    directories, file-write first creates the missing parent directories
    and then writes. *)
Theorem file_tools_safe_dirs
    (FS : Type) (path_exists path_is_dir : FS -> string -> string + bool)
    (path_resolve : FS -> string -> string + string)
    (path_parent : string -> string)
    (read_text : FS -> string -> string + string)
    (mkdir_parents : FS -> string -> string + FS)
    (write_text : FS -> string -> string -> string -> string + FS)
    (file_path content mode resolved : string) (fs : FS) :
  path_resolve fs file_path = inr resolved ->
  let written :=
    _file_write FS path_resolve path_parent mkdir_parents write_text
      file_path content mode fs in
  let read := _file_read FS path_exists path_is_dir path_resolve read_text file_path fs in
  (in_safe_dirs resolved = false ->
     ~ under_safe_dir resolved /\
     written = error_result FS access_denied fs [] /\
     read = error_result FS (read_refusal FS path_exists path_is_dir file_path fs) fs []) /\
  (under_safe_dir resolved ->
     written = write_allowed FS path_parent mkdir_parents write_text
                 file_path content mode fs /\
     exists rest,
       fr_ops written = OpMkdir (path_parent file_path) :: rest /\
       Forall (fun op => op = OpWrite file_path mode) rest).
Proof.
  intros Hr written read. split.
  - intros Hs. split; [by apply rejected_not_under|]. split.
    + by eapply file_write_rejected.
    + by eapply file_read_rejected.
  - intros Hu.
    assert (E : written = write_allowed FS path_parent mkdir_parents write_text
                            file_path content mode fs)
      by (by eapply file_write_allowed).
    split; [done|]. rewrite E. apply write_allowed_mkdir_first.
Qed.

(** The theorem at a file outside the three directories, where both tools
    refuse, and at a target under /tmp, where the write goes ahead. *)
Lemma file_tools_safe_dirs_witness :
  (sfs_resolve sample_fs "/etc/passwd" = inr "/etc/passwd" /\
   in_safe_dirs "/etc/passwd" = false /\
   ~ under_safe_dir "/etc/passwd" /\
   simple_write "/etc/passwd" "x" "w" sample_fs
   = error_result SimpleFS access_denied sample_fs [] /\
   simple_read "/etc/passwd" sample_fs
   = error_result SimpleFS
       (read_refusal SimpleFS sfs_exists sfs_is_dir "/etc/passwd" sample_fs)
       sample_fs []) /\
  (sfs_resolve sample_fs "/tmp/new/b.txt" = inr "/tmp/new/b.txt" /\
   under_safe_dir "/tmp/new/b.txt" /\
   simple_write "/tmp/new/b.txt" "hi" "w" sample_fs
   = write_allowed SimpleFS sfs_parent sfs_mkdir sfs_write
       "/tmp/new/b.txt" "hi" "w" sample_fs /\
   exists rest,
     fr_ops (simple_write "/tmp/new/b.txt" "hi" "w" sample_fs)
     = OpMkdir (sfs_parent "/tmp/new/b.txt") :: rest /\
     Forall (fun op => op = OpWrite "/tmp/new/b.txt" "w") rest).
Proof.
  split.
  - assert (Hr : sfs_resolve sample_fs "/etc/passwd" = inr "/etc/passwd")
      by reflexivity.
    assert (Hs : in_safe_dirs "/etc/passwd" = false) by reflexivity.
    destruct (file_tools_safe_dirs SimpleFS sfs_exists sfs_is_dir sfs_resolve sfs_parent
                sfs_read sfs_mkdir sfs_write "/etc/passwd" "x" "w" "/etc/passwd"
                sample_fs Hr) as [Hdenied _].
    destruct (Hdenied Hs) as (Hnot & Hw & Hrd).
    split; [exact Hr|]. split; [exact Hs|]. split; [exact Hnot|].
    split; [exact Hw|exact Hrd].
  - assert (Hr : sfs_resolve sample_fs "/tmp/new/b.txt" = inr "/tmp/new/b.txt")
      by reflexivity.
    assert (Hu : under_safe_dir "/tmp/new/b.txt").
    { apply List.Exists_cons_hd. right. exists "new/b.txt". reflexivity. }
    destruct (file_tools_safe_dirs SimpleFS sfs_exists sfs_is_dir sfs_resolve sfs_parent
                sfs_read sfs_mkdir sfs_write "/tmp/new/b.txt" "hi" "w" "/tmp/new/b.txt"
                sample_fs Hr) as [_ Hallowed].
    destruct (Hallowed Hu) as (Hw & Hops).
    split; [exact Hr|]. split; [exact Hu|]. split; [exact Hw|exact Hops].
Defined.

(** An allowed write: the parent directory is created, then the file. *)
Example write_under_tmp :
  under_safe_dir "/tmp/new/b.txt" /\
  fr_ops (simple_write "/tmp/new/b.txt" "hi" "w" sample_fs)
  = [OpMkdir "/tmp/new"; OpWrite "/tmp/new/b.txt" "w"] /\
  fr_fs (simple_write "/tmp/new/b.txt" "hi" "w" sample_fs) !! "/tmp/new/b.txt"
  = Some (Some "hi") /\
  fr_fs (simple_write "/tmp/new/b.txt" "hi" "w" sample_fs) !! "/tmp/new" = Some None.
Proof.
  split; [apply under_safe_dir_b_spec; by vm_compute|]. by vm_compute.
Qed.

(** A refused read of an existing file outside the safe directories. *)
Example read_outside_denied :
  fr_result (simple_read "/etc/passwd" sample_fs)
  = [("error", VStr "Access denied: unsafe directory")] /\
  fr_ops (simple_read "/etc/passwd" sample_fs) = [].
Proof. by vm_compute. Qed.

(** A name of 300 bytes under /etc: [exists] raises, and the read is
    answered "File read failed", with nothing read. *)
Definition long_name : string := string_of_list_ascii (List.repeat "a"%char 300).

Example read_name_too_long :
  ~ under_safe_dir ("/etc/" +:+ long_name) /\
  fr_result (simple_read ("/etc/" +:+ long_name) sample_fs)
  = [("error", VStr ("File read failed: " +:+ too_long_error ("/etc/" +:+ long_name)))] /\
  fr_ops (simple_read ("/etc/" +:+ long_name) sample_fs) = [].
Proof.
  split; [rewrite <- under_safe_dir_b_spec; by vm_compute|].
  split; vm_compute; reflexivity.
Qed.

(** C7 as stated fails: a path outside the three directories that does not
    exist makes file-read answer file-not-found, not access-denied. *)
Lemma read_missing_outside_not_denied :
  ~ under_safe_dir "/etc/shadow" /\
  fr_result (simple_read "/etc/shadow" sample_fs)
  = [("error", VStr "File not found: /etc/shadow")] /\
  fr_result (simple_read "/etc/shadow" sample_fs) <> [("error", VStr access_denied)].
Proof.
  split; [|split].
  - rewrite <- under_safe_dir_b_spec. by vm_compute.
  - by vm_compute.
  - by vm_compute.
Qed.

(** The check compares strings, not path components: a sibling directory
    whose name merely begins with "/tmp" is written to. *)
Example write_prefix_sibling :
  ~ under_safe_dir "/tmpfoo/notes.txt" /\
  in_safe_dirs "/tmpfoo/notes.txt" = true /\
  fr_ops (simple_write "/tmpfoo/notes.txt" "x" "w" sample_fs)
  = [OpMkdir "/tmpfoo"; OpWrite "/tmpfoo/notes.txt" "w"] /\
  fr_fs (simple_write "/tmpfoo/notes.txt" "x" "w" sample_fs) !! "/tmpfoo/notes.txt"
  = Some (Some "x").
Proof.
  split; [rewrite <- under_safe_dir_b_spec; by vm_compute|]. by vm_compute.
Qed.

End FileTools.


(* ===================================================================== *)
(** ** Message schema and validator (mcp_core/schema.py) *)
(* ===================================================================== *)

Module Schema.
Import PyStr Py.

Inductive DeliveryGuarantee := AT_MOST_ONCE | AT_LEAST_ONCE | EXACTLY_ONCE.

Inductive TaskStatus := PENDING | RUNNING | COMPLETED | FAILED | CANCELLED | TIMEOUT.

Definition TaskStatus_value (s : TaskStatus) : string :=
  match s with
  | PENDING => "PENDING" | RUNNING => "RUNNING" | COMPLETED => "COMPLETED"
  | FAILED => "FAILED" | CANCELLED => "CANCELLED" | TIMEOUT => "TIMEOUT"
  end.

(** [TaskStatus.NAME]: [None] is the [AttributeError] for a name the
    enumeration does not define. *)
Definition TaskStatus_member (name : string) : option TaskStatus :=
  if String.eqb name "PENDING" then Some PENDING
  else if String.eqb name "RUNNING" then Some RUNNING
  else if String.eqb name "COMPLETED" then Some COMPLETED
  else if String.eqb name "FAILED" then Some FAILED
  else if String.eqb name "CANCELLED" then Some CANCELLED
  else if String.eqb name "TIMEOUT" then Some TIMEOUT
  else None.

Record CostBudget := mkCostBudget {
  max_usd : Q;
  max_tokens : Z;
  used_usd : Q;
  used_tokens : Z;
  model_costs : list (string * Q)
}.

Record ResourceLimits := mkResourceLimits {
  max_cpu_percent : Z;
  max_memory_mb : Z;
  max_concurrent_requests : Z;
  max_processing_time_ms : Z
}.

Record MCPContext := mkContext {
  ctx_trace_id : string;
  ctx_span_id : string;
  parent_span_id : option string;
  baggage : gmap string string;
  user_id : option string;
  session_id : option string;
  workspace_id : option string;
  request_id : string;
  timeout_ms : Z;
  metadata : gmap string string;
  budget : option CostBudget;
  limits : option ResourceLimits
}.

Record DeliveryOptions := mkDelivery {
  guarantee : DeliveryGuarantee;
  retry_count : Z;
  retry_delay_ms : Z;
  require_ack : bool;
  priority : Z
}.

(** [MCPMessage]; [C] is how the context is held: the record itself in a
    validated value, a reference where objects are shared. *)
Record MCPMessage (C : Type) := mkMessage {
  id : string;
  correlation_id : option string;
  trace_id : string;
  span_id : string;
  sender : string;
  recipient : string;
  message_type : string;
  payload : PyVal;
  tags : list string;
  context : C;
  delivery : DeliveryOptions;
  created_at : Z;
  expires_at : option Z;
  security_token : option string;
  permissions : list string
}.

Arguments mkMessage {C}.
Arguments id {C}.
Arguments correlation_id {C}.
Arguments trace_id {C}.
Arguments span_id {C}.
Arguments sender {C}.
Arguments recipient {C}.
Arguments message_type {C}.
Arguments payload {C}.
Arguments tags {C}.
Arguments context {C}.
Arguments delivery {C}.
Arguments created_at {C}.
Arguments expires_at {C}.
Arguments security_token {C}.
Arguments permissions {C}.

Record TaskMetrics := mkTaskMetrics {
  processing_time_ms : Z;
  queue_time_ms : Z;
  tm_retry_count : Z;
  cost_usd : Q;
  tokens_used : Z;
  model_used : option string;
  custom_metrics : list (string * Q)
}.

Record TaskResponse := mkTaskResponse {
  task_id : string;
  status : TaskStatus;
  result : option PyVal;
  error_message : option string;
  error_code : option string;
  metrics : TaskMetrics;
  warnings : list string
}.

(** The constants of class [MessageTypes]. *)
Definition MessageTypes : list (string * string) :=
  [ ("TASK_REQUEST", "TASK_REQUEST"); ("TASK_RESPONSE", "TASK_RESPONSE");
    ("TASK_PROGRESS", "TASK_PROGRESS"); ("TASK_CANCEL", "TASK_CANCEL");
    ("STREAM_START", "STREAM_START"); ("STREAM_DATA", "STREAM_DATA");
    ("STREAM_END", "STREAM_END"); ("HEARTBEAT", "HEARTBEAT");
    ("HEALTH_CHECK", "HEALTH_CHECK"); ("AGENT_REGISTER", "AGENT_REGISTER");
    ("AGENT_DEREGISTER", "AGENT_DEREGISTER"); ("SYSTEM_COMMAND", "SYSTEM_COMMAND");
    ("CONFIG_UPDATE", "CONFIG_UPDATE"); ("EMERGENCY_STOP", "EMERGENCY_STOP") ].

Definition TASK_REQUEST : string := "TASK_REQUEST".
Definition TASK_RESPONSE : string := "TASK_RESPONSE".
Definition INTERNAL_ERROR : string := "INTERNAL_ERROR".

(** The constants of class [TaskTypes]: attribute name and value. *)
Definition TaskTypes : list (string * string) :=
  [ ("HF_TEXT_GENERATION", "huggingface.text.generation");
    ("HF_TEXT_CLASSIFICATION", "huggingface.text.classification");
    ("HF_TEXT_SUMMARIZATION", "huggingface.text.summarization");
    ("HF_TEXT_TRANSLATION", "huggingface.text.translation");
    ("HF_TEXT_QA", "huggingface.text.question_answering");
    ("HF_VISION_CLASSIFICATION", "huggingface.vision.classification");
    ("HF_VISION_DETECTION", "huggingface.vision.object_detection");
    ("HF_VISION_SEGMENTATION", "huggingface.vision.segmentation");
    ("HF_AUDIO_STT", "huggingface.audio.speech_recognition");
    ("HF_AUDIO_TTS", "huggingface.audio.text_to_speech");
    ("HF_MULTIMODAL_VQA", "huggingface.multimodal.visual_qa");
    ("LC_AGENT_EXECUTE", "langchain.agent.execute");
    ("LC_CHAT_EXECUTE", "langchain.chat.execute");
    ("LC_REACT_EXECUTE", "langchain.react.execute");
    ("LC_GENERATIVE_EXECUTE", "langchain.generative.execute");
    ("LC_PLAN_EXECUTE", "langchain.plan_execute");
    ("LC_BABYAGI_EXECUTE", "langchain.babyagi.execute");
    ("DG_AUDIO_TRANSCRIBE_LIVE", "deepgram.audio.transcribe.live");
    ("DG_AUDIO_TRANSCRIBE_FILE", "deepgram.audio.transcribe.file");
    ("DG_AUDIO_AGENT_LIVE", "deepgram.audio.agent.live");
    ("SYS_HEALTH_CHECK", "system.health_check");
    ("SYS_TELEMETRY_QUERY", "system.telemetry_query");
    ("SYS_CONFIG_UPDATE", "system.config_update");
    ("LIFEOS_CALENDAR_SYNC", "lifeos.calendar.sync");
    ("LIFEOS_EMAIL_PROCESS", "lifeos.email.process");
    ("LIFEOS_CONTACT_SEARCH", "lifeos.contact.search");
    ("SEC_AUDIT", "security.audit");
    ("SEC_VULN_SCAN", "security.vulnerability_scan");
    ("SEC_COMPLIANCE_CHECK", "security.compliance_check");
    ("MEM_KG_UPSERT", "memory.knowledge_graph.upsert");
    ("MEM_KG_QUERY", "memory.knowledge_graph.query");
    ("MEM_CONTEXT_RETRIEVE", "memory.context.retrieve");
    ("MEM_CONTEXT_STORE", "memory.context.store");
    ("RESEARCH_WEB_SEARCH", "research.web.search");
    ("RESEARCH_WEB_SCRAPE", "research.web.scrape");
    ("WRITER_COMPOSE", "writer.compose");
    ("CODEWRITER_GENERATE", "codewriter.generate");
    ("ANALYTICS_RUN_QUERY", "analytics.run_query");
    ("SCHEDULER_SCHEDULE_EVENT", "scheduler.schedule_event");
    ("MULTIMODAL_FUSE", "multimodal.fuse");
    ("TRANSLATION_DETECT_TRANSLATE", "translation.detect_translate");
    ("NOTIFICATION_SEND", "notification.send");
    ("ARTIST_GENERATE_IMAGE", "artist.generate_image");
    ("DESIGN_CREATE_MOCKUP", "design.create_mockup");
    ("COMEDIAN_GENERATE_JOKE", "comedian.generate_joke") ].

(** [hasattr(cls, name)] for a class of constants. The names a class
    inherits ([__doc__], [__init__], ...) all hold a lower-case letter and
    so never equal an upper-cased string; they are left out. *)
Definition hasattr (cls : list (string * string)) (name : string) : bool :=
  existsb (fun kv => String.eqb (fst kv) name) cls.

Definition is_valid_task_type (task_type : string) : bool :=
  hasattr TaskTypes (replace_char "."%char "_"%char (upper task_type)).

(** The enumerated set of supported task-type strings. *)
Definition supported_task_types : list string := map snd TaskTypes.

Definition is_supported_task_type (s : string) : bool :=
  existsb (String.eqb s) supported_task_types.

(** C6: [is_valid_task_type] looks its argument up among the attribute
    names of [TaskTypes], not among their values: the task-type strings
    "huggingface.text.generation" and "langchain.agent.execute" are in the
    enumerated set and are rejected, while "hf.text.generation", which is
    no task type, is accepted. *)
Theorem is_valid_task_type_checks_names :
  is_supported_task_type "huggingface.text.generation" = true /\
  is_valid_task_type "huggingface.text.generation" = false /\
  is_supported_task_type "langchain.agent.execute" = true /\
  is_valid_task_type "langchain.agent.execute" = false /\
  is_supported_task_type "hf.text.generation" = false /\
  is_valid_task_type "hf.text.generation" = true.
Proof. by vm_compute. Qed.

(** The supported strings the function does accept are those whose
    upper-cased, underscored form happens to be their constant's name. *)
Example accepted_task_types :
  filter (fun s => is_valid_task_type s = true) supported_task_types =
  [ "lifeos.calendar.sync"; "lifeos.email.process"; "lifeos.contact.search";
    "research.web.search"; "research.web.scrape"; "writer.compose";
    "codewriter.generate"; "analytics.run_query"; "scheduler.schedule_event";
    "multimodal.fuse"; "translation.detect_translate"; "notification.send";
    "artist.generate_image"; "design.create_mockup"; "comedian.generate_joke" ].
Proof. by vm_compute. Qed.

Example task_type_count : length TaskTypes = 45%nat.
Proof. reflexivity. Qed.

(** *** Validation *)

(** A validated value, or the text of the [ValidationError]. *)
Definition Res (A : Type) : Type := string + A.

Definition bind {A B : Type} (x : Res A) (k : A -> Res B) : Res B :=
  match x with
  | inl e => inl e
  | inr a => k a
  end.

Notation "x <- e ;; k" := (bind e (fun x => k))
  (at level 100, e at next level, right associativity).

Definition fail {A : Type} (e : string) : Res A := inl e.

(** The models validate in pydantic's lax mode (their configuration sets
    [extra="forbid"] and nothing else): a value of the type a field
    declares passes as it is, and a value of another type is converted
    where pydantic has a conversion (a digit string, a whole float or a
    bool given for an [int]; a number or a word given for a [bool]; a
    text or a number given for a [datetime]; ...). The conversions are
    pydantic's, not the repository's: they are taken as given, one
    partial function per declared type, asked only about values that are
    not of that type already. *)
Record Lax := mkLax {
  lax_str : PyVal -> option string;
  lax_int : PyVal -> option Z;
  lax_float : PyVal -> option Q;
  lax_bool : PyVal -> option bool;
  lax_datetime : PyVal -> option Z
}.

Definition converted {A : Type} (conversion : PyVal -> option A) (e : string)
    (v : PyVal) : Res A :=
  match conversion v with
  | Some a => inr a
  | None => fail e
  end.

Section Validation.
Variable lax : Lax.

Definition as_str (v : PyVal) : Res string :=
  match v with
  | VStr s => inr s
  | _ => converted (lax_str lax) "Input should be a valid string" v
  end.

Definition as_int (v : PyVal) : Res Z :=
  match v with
  | VInt n => inr n
  | _ => converted (lax_int lax) "Input should be a valid integer" v
  end.

Definition as_float (v : PyVal) : Res Q :=
  match v with
  | VFloat q => inr q
  | VInt n => inr (inject_Z n)
  | _ => converted (lax_float lax) "Input should be a valid number" v
  end.

Definition as_bool (v : PyVal) : Res bool :=
  match v with
  | VBool b => inr b
  | _ => converted (lax_bool lax) "Input should be a valid boolean" v
  end.

Definition as_datetime (v : PyVal) : Res Z :=
  match v with
  | VDatetime t => inr t
  | _ => converted (lax_datetime lax) "Input should be a valid datetime" v
  end.

Definition as_optional {A : Type} (f : PyVal -> Res A) (v : PyVal) : Res (option A) :=
  match v with
  | VNone => inr None
  | _ => a <- f v ;; inr (Some a)
  end.

Fixpoint all_of {A : Type} (f : PyVal -> Res A) (l : list PyVal) : Res (list A) :=
  match l with
  | [] => inr []
  | v :: rest => a <- f v ;; r <- all_of f rest ;; inr (a :: r)
  end.

Definition as_list {A : Type} (f : PyVal -> Res A) (v : PyVal) : Res (list A) :=
  match v with VList l => all_of f l | _ => fail "Input should be a valid list" end.

Fixpoint all_values {A : Type} (f : PyVal -> Res A) (d : Dict) : Res (list (string * A)) :=
  match d with
  | [] => inr []
  | (k, v) :: rest => a <- f v ;; r <- all_values f rest ;; inr ((k, a) :: r)
  end.

Definition as_dict {A : Type} (f : PyVal -> Res A) (v : PyVal)
    : Res (list (string * A)) :=
  match v with
  | VDict d => all_values f d
  | _ => fail "Input should be a valid dictionary"
  end.

Definition as_str_map (v : PyVal) : Res (gmap string string) :=
  l <- as_dict as_str v ;; inr (list_to_map l).

Definition ge (lo : Z) (n : Z) : Res Z :=
  if (lo <=? n)%Z then inr n else fail "Input should be greater than or equal".

Definition le (hi : Z) (n : Z) : Res Z :=
  if (n <=? hi)%Z then inr n else fail "Input should be less than or equal".

Definition ge0_float (q : Q) : Res Q :=
  if Qle_bool 0 q then inr q else fail "Input should be greater than or equal to 0".

(** A member of the enumeration is looked up by its value, a text. *)
Definition as_guarantee (v : PyVal) : Res DeliveryGuarantee :=
  s <- as_str v ;;
  if String.eqb s "AT_MOST_ONCE" then inr AT_MOST_ONCE
  else if String.eqb s "AT_LEAST_ONCE" then inr AT_LEAST_ONCE
  else if String.eqb s "EXACTLY_ONCE" then inr EXACTLY_ONCE
  else fail "Input should be 'AT_MOST_ONCE', 'AT_LEAST_ONCE' or 'EXACTLY_ONCE'".

(** A field without a default. *)
Definition required {A : Type} (d : Dict) (k : string) (f : PyVal -> Res A) : Res A :=
  match dict_get k d with
  | Some v => f v
  | None => fail ("Field required: " +:+ k)
  end.

(** A field with a default. *)
Definition optional {A : Type} (d : Dict) (k : string) (f : PyVal -> Res A)
    (dflt : A) : Res A :=
  match dict_get k d with
  | Some v => f v
  | None => inr dflt
  end.

(** [extra="forbid"]. *)
Definition forbid_extra (declared : list string) (d : Dict) : Res unit :=
  if forallb (fun kv => existsb (String.eqb (fst kv)) declared) d then inr tt
  else fail "Extra inputs are not permitted".

Definition as_model {A : Type} (declared : list string) (f : Dict -> Res A)
    (v : PyVal) : Res A :=
  match v with
  | VDict d => _ <- forbid_extra declared d ;; f d
  | _ => fail "Input should be a valid dictionary or instance"
  end.

Definition CostBudget_fields : list string :=
  ["max_usd"; "max_tokens"; "used_usd"; "used_tokens"; "model_costs"].

Definition validate_CostBudget : PyVal -> Res CostBudget :=
  as_model CostBudget_fields (fun d =>
    a <- required d "max_usd" (fun v => q <- as_float v ;; ge0_float q) ;;
    b <- required d "max_tokens" (fun v => n <- as_int v ;; ge 0 n) ;;
    c <- required d "used_usd" (fun v => q <- as_float v ;; ge0_float q) ;;
    e <- required d "used_tokens" (fun v => n <- as_int v ;; ge 0 n) ;;
    f <- optional d "model_costs" (as_dict as_float) [] ;;
    inr (mkCostBudget a b c e f)).

Definition ResourceLimits_fields : list string :=
  ["max_cpu_percent"; "max_memory_mb"; "max_concurrent_requests";
   "max_processing_time_ms"].

Definition validate_ResourceLimits : PyVal -> Res ResourceLimits :=
  as_model ResourceLimits_fields (fun d =>
    a <- required d "max_cpu_percent" (fun v => n <- as_int v ;; n <- ge 0 n ;; le 100 n) ;;
    b <- required d "max_memory_mb" (fun v => n <- as_int v ;; ge 0 n) ;;
    c <- required d "max_concurrent_requests" (fun v => n <- as_int v ;; ge 1 n) ;;
    e <- required d "max_processing_time_ms" (fun v => n <- as_int v ;; ge 0 n) ;;
    inr (mkResourceLimits a b c e)).

Definition MCPContext_fields : list string :=
  ["trace_id"; "span_id"; "parent_span_id"; "baggage"; "user_id"; "session_id";
   "workspace_id"; "request_id"; "timeout_ms"; "metadata"; "budget"; "limits"].

Definition validate_MCPContext : PyVal -> Res MCPContext :=
  as_model MCPContext_fields (fun d =>
    a <- required d "trace_id" as_str ;;
    b <- required d "span_id" as_str ;;
    c <- optional d "parent_span_id" (as_optional as_str) None ;;
    e <- optional d "baggage" as_str_map ∅ ;;
    f <- optional d "user_id" (as_optional as_str) None ;;
    g <- optional d "session_id" (as_optional as_str) None ;;
    h <- optional d "workspace_id" (as_optional as_str) None ;;
    i <- required d "request_id" as_str ;;
    j <- required d "timeout_ms" (fun v => n <- as_int v ;; ge 0 n) ;;
    k <- optional d "metadata" as_str_map ∅ ;;
    l <- optional d "budget" (as_optional validate_CostBudget) None ;;
    m <- optional d "limits" (as_optional validate_ResourceLimits) None ;;
    inr (mkContext a b c e f g h i j k l m)).

Definition DeliveryOptions_fields : list string :=
  ["guarantee"; "retry_count"; "retry_delay_ms"; "require_ack"; "priority"].

Definition validate_DeliveryOptions : PyVal -> Res DeliveryOptions :=
  as_model DeliveryOptions_fields (fun d =>
    a <- required d "guarantee" as_guarantee ;;
    b <- required d "retry_count" (fun v => n <- as_int v ;; n <- ge 0 n ;; le 10 n) ;;
    c <- required d "retry_delay_ms" (fun v => n <- as_int v ;; ge 0 n) ;;
    e <- required d "require_ack" as_bool ;;
    f <- required d "priority" (fun v => n <- as_int v ;; n <- ge 0 n ;; le 10 n) ;;
    inr (mkDelivery a b c e f)).

(** The field validator of [id]. *)
Definition validate_uuid (v : string) : Res string :=
  if (length (split "-"%char v) =? 5)%nat then inr v
  else fail "Invalid UUID format".

Definition MCPMessage_fields : list string :=
  ["id"; "correlation_id"; "trace_id"; "span_id"; "sender"; "recipient";
   "message_type"; "payload"; "tags"; "context"; "delivery"; "created_at";
   "expires_at"; "security_token"; "permissions"].

(** The fields of [MCPMessage] declared without a default. *)
Definition MCPMessage_required : list string :=
  ["id"; "trace_id"; "span_id"; "sender"; "recipient"; "message_type";
   "payload"; "context"; "delivery"; "created_at"].

(** [MCPMessage.model_validate]. *)
Definition validate_MCPMessage : PyVal -> Res (MCPMessage MCPContext) :=
  as_model MCPMessage_fields (fun d =>
    a <- required d "id" (fun v => s <- as_str v ;; validate_uuid s) ;;
    b <- optional d "correlation_id" (as_optional as_str) None ;;
    c <- required d "trace_id" as_str ;;
    e <- required d "span_id" as_str ;;
    f <- required d "sender" as_str ;;
    g <- required d "recipient" as_str ;;
    h <- required d "message_type" as_str ;;
    i <- required d "payload" inr ;;
    j <- optional d "tags" (as_list as_str) [] ;;
    k <- required d "context" validate_MCPContext ;;
    l <- required d "delivery" validate_DeliveryOptions ;;
    m <- required d "created_at" as_datetime ;;
    n <- optional d "expires_at" (as_optional as_datetime) None ;;
    o <- optional d "security_token" (as_optional as_str) None ;;
    p <- optional d "permissions" (as_list as_str) [] ;;
    inr (mkMessage a b c e f g h i j k l m n o p)).

(** [MCPValidator.validate_message]. *)
Definition validate_message (data : PyVal) : Res (MCPMessage MCPContext) :=
  validate_MCPMessage data.

End Validation.

(** *** What an accepted input looks like *)

Lemma bind_inr {A B : Type} (x : Res A) (k : A -> Res B) (b : B) :
  bind x k = inr b -> exists a, x = inr a /\ k a = inr b.
Proof. destruct x as [e|a]; simpl; [done|]. intros H. by exists a. Qed.

Lemma required_inr {A : Type} (d : Dict) (k : string) (f : PyVal -> Res A) (a : A) :
  required d k f = inr a -> exists v, dict_get k d = Some v /\ f v = inr a.
Proof. unfold required. destruct (dict_get k d) as [v|]; [|done]. intros H. by exists v. Qed.

(** A value of the declared type is returned as it is, whatever the
    conversions. *)
Lemma as_str_typed (lax : Lax) (s : string) : as_str lax (VStr s) = inr s.
Proof. reflexivity. Qed.

Lemma as_int_typed (lax : Lax) (n : Z) : as_int lax (VInt n) = inr n.
Proof. reflexivity. Qed.

Lemma ge_inr (lo n n' : Z) : ge lo n = inr n' -> n' = n /\ (lo <= n)%Z.
Proof.
  unfold ge. destruct (Z.leb_spec lo n); [|done]. by intros [= ->].
Qed.

Lemma le_inr (hi n n' : Z) : le hi n = inr n' -> n' = n /\ (n <= hi)%Z.
Proof.
  unfold le. destruct (Z.leb_spec n hi); [|done]. by intros [= ->].
Qed.

Lemma validate_uuid_inr (s s' : string) :
  validate_uuid s = inr s' -> s' = s /\ length (split "-"%char s) = 5%nat.
Proof.
  unfold validate_uuid. destruct (Nat.eqb_spec (length (split "-"%char s)) 5); [|done].
  by intros [= ->].
Qed.

Lemma forbid_extra_inr (declared : list string) (d : Dict) (u : unit) :
  forbid_extra declared d = inr u -> Forall (fun kv => fst kv ∈ declared) d.
Proof.
  unfold forbid_extra.
  destruct (forallb _ d) eqn:E; [|done]. intros _.
  rewrite forallb_forall in E. apply Forall_forall. intros kv Hin.
  apply list_elem_of_In in Hin. apply E in Hin.
  apply existsb_exists in Hin as (x & Hx & Heq).
  apply String.eqb_eq in Heq as ->. by apply list_elem_of_In.
Qed.

(** A bounded integer field read from a dictionary: the value given for
    it reads as an integer within the bounds. *)
Lemma bounded_int_field (lax : Lax) (d : Dict) (k : string) (lo hi n : Z) :
  required d k (fun v => n <- as_int lax v ;; n <- ge lo n ;; le hi n) = inr n ->
  exists v, dict_get k d = Some v /\ as_int lax v = inr n /\ (lo <= n <= hi)%Z.
Proof.
  intros H. apply required_inr in H as (v & Hv & H).
  apply bind_inr in H as (n1 & H1 & H).
  apply bind_inr in H as (n2 & H2 & H). apply ge_inr in H2 as [-> Hlo].
  apply le_inr in H as [-> Hhi]. exists v. split; [done|]. split; [done|lia].
Qed.

Lemma validate_DeliveryOptions_inr (lax : Lax) (v : PyVal) (o : DeliveryOptions) :
  validate_DeliveryOptions lax v = inr o ->
  exists dd vp vr, v = VDict dd /\
    dict_get "priority" dd = Some vp /\ as_int lax vp = inr (priority o) /\
    (0 <= priority o <= 10)%Z /\
    dict_get "retry_count" dd = Some vr /\ as_int lax vr = inr (retry_count o) /\
    (0 <= retry_count o <= 10)%Z.
Proof.
  unfold validate_DeliveryOptions, as_model. destruct v; try done. intros H.
  apply bind_inr in H as (u & _ & H).
  apply bind_inr in H as (a & _ & H).
  apply bind_inr in H as (b & Hb & H).
  apply bounded_int_field in Hb as (vr & Hr1 & Hr2 & Hr3).
  apply bind_inr in H as (c & _ & H).
  apply bind_inr in H as (e & _ & H).
  apply bind_inr in H as (f & Hf & H).
  apply bounded_int_field in Hf as (vp & Hp1 & Hp2 & Hp3).
  injection H as <-. simpl. by exists kvs, vp, vr.
Qed.

(** What [validate_message] has checked of an input it accepts: [d] is
    the mapping given and [dd] its delivery options; the fields read
    through pydantic's conversions are stated through [as_str] and
    [as_int]. *)
Definition accepted_input (lax : Lax) (d dd : Dict) (m : MCPMessage MCPContext) : Prop :=
  Forall (fun k => is_Some (dict_get k d)) MCPMessage_required /\
  Forall (fun kv => fst kv ∈ MCPMessage_fields) d /\
  (exists v, dict_get "id" d = Some v /\ as_str lax v = inr (id m)) /\
  length (split "-"%char (id m)) = 5%nat /\
  (exists v, dict_get "message_type" d = Some v /\ as_str lax v = inr (message_type m)) /\
  dict_get "delivery" d = Some (VDict dd) /\
  (exists v, dict_get "priority" dd = Some v /\
             as_int lax v = inr (priority (delivery m))) /\
  (0 <= priority (delivery m) <= 10)%Z /\
  (exists v, dict_get "retry_count" dd = Some v /\
             as_int lax v = inr (retry_count (delivery m))) /\
  (0 <= retry_count (delivery m) <= 10)%Z /\
  (forall n, dict_get "priority" dd = Some (VInt n) -> (0 <= n <= 10)%Z) /\
  (forall s, dict_get "id" d = Some (VStr s) -> length (split "-"%char s) = 5%nat).

(** C5, as amended: whatever pydantic's conversions are, [validate_message]
    returns a message only for a mapping that has every required field
    and no undeclared one, whose id reads as a text of exactly five groups
    separated by "-", and whose delivery priority and retry count read as
    integers in [0,10]; every input failing one of these is rejected with
    an error, in particular one whose priority is an integer outside
    [0,10]. The message type is returned as read: any text is accepted. *)
Theorem validate_message_accepts_only (lax : Lax) (data : PyVal)
    (m : MCPMessage MCPContext) :
  validate_message lax data = inr m ->
  exists d dd, data = VDict d /\ accepted_input lax d dd m.
Proof.
  unfold validate_message, validate_MCPMessage, as_model.
  destruct data as [| | | | | | |d]; try done. intros H.
  apply bind_inr in H as (u & Hextra & H). apply forbid_extra_inr in Hextra.
  apply bind_inr in H as (a & Ha & H). apply required_inr in Ha as (va & Hva & Ha).
  apply bind_inr in Ha as (sa & Hsa & Ha).
  apply validate_uuid_inr in Ha as [-> Hgroups].
  apply bind_inr in H as (b & _ & H).
  apply bind_inr in H as (c & Hc & H). apply required_inr in Hc as (vc & Hvc & _).
  apply bind_inr in H as (e & He & H). apply required_inr in He as (ve & Hve & _).
  apply bind_inr in H as (f & Hf & H). apply required_inr in Hf as (vf & Hvf & _).
  apply bind_inr in H as (g & Hg & H). apply required_inr in Hg as (vg & Hvg & _).
  apply bind_inr in H as (h & Hh & H). apply required_inr in Hh as (vh & Hvh & Hh).
  apply bind_inr in H as (i & Hi & H). apply required_inr in Hi as (vi & Hvi & _).
  apply bind_inr in H as (j & _ & H).
  apply bind_inr in H as (k & Hk & H). apply required_inr in Hk as (vk & Hvk & _).
  apply bind_inr in H as (l & Hl & H). apply required_inr in Hl as (vl & Hvl & Hl).
  apply validate_DeliveryOptions_inr in Hl
    as (dd & vp & vr & -> & Hp1 & Hp2 & Hp3 & Hr1 & Hr2 & Hr3).
  apply bind_inr in H as (t & Ht & H). apply required_inr in Ht as (vt & Hvt & _).
  apply bind_inr in H as (n & _ & H).
  apply bind_inr in H as (o & _ & H).
  apply bind_inr in H as (p & _ & H).
  injection H as <-. cbn [id message_type delivery] in *. exists d, dd.
  split; [done|]. unfold accepted_input. cbn [id message_type delivery].
  split. { unfold MCPMessage_required. repeat constructor; by eexists. }
  split; [done|]. split; [by exists va|]. split; [done|].
  split; [by exists vh|]. split; [done|]. split; [by exists vp|]. split; [done|].
  split; [by exists vr|]. split; [done|]. split.
  - intros n0 Hn0. rewrite Hn0 in Hp1. injection Hp1 as <-.
    rewrite as_int_typed in Hp2. injection Hp2 as ->. done.
  - intros s0 Hs0. rewrite Hs0 in Hva. injection Hva as <-.
    rewrite as_str_typed in Hsa. injection Hsa as ->. done.
Qed.

(** A well-formed raw message, open in the fields the examples vary. *)
Definition sample_context : PyVal :=
  VDict [("trace_id", VStr "trace-1"); ("span_id", VStr "span-1");
         ("request_id", VStr "req-1"); ("timeout_ms", VInt 30000);
         ("baggage", VDict []); ("metadata", VDict [])].

Definition sample_delivery (priority : Z) : PyVal :=
  VDict [("guarantee", VStr "AT_LEAST_ONCE"); ("retry_count", VInt 3);
         ("retry_delay_ms", VInt 1000); ("require_ack", VBool true);
         ("priority", VInt priority)].

Definition sample_raw (id message_type : string) (priority : Z) : PyVal :=
  VDict [("id", VStr id); ("trace_id", VStr "trace-1"); ("span_id", VStr "span-1");
         ("sender", VStr "orchestrator"); ("recipient", VStr "python-bridge");
         ("message_type", VStr message_type);
         ("payload", VDict [("task_id", VStr "T")]);
         ("context", sample_context); ("delivery", sample_delivery priority);
         ("created_at", VDatetime 1700000000000000)].

Definition sample_id : string := "123e4567-e89b-42d3-a456-426614174000".

Definition sample_message (id message_type : string) (priority : Z)
    : MCPMessage MCPContext :=
  mkMessage id None "trace-1" "span-1" "orchestrator" "python-bridge" message_type
    (VDict [("task_id", VStr "T")]) []
    (mkContext "trace-1" "span-1" None ∅ None None None "req-1" 30000 ∅ None None)
    (mkDelivery AT_LEAST_ONCE 3 1000 true priority)
    1700000000000000 None None [].

Example well_formed_accepted (lax : Lax) :
  validate_message lax (sample_raw sample_id "TASK_REQUEST" 5)
  = inr (sample_message sample_id "TASK_REQUEST" 5).
Proof. vm_compute. reflexivity. Qed.

Lemma validate_message_accepts_only_witness :
  (forall lax, validate_message lax (sample_raw sample_id "TASK_REQUEST" 5)
               = inr (sample_message sample_id "TASK_REQUEST" 5)) /\
  (forall lax, exists d dd,
      sample_raw sample_id "TASK_REQUEST" 5 = VDict d /\
      accepted_input lax d dd (sample_message sample_id "TASK_REQUEST" 5)).
Proof.
  split; [intros lax; vm_compute; reflexivity|]. intros lax.
  apply (validate_message_accepts_only lax (sample_raw sample_id "TASK_REQUEST" 5)
           (sample_message sample_id "TASK_REQUEST" 5)).
  vm_compute. reflexivity.
Defined.

Example priority_out_of_range_rejected (lax : Lax) :
  validate_message lax (sample_raw sample_id "TASK_REQUEST" 11)
  = inl "Input should be less than or equal" /\
  validate_message lax (sample_raw sample_id "TASK_REQUEST" (-1))
  = inl "Input should be greater than or equal".
Proof. by vm_compute. Qed.

Example malformed_id_rejected (lax : Lax) :
  validate_message lax (sample_raw "not a uuid" "TASK_REQUEST" 5)
  = inl "Invalid UUID format".
Proof. by vm_compute. Qed.

Example missing_field_rejected (lax : Lax) :
  validate_message lax
    (VDict [("id", VStr sample_id); ("trace_id", VStr "trace-1")])
  = inl "Field required: span_id".
Proof. by vm_compute. Qed.

Example undeclared_field_rejected (lax : Lax) :
  validate_message lax (VDict [("id", VStr sample_id); ("type", VStr "task_request")])
  = inl "Extra inputs are not permitted".
Proof. by vm_compute. Qed.

(** A priority given as the text "5" is read through pydantic's
    conversion to an integer: the message is accepted when the conversion
    gives 5 and rejected when it gives 50. *)
Definition sample_raw_text_priority : PyVal :=
  VDict [("id", VStr sample_id); ("trace_id", VStr "trace-1"); ("span_id", VStr "span-1");
         ("sender", VStr "orchestrator"); ("recipient", VStr "python-bridge");
         ("message_type", VStr "TASK_REQUEST");
         ("payload", VDict [("task_id", VStr "T")]);
         ("context", sample_context);
         ("delivery",
          VDict [("guarantee", VStr "AT_LEAST_ONCE"); ("retry_count", VInt 3);
                 ("retry_delay_ms", VInt 1000); ("require_ack", VBool true);
                 ("priority", VStr "5")]);
         ("created_at", VDatetime 1700000000000000)].

Example text_priority_converted (lax : Lax) :
  (lax_int lax (VStr "5") = Some 5%Z ->
   validate_message lax sample_raw_text_priority
   = inr (sample_message sample_id "TASK_REQUEST" 5)) /\
  (lax_int lax (VStr "5") = Some 50%Z ->
   validate_message lax sample_raw_text_priority
   = inl "Input should be less than or equal") /\
  (lax_int lax (VStr "5") = None ->
   validate_message lax sample_raw_text_priority
   = inl "Input should be a valid integer").
Proof.
  repeat split; intros H; unfold validate_message, validate_MCPMessage, as_model,
    sample_raw_text_priority; cbn; unfold converted; rewrite H; reflexivity.
Qed.

(** C5 as stated fails: a message type outside the closed enumeration is
    accepted, and so is an id that is five dash-separated groups without
    being a UUID. *)
Lemma unknown_message_type_accepted :
  hasattr MessageTypes "bogus" = false /\
  existsb (fun kv => String.eqb (snd kv) "bogus") MessageTypes = false /\
  (forall lax, validate_message lax (sample_raw sample_id "bogus" 5)
               = inr (sample_message sample_id "bogus" 5)) /\
  (forall lax, validate_message lax (sample_raw "a-b-c-d-e" "TASK_REQUEST" 5)
               = inr (sample_message "a-b-c-d-e" "TASK_REQUEST" 5)).
Proof. repeat split; try intros lax; vm_compute; reflexivity. Qed.

End Schema.


(* ===================================================================== *)
(** ** Framed transport (mcp_core/transport/base.py, unix_socket.py) *)
(* ===================================================================== *)

Module Transport.
Import PyStr Py Schema.

(** Context objects live in a store and messages refer to them: the
    dispatcher, the handler and the sender all mutate the one context
    object of a message. *)
Definition loc := nat.
Definition Store := gmap loc MCPContext.

(** An [MCPMessage] object. *)
Definition Message := MCPMessage loc.

Definition with_metadata (c : MCPContext) (md : gmap string string) : MCPContext :=
  mkContext (ctx_trace_id c) (ctx_span_id c) (parent_span_id c) (baggage c)
    (user_id c) (session_id c) (workspace_id c) (request_id c) (timeout_ms c)
    md (budget c) (limits c).

Definition with_baggage (c : MCPContext) (bg : gmap string string) : MCPContext :=
  mkContext (ctx_trace_id c) (ctx_span_id c) (parent_span_id c) bg
    (user_id c) (session_id c) (workspace_id c) (request_id c) (timeout_ms c)
    (metadata c) (budget c) (limits c).

(** [message.context.metadata[k] = v] *)
Definition set_metadata (l : loc) (k v : string) (σ : Store) : Store :=
  alter (fun c => with_metadata c (<[k := v]> (metadata c))) l σ.

(** [message.context.baggage.update(carrier)] *)
Definition update_baggage (l : loc) (carrier : gmap string string) (σ : Store) : Store :=
  alter (fun c => with_baggage c (carrier ∪ baggage c)) l σ.

(** The message with its context read from the store. *)
Definition snapshot (σ : Store) (m : Message) : option (MCPMessage MCPContext) :=
  c ← σ !! context m;
  Some (mkMessage (id m) (correlation_id m) (trace_id m) (span_id m) (sender m)
          (recipient m) (message_type m) (payload m) (tags m) c (delivery m)
          (created_at m) (expires_at m) (security_token m) (permissions m)).

(** *** [model_dump] *)

Definition dump_opt {A : Type} (f : A -> PyVal) (o : option A) : PyVal :=
  match o with Some a => f a | None => VNone end.

Definition dump_str_map (m : gmap string string) : PyVal :=
  VDict (map (fun kv => (fst kv, VStr (snd kv))) (map_to_list m)).

Definition dump_float_map (l : list (string * Q)) : PyVal :=
  VDict (map (fun kv => (fst kv, VFloat (snd kv))) l).

Definition dump_CostBudget (b : CostBudget) : PyVal :=
  VDict [("max_usd", VFloat (max_usd b)); ("max_tokens", VInt (max_tokens b));
         ("used_usd", VFloat (used_usd b)); ("used_tokens", VInt (used_tokens b));
         ("model_costs", dump_float_map (model_costs b))].

Definition dump_ResourceLimits (r : ResourceLimits) : PyVal :=
  VDict [("max_cpu_percent", VInt (max_cpu_percent r));
         ("max_memory_mb", VInt (max_memory_mb r));
         ("max_concurrent_requests", VInt (max_concurrent_requests r));
         ("max_processing_time_ms", VInt (max_processing_time_ms r))].

Definition dump_MCPContext (c : MCPContext) : PyVal :=
  VDict [("trace_id", VStr (ctx_trace_id c)); ("span_id", VStr (ctx_span_id c));
         ("parent_span_id", dump_opt VStr (parent_span_id c));
         ("baggage", dump_str_map (baggage c));
         ("user_id", dump_opt VStr (user_id c));
         ("session_id", dump_opt VStr (session_id c));
         ("workspace_id", dump_opt VStr (workspace_id c));
         ("request_id", VStr (request_id c)); ("timeout_ms", VInt (timeout_ms c));
         ("metadata", dump_str_map (metadata c));
         ("budget", dump_opt dump_CostBudget (budget c));
         ("limits", dump_opt dump_ResourceLimits (limits c))].

Definition guarantee_value (g : DeliveryGuarantee) : string :=
  match g with
  | AT_MOST_ONCE => "AT_MOST_ONCE"
  | AT_LEAST_ONCE => "AT_LEAST_ONCE"
  | EXACTLY_ONCE => "EXACTLY_ONCE"
  end.

Definition dump_DeliveryOptions (o : DeliveryOptions) : PyVal :=
  VDict [("guarantee", VStr (guarantee_value (guarantee o)));
         ("retry_count", VInt (retry_count o));
         ("retry_delay_ms", VInt (retry_delay_ms o));
         ("require_ack", VBool (require_ack o)); ("priority", VInt (priority o))].

Definition dump_TaskMetrics (t : TaskMetrics) : PyVal :=
  VDict [("processing_time_ms", VInt (processing_time_ms t));
         ("queue_time_ms", VInt (queue_time_ms t));
         ("retry_count", VInt (tm_retry_count t));
         ("cost_usd", VFloat (cost_usd t)); ("tokens_used", VInt (tokens_used t));
         ("model_used", dump_opt VStr (model_used t));
         ("custom_metrics", dump_float_map (custom_metrics t))].

Definition dump_TaskResponse (r : TaskResponse) : PyVal :=
  VDict [("task_id", VStr (task_id r)); ("status", VStr (TaskStatus_value (status r)));
         ("result", dump_opt (fun v => v) (result r));
         ("error_message", dump_opt VStr (error_message r));
         ("error_code", dump_opt VStr (error_code r));
         ("metrics", dump_TaskMetrics (metrics r));
         ("warnings", VList (map VStr (warnings r)))].

Definition dump_MCPMessage (m : MCPMessage MCPContext) : PyVal :=
  VDict [("id", VStr (id m)); ("correlation_id", dump_opt VStr (correlation_id m));
         ("trace_id", VStr (trace_id m)); ("span_id", VStr (span_id m));
         ("sender", VStr (sender m)); ("recipient", VStr (recipient m));
         ("message_type", VStr (message_type m)); ("payload", payload m);
         ("tags", VList (map VStr (tags m)));
         ("context", dump_MCPContext (context m));
         ("delivery", dump_DeliveryOptions (delivery m));
         ("created_at", VDatetime (created_at m));
         ("expires_at", dump_opt VDatetime (expires_at m));
         ("security_token", dump_opt VStr (security_token m));
         ("permissions", VList (map VStr (permissions m)))].

(** *** [BaseMCPTransport._create_error_response] *)

Definition error_task_response (original : Message) (error_message error_code : string)
    : TaskResponse :=
  mkTaskResponse
    (match correlation_id original with
     | Some c => if truthy c then c else id original
     | None => id original
     end)
    FAILED None
    (Some error_message) (Some error_code)
    (mkTaskMetrics 0 0 0 0 0 None []) [].

(** The keyword arguments of the [MCPMessage] it builds. *)
Definition error_response (original_message : Message)
    (error_message error_code : string) : Message :=
  mkMessage ("error_" +:+ id original_message) (Some (id original_message))
    (trace_id original_message) (span_id original_message)
    (recipient original_message) (sender original_message)
    TASK_RESPONSE
    (dump_TaskResponse
       (error_task_response original_message error_message error_code))
    ["error"] (context original_message) (delivery original_message)
    (created_at original_message) None None [].

(** Building the [MCPMessage] runs its [id] validator. *)
Definition _create_error_response (original_message : Message)
    (error_message error_code : string) : Res Message :=
  let r := error_response original_message error_message error_code in
  _ <- validate_uuid (id r) ;; inr r.

(** *** Framing *)

Abbreviation byte := Byte.byte.

Definition byte_of_Z (z : Z) : byte :=
  default Byte.x00 (Byte.of_N (Z.to_N (z mod 256))).

Definition Z_of_byte (b : byte) : Z := Z.of_N (Byte.to_N b).

(** [struct.pack('!I', n)]: [None] is [struct.error]. *)
Definition pack_be32 (n : Z) : option (list byte) :=
  if (0 <=? n)%Z && (n <? 2 ^ 32)%Z then
    Some [byte_of_Z (n / 2 ^ 24); byte_of_Z (n / 2 ^ 16); byte_of_Z (n / 2 ^ 8);
          byte_of_Z n]
  else None.

(** [struct.unpack('!I', b)[0]] *)
Definition unpack_be32 (b : list byte) : option Z :=
  match b with
  | [b3; b2; b1; b0] =>
      Some (Z_of_byte b3 * 2 ^ 24 + Z_of_byte b2 * 2 ^ 16 + Z_of_byte b1 * 2 ^ 8
            + Z_of_byte b0)%Z
  | _ => None
  end.

(** *** [UnixSocketConnection] and [MCPUnixSocketServer] *)

Record Connection := mkConnection {
  client_id : string;
  max_message_size : Z;
  enable_validation : bool;
  (** the bytes written to the stream so far *)
  writer : list byte
}.

Definition write (c : Connection) (data : list byte) : Connection :=
  mkConnection (client_id c) (max_message_size c) (enable_validation c)
    (writer c ++ data).

Section Wire.
(** Pydantic's conversions, for the validation the connection runs. *)
Variable lax : Lax.
(** What [propagation.inject] puts into the carrier. *)
Variable carrier : gmap string string.
(** [msgpack.packb(value, use_bin_type=True)]; [inl] is the text of the
    exception it raised. *)
Variable packb : PyVal -> string + list byte.

Definition send_failed (e : string) : string := "Failed to send message: " +:+ e.

(** [UnixSocketConnection.send_message] *)
Definition conn_send_message (c : Connection) (message : Message) (σ : Store)
    : Res Connection * Store :=
  match snapshot σ message with
  | None => (inl (send_failed "context"), σ)
  | Some dumped =>
      match (if enable_validation c then validate_message lax (dump_MCPMessage dumped)
             else inr dumped) with
      | inl e => (inl (send_failed e), σ)
      | inr _ =>
          let σ1 := update_baggage (context message) carrier σ in
          match snapshot σ1 message with
          | None => (inl (send_failed "context"), σ1)
          | Some dumped1 =>
              match packb (dump_MCPMessage dumped1) with
              | inl e => (inl (send_failed e), σ1)
              | inr data =>
                  if (max_message_size c <? Z.of_nat (length data))%Z then
                    (inl (send_failed "Message too large"), σ1)
                  else
                    match pack_be32 (Z.of_nat (length data)) with
                    | None => (inl (send_failed "struct.error"), σ1)
                    | Some length_header => (inr (write c (length_header ++ data)), σ1)
                    end
              end
          end
      end
  end.

(** A message handler: it is handed the message object and may change it
    and the store before it returns or raises ([Some e]). *)
Definition Handler : Type := Message -> Store -> Message * Store * option string.

Record Server := mkServer {
  _clients : gmap string Connection;
  message_handler : option Handler
}.

Definition with_client (srv : Server) (cid : string) (c : Connection) : Server :=
  mkServer (<[cid := c]> (_clients srv)) (message_handler srv).

(** The broadcast branch: failures are logged, not raised. *)
Definition broadcast (srv : Server) (message : Message) (σ : Store) : Server * Store :=
  map_fold (fun cid c acc =>
              match conn_send_message c message (snd acc) with
              | (inr c', σ') => (with_client (fst acc) cid c', σ')
              | (inl _, σ') => (fst acc, σ')
              end)
           (srv, σ) (_clients srv).

(** [MCPUnixSocketServer.send_message] *)
Definition send_message (srv : Server) (message : Message) (cid : string) (σ : Store)
    : Res Server * Store :=
  if truthy cid then
    match _clients srv !! cid with
    | None => (inl ("Client " +:+ cid +:+ " not found"), σ)
    | Some client =>
        match conn_send_message client message σ with
        | (inl e, σ') => (inl e, σ')
        | (inr client', σ') => (inr (with_client srv cid client'), σ')
        end
    end
  else
    let '(srv', σ') := broadcast srv message σ in (inr srv', σ').

(** [MCPUnixSocketServer._dispatch_message]; an [inl] result is an
    exception leaving the function. *)
Definition _dispatch_message (srv : Server) (message : Message) (cid : string)
    (σ : Store) : Res Server * Store :=
  match message_handler srv with
  | None => (inr srv, σ)
  | Some handler =>
      let σ1 := set_metadata (context message) "client_id" cid σ in
      match handler message σ1 with
      | (_, σ2, None) => (inr srv, σ2)
      | (message', σ2, Some e) =>
          if String.eqb (message_type message') TASK_REQUEST then
            match _create_error_response message' e INTERNAL_ERROR with
            | inl e' => (inl e', σ2)
            | inr error_response => send_message srv error_response cid σ2
            end
          else (inr srv, σ2)
      end
  end.

End Wire.

(** *** The error response of a failed handler *)

Lemma split_aux_length (sep : ascii) (s cur cur' : string) :
  length (split_aux sep cur s) = length (split_aux sep cur' s).
Proof.
  revert cur cur'. induction s as [|c s IH]; intros cur cur'; simpl; [done|].
  destruct (Ascii.eqb c sep); simpl; [done|]. apply IH.
Qed.

(** The prefix "error_" holds no "-": it adds no group. *)
Lemma error_id_groups (s : string) :
  length (split "-"%char ("error_" +:+ s)) = length (split "-"%char s).
Proof.
  unfold split.
  change ("error_" +:+ s)
    with (String "e" (String "r" (String "r" (String "o" (String "r" (String "_" s)))))).
  cbn [split_aux Ascii.eqb Bool.eqb]. apply split_aux_length.
Qed.

Lemma create_error_response_ok (original : Message) (e code : string) :
  length (split "-"%char (id original)) = 5%nat ->
  _create_error_response original e code = inr (error_response original e code).
Proof.
  intros H. unfold _create_error_response, validate_uuid. cbn [id error_response].
  by rewrite error_id_groups, H.
Qed.

(** *** The packer *)

(** Whether a value holds a [datetime] object. *)
Fixpoint has_datetime (v : PyVal) : bool :=
  match v with
  | VDatetime _ => true
  | VList l => existsb has_datetime l
  | VDict kvs => existsb (fun kv => has_datetime (snd kv)) kvs
  | _ => false
  end.

Definition cannot_serialize : string := "can not serialize 'datetime.datetime' object".

(** [msgpack.packb(value, use_bin_type=True)] as msgpack documents it:
    None, booleans, integers, floats, texts, lists and dictionaries are
    packed; an object of another type is handed to the [default] hook,
    and a datetime is packed only under [datetime=True]. The transport
    sets neither, so a value holding a datetime makes [packb] raise
    TypeError. What the packer makes of any other value is left open
    ([encode]; it raises on an integer beyond 64 bits). *)
Definition msgpack_packb (encode : PyVal -> string + list byte) (v : PyVal)
    : string + list byte :=
  if has_datetime v then inl cannot_serialize else encode v.

(** [model_dump()] leaves [created_at] the datetime object it is. *)
Lemma dump_has_datetime (m : MCPMessage MCPContext) :
  has_datetime (dump_MCPMessage m) = true.
Proof.
  unfold dump_MCPMessage. cbn [has_datetime]. apply existsb_exists.
  exists ("created_at", VDatetime (created_at m)). split; [|reflexivity].
  do 11 right. by left.
Qed.

Lemma msgpack_packb_dump (encode : PyVal -> string + list byte)
    (m : MCPMessage MCPContext) :
  msgpack_packb encode (dump_MCPMessage m) = inl cannot_serialize.
Proof. unfold msgpack_packb. by rewrite dump_has_datetime. Qed.

Section WireFacts.
Variable lax : Lax.
Variable carrier : gmap string string.
Variable packb : PyVal -> string + list byte.


Lemma snapshot_context (σ : Store) (m : Message) (dumped : MCPMessage MCPContext) :
  snapshot σ m = Some dumped -> σ !! context m = Some (context dumped).
Proof.
  unfold snapshot. destruct (σ !! context m) as [c|]; simpl; [|done].
  by intros [= <-].
Qed.

End WireFacts.

Section PackerFacts.
Variable lax : Lax.
Variable carrier : gmap string string.
Variable encode : PyVal -> string + list byte.

(** With that packer the connection-level send of a message always
    raises: the stream is not written to. The store is as it was, or has
    the carrier added to the message's baggage. *)
Lemma conn_send_message_raises (c : Connection) (m : Message) (σ : Store) :
  exists e σ',
    conn_send_message lax carrier (msgpack_packb encode) c m σ
    = (inl (send_failed e), σ') /\
    (σ' = σ \/ σ' = update_baggage (context m) carrier σ).
Proof.
  unfold conn_send_message.
  destruct (snapshot σ m) as [dumped|]; [|eexists _, _; split; [done|by left]].
  destruct (if enable_validation c then _ else _) as [e|?];
    [eexists _, _; split; [done|by left]|].
  destruct (snapshot (update_baggage _ _ σ) m) as [dumped1|];
    [|eexists _, _; split; [done|by right]].
  rewrite msgpack_packb_dump. eexists _, _. split; [done|by right].
Qed.

(** When the message's context is in the store and the message passes
    the validation (or validation is off), it is the packer that
    raises. *)
Lemma conn_send_message_packer (c : Connection) (m : Message) (σ : Store)
    (dumped : MCPMessage MCPContext) :
  snapshot σ m = Some dumped ->
  (enable_validation c = true -> validate_message lax (dump_MCPMessage dumped) = inr dumped) ->
  conn_send_message lax carrier (msgpack_packb encode) c m σ
  = (inl (send_failed cannot_serialize), update_baggage (context m) carrier σ).
Proof.
  intros Hsnap Hvalid. unfold conn_send_message. rewrite Hsnap.
  assert (E : (if enable_validation c then validate_message lax (dump_MCPMessage dumped)
               else inr dumped) = inr dumped).
  { destruct (enable_validation c); [by apply Hvalid|done]. }
  rewrite E.
  assert (Hsome : is_Some (snapshot (update_baggage (context m) carrier σ) m)).
  { pose proof (snapshot_context _ _ _ Hsnap) as Hctx.
    unfold snapshot, update_baggage, Store, loc in *.
    rewrite lookup_alter_eq, Hctx. simpl. by eexists. }
  destruct Hsome as [dumped1 ->]. by rewrite msgpack_packb_dump.
Qed.

End PackerFacts.

(** C4: when the handler raises on a task-request of a connected client,
    the server builds the error response the claim describes and hands it
    to that client's connection, where packing raises on the datetime in
    [created_at]: the send fails, nothing is written to the client's
    stream, and the dispatch itself ends in that exception. *)
Theorem handler_failure_response_not_sent
    (lax : Lax) (carrier : gmap string string) (encode : PyVal -> string + list byte)
    (srv : Server) (handler : Handler) (message message' : Message)
    (cid e : string) (σ σ2 : Store) (client : Connection) :
  message_handler srv = Some handler ->
  handler message (set_metadata (context message) "client_id" cid σ)
  = (message', σ2, Some e) ->
  message_type message' = TASK_REQUEST ->
  length (split "-"%char (id message')) = 5%nat ->
  cid <> "" ->
  _clients srv !! cid = Some client ->
  let response := error_response message' e INTERNAL_ERROR in
  _create_error_response message' e INTERNAL_ERROR = inr response /\
  correlation_id response = Some (id message') /\
  sender response = recipient message' /\
  recipient response = sender message' /\
  exists err σ3,
    conn_send_message lax carrier (msgpack_packb encode) client response σ2
    = (inl (send_failed err), σ3) /\
    _dispatch_message lax carrier (msgpack_packb encode) srv message cid σ
    = (inl (send_failed err), σ3).
Proof.
  intros Hh Hraise Htype Hid Hcid Hclient response.
  split; [by apply create_error_response_ok|]. do 3 (split; [done|]).
  destruct (conn_send_message_raises lax carrier encode client response σ2)
    as (err & σ3 & Hsend & _).
  exists err, σ3. split; [done|].
  unfold _dispatch_message. rewrite Hh, Hraise, Htype, String.eqb_refl.
  rewrite (create_error_response_ok _ _ _ Hid). unfold send_message.
  destruct cid as [|c0 cid0]; [done|]. cbn [truthy].
  fold response. by rewrite Hclient, Hsend.
Qed.

(** *** A server with one client and a handler that always raises *)

Definition demo_carrier : gmap string string :=
  {[ "traceparent" := "00-0af7651916cd43dd8448eb211c80319c-b7ad6b7169203331-01" ]}.

Definition demo_context : MCPContext :=
  mkContext "trace-1" "span-1" None ∅ None None None "req-1" 30000 ∅ None None.

Definition demo_store : Store := {[ 0%nat := demo_context ]}.

Definition demo_request : Message :=
  mkMessage sample_id None "trace-1" "span-1" "python-bridge" "orchestrator"
    TASK_REQUEST (VDict [("task_id", VStr "T")]) [] 0%nat
    (mkDelivery AT_LEAST_ONCE 3 1000 true 5) 1700000000000000 None None [].

Definition demo_handler : Handler := fun m σ => (m, σ, Some "boom").

Definition demo_client : Connection :=
  mkConnection "client_1" (10 * 1024 * 1024) true [].

Definition demo_server : Server :=
  mkServer {[ "client_1" := demo_client ]} (Some demo_handler).

Definition demo_annotated : Store :=
  set_metadata 0%nat "client_id" "client_1" demo_store.

Lemma handler_failure_response_not_sent_witness :
  message_handler demo_server = Some demo_handler /\
  demo_handler demo_request (set_metadata (context demo_request) "client_id" "client_1"
                               demo_store)
  = (demo_request, demo_annotated, Some "boom") /\
  message_type demo_request = TASK_REQUEST /\
  length (split "-"%char (id demo_request)) = 5%nat /\
  "client_1" <> "" /\
  _clients demo_server !! "client_1" = Some demo_client /\
  (forall lax encode,
     let response := error_response demo_request "boom" INTERNAL_ERROR in
     _create_error_response demo_request "boom" INTERNAL_ERROR = inr response /\
     correlation_id response = Some (id demo_request) /\
     sender response = recipient demo_request /\
     recipient response = sender demo_request /\
     exists err σ3,
       conn_send_message lax demo_carrier (msgpack_packb encode) demo_client response
         demo_annotated
       = (inl (send_failed err), σ3) /\
       _dispatch_message lax demo_carrier (msgpack_packb encode) demo_server demo_request
         "client_1" demo_store
       = (inl (send_failed err), σ3)).
Proof.
  assert (H1 : message_handler demo_server = Some demo_handler) by reflexivity.
  assert (H2 : demo_handler demo_request
                 (set_metadata (context demo_request) "client_id" "client_1" demo_store)
               = (demo_request, demo_annotated, Some "boom")) by reflexivity.
  assert (H3 : message_type demo_request = TASK_REQUEST) by reflexivity.
  assert (H4 : length (split "-"%char (id demo_request)) = 5%nat) by reflexivity.
  assert (H5 : "client_1" <> "") by discriminate.
  assert (H6 : _clients demo_server !! "client_1" = Some demo_client)
    by (vm_compute; reflexivity).
  repeat (split; [assumption|]).
  intros lax encode.
  exact (handler_failure_response_not_sent lax demo_carrier encode demo_server
           demo_handler demo_request demo_request "client_1" "boom" demo_store
           demo_annotated demo_client H1 H2 H3 H4 H5 H6).
Defined.

(** The store the failed send leaves: the request's own context now
    carries the client id and the trace carrier, being the object the
    response refers to. *)
Definition demo_after_send : Store :=
  update_baggage 0%nat demo_carrier demo_annotated.

(** The dispatch of the request to the raising handler, run: it ends in
    the packer's exception, and the client's stream is still empty. *)
Example demo_dispatch_raises (lax : Lax) (encode : PyVal -> string + list byte) :
  _dispatch_message lax demo_carrier (msgpack_packb encode) demo_server demo_request
    "client_1" demo_store
  = (inl (send_failed cannot_serialize), demo_after_send) /\
  writer demo_client = [] /\
  (c ← demo_after_send !! context demo_request; Some (metadata c, baggage c))
  = Some ({[ "client_id" := "client_1" ]}, demo_carrier).
Proof. repeat split; vm_compute; reflexivity. Qed.

(** A valid message, as an object whose context is in the store. *)
Definition demo_message : Message :=
  mkMessage sample_id None "trace-1" "span-1" "orchestrator" "python-bridge"
    TASK_REQUEST (VDict [("task_id", VStr "T")]) [] 0%nat
    (mkDelivery AT_LEAST_ONCE 3 1000 true 5) 1700000000000000 None None [].

(** C8: the send path produces no wire form. Packing the dump of any
    message raises, because [model_dump()] keeps [created_at] a datetime
    object; so the connection-level send of every message raises and
    writes nothing, and there is no body for the receive path to
    deserialize. At the valid message [demo_message] the validation of
    the send path passes and the packer is what raises. *)
Theorem send_path_packs_no_message
    (lax : Lax) (carrier : gmap string string) (encode : PyVal -> string + list byte) :
  (forall m : MCPMessage MCPContext,
     msgpack_packb encode (dump_MCPMessage m) = inl cannot_serialize) /\
  (forall (c : Connection) (m : Message) (σ : Store),
     exists e σ',
       conn_send_message lax carrier (msgpack_packb encode) c m σ
       = (inl (send_failed e), σ')) /\
  snapshot demo_store demo_message = Some (sample_message sample_id "TASK_REQUEST" 5) /\
  validate_message lax (dump_MCPMessage (sample_message sample_id "TASK_REQUEST" 5))
  = inr (sample_message sample_id "TASK_REQUEST" 5) /\
  conn_send_message lax carrier (msgpack_packb encode) demo_client demo_message demo_store
  = (inl (send_failed cannot_serialize), update_baggage 0%nat carrier demo_store).
Proof.
  split; [apply msgpack_packb_dump|]. split.
  { intros c m σ.
    destruct (conn_send_message_raises lax carrier encode c m σ) as (e & σ' & H & _).
    by exists e, σ'. }
  assert (Hsnap : snapshot demo_store demo_message
                  = Some (sample_message sample_id "TASK_REQUEST" 5))
    by (vm_compute; reflexivity).
  assert (Hvalid : validate_message lax
                     (dump_MCPMessage (sample_message sample_id "TASK_REQUEST" 5))
                   = inr (sample_message sample_id "TASK_REQUEST" 5))
    by (vm_compute; reflexivity).
  split; [done|]. split; [done|].
  by apply (conn_send_message_packer lax carrier encode demo_client demo_message
              demo_store _ Hsnap).
Qed.

(** *** The receive side of the framing *)

(** [_read_exactly(n)] on the bytes that arrive before the stream ends:
    the bytes read and those left, or nothing when the stream ends
    first. *)
Definition _read_exactly (n : nat) (stream : list byte) : list byte * list byte :=
  if (n <=? length stream)%nat then (take n stream, drop n stream) else ([], []).

Inductive Received :=
| Frame (message_data rest : list byte)
| Closed
| TooLarge (message_length : Z).

(** One turn of [_receive_loop] up to the body of the frame. *)
Definition receive_frame (max_size : Z) (stream : list byte) : Received :=
  let '(length_data, rest) := _read_exactly 4 stream in
  match unpack_be32 length_data with
  | None => Closed
  | Some message_length =>
      if (max_size <? message_length)%Z then TooLarge message_length
      else
        let '(message_data, rest') := _read_exactly (Z.to_nat message_length) rest in
        match message_data with
        | [] => Closed
        | _ => Frame message_data rest'
        end
  end.

Lemma Z_of_byte_of_Z (z : Z) : Z_of_byte (byte_of_Z z) = (z mod 256)%Z.
Proof.
  unfold Z_of_byte, byte_of_Z.
  assert (Hr : (0 <= z mod 256 < 256)%Z) by (apply Z.mod_pos_bound; lia).
  destruct (Byte.of_N (Z.to_N (z mod 256))) as [b|] eqn:E.
  - simpl. apply Byte.to_of_N in E. rewrite E. rewrite Z2N.id; lia.
  - apply Byte.of_N_None_iff in E. lia.
Qed.

Lemma unpack_pack_be32 (n : Z) (h : list byte) :
  pack_be32 n = Some h -> unpack_be32 h = Some n /\ length h = 4%nat.
Proof.
  unfold pack_be32. destruct (Z.leb_spec 0 n); simpl; [|done].
  destruct (Z.ltb_spec n (2 ^ 32)); [|done]. intros [= <-].
  split; [|done].
  unfold unpack_be32. rewrite !Z_of_byte_of_Z. f_equal.
  assert (E3 : ((n / 2 ^ 24) mod 256 = n / 2 ^ 24)%Z).
  { apply Z.mod_small. split; [apply Z.div_pos; lia|].
    apply Z.div_lt_upper_bound; lia. }
  rewrite E3.
  pose proof (Z.div_mod n 256 ltac:(lia)) as D0.
  pose proof (Z.div_mod (n / 2 ^ 8) 256 ltac:(lia)) as D1.
  pose proof (Z.div_mod (n / 2 ^ 16) 256 ltac:(lia)) as D2.
  replace (n / 2 ^ 8 / 256)%Z with (n / 2 ^ 16)%Z in D1
    by (rewrite Z.div_div by lia; reflexivity).
  replace (n / 2 ^ 16 / 256)%Z with (n / 2 ^ 24)%Z in D2
    by (rewrite Z.div_div by lia; reflexivity).
  change (2 ^ 8)%Z with 256%Z in *. change (2 ^ 16)%Z with 65536%Z in *.
  change (2 ^ 24)%Z with 16777216%Z in *.
  lia.
Qed.

(** A non-empty body within the size limit comes back out of its frame,
    whatever follows it on the stream. *)
Lemma frame_roundtrip (max_size : Z) (data length_header rest : list byte) :
  pack_be32 (Z.of_nat (length data)) = Some length_header ->
  data <> [] ->
  (Z.of_nat (length data) <= max_size)%Z ->
  receive_frame max_size (length_header ++ data ++ rest) = Frame data rest.
Proof.
  intros Hh Hne Hmax. apply unpack_pack_be32 in Hh as [Hu Hl].
  unfold receive_frame, _read_exactly.
  rewrite length_app, Hl. simpl Nat.leb.
  rewrite <- Hl, take_app_length, drop_app_length, Hu.
  destruct (Z.ltb_spec max_size (Z.of_nat (length data))); [lia|].
  rewrite Nat2Z.id, length_app.
  replace (length data <=? length data + length rest)%nat with true
    by (symmetry; apply Nat.leb_le; lia).
  rewrite take_app_length, drop_app_length. by destruct data.
Qed.

(** A declared length of zero ends the loop: nothing is delivered. *)
Example empty_frame_not_delivered :
  receive_frame 1024 [Byte.x00; Byte.x00; Byte.x00; Byte.x00; Byte.xc0] = Closed.
Proof. reflexivity. Qed.

End Transport.


(* ===================================================================== *)
(** ** Worker bridge (mcp_core/bridge/python_bridge.py) *)
(* ===================================================================== *)

Module Bridge.
Import PyStr Py Schema.

(** [PythonAgent]: its name and the names of its capabilities. *)
Record PythonAgent := mkAgent {
  name : string;
  capabilities : list string
}.

(** The keyword arguments the bridge gives [MCPMessage], apart from the
    fresh [id] and the [timestamp]. *)
Record BridgeMessage := mkBridgeMessage {
  type : string;
  source : string;
  target : string;
  payload : Dict;
  correlation_id : option string
}.

(** What the bridge reads of a received message. *)
Record Incoming := mkIncoming {
  in_id : string;
  in_source : string;
  in_payload : Dict
}.

Section Bridge.
(** The task request built from the payload and the response an agent
    returns are taken as the bridge uses them. *)
Variable Request : Type.
Variable Response : Type.
Variable request_task_id : Request -> string.
(** [TaskRequest] built from the payload's keywords; [inl] is the text of
    the exception. *)
Variable parse_task_request : Dict -> string + Request.
(** [task_request.context.get("required_capabilities", [])] *)
Variable required_capabilities : Request -> string + list string.
(** [agent.execute_task(task_request)] *)
Variable execute_task : PythonAgent -> Request -> string + Response.
(** Setting [execution_time] and [agent_name] on the response, then
    [task_response.dict()]. *)
Variable timed_response_dict : Response -> string -> string -> string + Dict.
(** Building the [MCPMessage] and writing it with [_send_message]:
    [Some e] when either raises, given how many messages went out
    before. *)
Variable send_fails : nat -> BridgeMessage -> option string.

(** One execution activity: the arguments of [_execute_agent_task]. *)
Record Activity := mkActivity {
  act_agent : PythonAgent;
  act_request : Request;
  act_response_target : string;
  act_correlation_id : string
}.

Record BridgeState := mkBridge {
  (** insertion-ordered, as [dict.items()] iterates *)
  registered_agents : list (string * PythonAgent);
  active_tasks : gmap string Activity;
  (** activities made by [asyncio.create_task] that have not run yet *)
  scheduled : list Activity;
  (** the messages written to the socket, oldest first *)
  wire : list BridgeMessage;
  messages_sent : nat;
  tasks_executed : nat
}.

(** A step of the bridge: it returns or raises, and leaves a state. *)
Definition M (A : Type) : Type := BridgeState -> (string + A) * BridgeState.

Definition ret {A : Type} (a : A) : M A := fun b => (inr a, b).
Definition raise {A : Type} (e : string) : M A := fun b => (inl e, b).
Definition mbind {A B : Type} (m : M A) (k : A -> M B) : M B :=
  fun b => match m b with
           | (inl e, b') => (inl e, b')
           | (inr a, b') => k a b'
           end.
Definition lift {A : Type} (x : string + A) : M A :=
  match x with inl e => raise e | inr a => ret a end.
(** [try: body except Exception as e: handler(e)] *)
Definition try_except {A : Type} (body : M A) (handler : string -> M A) : M A :=
  fun b => match body b with
           | (inl e, b') => handler e b'
           | (inr a, b') => (inr a, b')
           end.

Notation "x <-- m ;;; k" := (mbind m (fun x => k))
  (at level 100, m at next level, right associativity).
Notation "m ;;; k" := (mbind m (fun _ => k))
  (at level 100, right associativity).

(** [await self._send_message(MCPMessage(...))] *)
Definition _send_message (message : BridgeMessage) : M unit :=
  fun b => match send_fails (messages_sent b) message with
           | Some e => (inl ("Message send failed: " +:+ e), b)
           | None =>
               (inr tt, mkBridge (registered_agents b) (active_tasks b) (scheduled b)
                          (wire b ++ [message]) (S (messages_sent b))
                          (tasks_executed b))
           end.

(** [PythonAgent.can_handle_task] *)
Definition can_handle_task (agent : PythonAgent) (task_request : Request)
    : string + bool :=
  match required_capabilities task_request with
  | inl e => inl e
  | inr required =>
      inr (existsb (fun cap => existsb (String.eqb cap) (capabilities agent)) required)
  end.

(** The loop that collects [capable_agents]. *)
Fixpoint capable_agents (agents : list (string * PythonAgent)) (task_request : Request)
    : string + list (string * PythonAgent) :=
  match agents with
  | [] => inr []
  | (agent_name, agent) :: rest =>
      match can_handle_task agent task_request with
      | inl e => inl e
      | inr ok =>
          match capable_agents rest task_request with
          | inl e => inl e
          | inr found => inr (if ok then (agent_name, agent) :: found else found)
          end
      end
  end.

(** [TaskStatus.<member>.value] *)
Definition status_value (member : string) : M string :=
  match TaskStatus_member member with
  | Some s => ret (TaskStatus_value s)
  | None => raise ("type object 'TaskStatus' has no attribute '" +:+ member +:+ "'")
  end.

Definition task_response (target : string) (payload : Dict) (correlation : string)
    : BridgeMessage :=
  mkBridgeMessage "task_response" "python-bridge" target payload (Some correlation).

(** [asyncio.create_task(...)] followed by the entry in [active_tasks]. *)
Definition spawn (task_id : string) (a : Activity) : M unit :=
  fun b => (inr tt, mkBridge (registered_agents b) (<[task_id := a]> (active_tasks b))
                      (scheduled b ++ [a]) (wire b) (messages_sent b)
                      (tasks_executed b)).

Definition get_agents : M (list (string * PythonAgent)) :=
  fun b => (inr (registered_agents b), b).

(** [_handle_task_request] *)
Definition _handle_task_request (message : Incoming) : M unit :=
  try_except
    (task_request <-- lift (parse_task_request (in_payload message)) ;;;
     agents <-- get_agents ;;;
     capable <-- lift (capable_agents agents task_request) ;;;
     match capable with
     | [] =>
         failed <-- status_value "FAILED" ;;;
         _send_message
           (task_response (in_source message)
              [("task_id", VStr (request_task_id task_request));
               ("status", VStr failed);
               ("error", VStr "No capable Python agent found")]
              (in_id message))
     | (selected_agent_name, selected_agent) :: _ =>
         spawn (request_task_id task_request)
           (mkActivity selected_agent task_request (in_source message) (in_id message)) ;;;
         accepted <-- status_value "ACCEPTED" ;;;
         _send_message
           (task_response (in_source message)
              [("task_id", VStr (request_task_id task_request));
               ("status", VStr accepted);
               ("assigned_agent", VStr selected_agent_name);
               ("estimated_completion", VNone)]
              (in_id message))
     end)
    (fun e => ret tt).

Definition finish_task (task_id : string) : M unit :=
  fun b => (inr tt, mkBridge (registered_agents b) (delete task_id (active_tasks b))
                      (scheduled b) (wire b) (messages_sent b)
                      (S (tasks_executed b))).

(** [_execute_agent_task]; [elapsed] is the measured execution time. *)
Definition _execute_agent_task (elapsed : string) (a : Activity) : M unit :=
  let agent := act_agent a in
  let task_request := act_request a in
  try_except
    (running <-- status_value "RUNNING" ;;;
     _send_message
       (task_response (act_response_target a)
          [("task_id", VStr (request_task_id task_request));
           ("status", VStr running);
           ("agent", VStr (name agent))]
          (act_correlation_id a)) ;;;
     response <-- lift (execute_task agent task_request) ;;;
     dumped <-- lift (timed_response_dict response elapsed (name agent)) ;;;
     _send_message
       (task_response (act_response_target a) dumped (act_correlation_id a)) ;;;
     finish_task (request_task_id task_request))
    (fun e =>
       failed <-- status_value "FAILED" ;;;
       _send_message
         (task_response (act_response_target a)
            [("task_id", VStr (request_task_id task_request));
             ("status", VStr failed);
             ("error", VStr e);
             ("agent", VStr (name agent))]
            (act_correlation_id a))).

(** The activities scheduled so far run once the handler has returned;
    an exception leaving one of them ends that activity only. *)
Fixpoint run_activities (elapsed : string) (l : list Activity) (b : BridgeState)
    : BridgeState :=
  match l with
  | [] => b
  | a :: rest => run_activities elapsed rest (snd (_execute_agent_task elapsed a b))
  end.

Definition take_scheduled (b : BridgeState) : list Activity * BridgeState :=
  (scheduled b,
   mkBridge (registered_agents b) (active_tasks b) [] (wire b) (messages_sent b)
     (tasks_executed b)).

(** One [task_request] through the message loop: the handler, then the
    activities it scheduled. *)
Definition on_task_request (elapsed : string) (message : Incoming) (b : BridgeState)
    : BridgeState :=
  let b1 := snd (_handle_task_request message b) in
  let '(todo, b2) := take_scheduled b1 in
  run_activities elapsed todo b2.

(** *** What the handler and the activity do *)

Lemma status_value_accepted (b : BridgeState) :
  status_value "ACCEPTED" b
  = (inl "type object 'TaskStatus' has no attribute 'ACCEPTED'", b).
Proof. reflexivity. Qed.

Lemma status_value_running (b : BridgeState) : status_value "RUNNING" b = (inr "RUNNING", b).
Proof. reflexivity. Qed.

Lemma status_value_failed (b : BridgeState) : status_value "FAILED" b = (inr "FAILED", b).
Proof. reflexivity. Qed.

(** With a capable agent the handler schedules the activity, records it
    and then stops at [TaskStatus.ACCEPTED]: nothing is written. *)
Lemma handle_capable_sends_nothing (message : Incoming) (b : BridgeState)
    (task_request : Request) (selected_name : string) (selected : PythonAgent)
    (others : list (string * PythonAgent)) :
  parse_task_request (in_payload message) = inr task_request ->
  capable_agents (registered_agents b) task_request
  = inr ((selected_name, selected) :: others) ->
  let a := mkActivity selected task_request (in_source message) (in_id message) in
  _handle_task_request message b
  = (inr tt,
     mkBridge (registered_agents b)
       (<[request_task_id task_request := a]> (active_tasks b))
       (scheduled b ++ [a]) (wire b) (messages_sent b) (tasks_executed b)).
Proof.
  intros Hparse Hcap a.
  unfold _handle_task_request, try_except, mbind, lift, get_agents.
  rewrite Hparse. simpl. rewrite Hcap. reflexivity.
Qed.

(** The activity when the agent raises and the sends go through: two
    messages, and the entry in [active_tasks] stays. *)
Lemma activity_failure (elapsed e : string) (a : Activity) (b : BridgeState) :
  (forall n m, send_fails n m = None) ->
  execute_task (act_agent a) (act_request a) = inl e ->
  let tid := request_task_id (act_request a) in
  let running_update :=
    task_response (act_response_target a)
      [("task_id", VStr tid); ("status", VStr "RUNNING");
       ("agent", VStr (name (act_agent a)))] (act_correlation_id a) in
  let failed_update :=
    task_response (act_response_target a)
      [("task_id", VStr tid); ("status", VStr "FAILED"); ("error", VStr e);
       ("agent", VStr (name (act_agent a)))] (act_correlation_id a) in
  _execute_agent_task elapsed a b
  = (inr tt,
     mkBridge (registered_agents b) (active_tasks b) (scheduled b)
       (wire b ++ [running_update; failed_update])
       (S (S (messages_sent b))) (tasks_executed b)).
Proof.
  intros Hsend Hexec tid running_update failed_update.
  unfold _execute_agent_task, try_except, mbind, lift, _send_message.
  rewrite status_value_running, Hsend. simpl. rewrite Hexec. simpl.
  rewrite Hsend. simpl. by rewrite <- app_assoc.
Qed.

(** The activity when the agent returns and the sends go through: two
    messages, and the entry is deleted. *)
Lemma activity_success (elapsed : string) (response : Response) (dumped : Dict)
    (a : Activity) (b : BridgeState) :
  (forall n m, send_fails n m = None) ->
  execute_task (act_agent a) (act_request a) = inr response ->
  timed_response_dict response elapsed (name (act_agent a)) = inr dumped ->
  let tid := request_task_id (act_request a) in
  let running_update :=
    task_response (act_response_target a)
      [("task_id", VStr tid); ("status", VStr "RUNNING");
       ("agent", VStr (name (act_agent a)))] (act_correlation_id a) in
  let final_update :=
    task_response (act_response_target a) dumped (act_correlation_id a) in
  _execute_agent_task elapsed a b
  = (inr tt,
     mkBridge (registered_agents b) (delete tid (active_tasks b)) (scheduled b)
       (wire b ++ [running_update; final_update])
       (S (S (messages_sent b))) (S (tasks_executed b))).
Proof.
  intros Hsend Hexec Hdump tid running_update final_update.
  unfold _execute_agent_task, try_except, mbind, lift, _send_message, finish_task.
  rewrite status_value_running, Hsend. simpl. rewrite Hexec. simpl.
  rewrite Hdump. simpl. rewrite Hsend. simpl. by rewrite <- app_assoc.
Qed.

(** However the except branch of the activity is reached, and whatever
    becomes of its own send, it leaves [active_tasks] as the try block
    left it; only the last step of the try block deletes the entry. *)
Lemma activity_keeps_entry_unless_finished (elapsed : string) (a : Activity)
    (b : BridgeState) :
  let b' := snd (_execute_agent_task elapsed a b) in
  active_tasks b' = active_tasks b \/
  (active_tasks b' = delete (request_task_id (act_request a)) (active_tasks b) /\
   tasks_executed b' = S (tasks_executed b)).
Proof.
  unfold _execute_agent_task, try_except, mbind, lift, _send_message, finish_task.
  rewrite status_value_running. simpl.
  destruct (send_fails (messages_sent b) _); simpl.
  { destruct (send_fails (messages_sent b) _); simpl; by left. }
  destruct (execute_task _ _) as [e|response]; simpl.
  { destruct (send_fails _ _); simpl; by left. }
  destruct (timed_response_dict _ _ _) as [e|dumped]; simpl.
  { destruct (send_fails _ _); simpl; by left. }
  destruct (send_fails (S (messages_sent b)) _); simpl.
  { destruct (send_fails _ _); simpl; by left. }
  by right.
Qed.

End Bridge.


(** *** The bridge's keywords against [MCPMessage] of the schema *)

(** The keyword arguments of every [MCPMessage] the bridge builds. *)
Definition bridge_keywords (uuid : string) (now : Z) (m : BridgeMessage) : PyVal :=
  VDict [("id", VStr uuid); ("type", VStr (type m)); ("source", VStr (source m));
         ("target", VStr (target m)); ("payload", VDict (payload m));
         ("correlation_id", match correlation_id m with
                            | Some c => VStr c
                            | None => VNone
                            end);
         ("timestamp", VDatetime now)].

(** [type], [source], [target] and [timestamp] are no fields of the
    schema's [MCPMessage], which forbids extra ones: built with that
    class, no message of the bridge comes into being. *)
Lemma schema_rejects_bridge_keywords (lax : Lax) (uuid : string) (now : Z)
    (m : BridgeMessage) :
  validate_message lax (bridge_keywords uuid now m)
  = inl "Extra inputs are not permitted".
Proof. reflexivity. Qed.

(** Building the [MCPMessage] of the schema from the bridge's keywords
    and then writing it: [uuid] and [now] give the fresh id and the time
    of the n-th message, [write_fails] is what becomes of a message that
    was built. *)
Definition schema_send_fails (lax : Lax) (uuid : nat -> string) (now : nat -> Z)
    (write_fails : BridgeMessage -> option string) (n : nat) (m : BridgeMessage)
    : option string :=
  match validate_message lax (bridge_keywords (uuid n) (now n) m) with
  | inl e => Some e
  | inr _ => write_fails m
  end.


End Bridge.


(* ===================================================================== *)
(** ** The manager's bookkeeping (cartrita_core/agent_manager.py) *)
(* ===================================================================== *)

Module ManagerFacts.
Import PyStr AgentManager.

(** The three per-agent dictionaries have the same keys. *)
Definition ids_in_step (m : Manager) : Prop :=
  dom (agent_configs m) = dom (agents m) /\
  dom (agent_performance m) = dom (agents m).

(** [delegate_to_agent]'s answer for an id that is not in the pool. *)
Definition agent_not_found (agent_id : string) : CartritaResponse :=
  mkResponse false "Agent not found" "manager" "unknown" 0
    (Some ("Agent " +:+ agent_id +:+ " does not exist")).

Section Delegate.
Variable lower : string -> string.
Variable rnd : Q -> Q.
Variable agent_execute : CartritaCoreAgent -> AgentTask -> string + CartritaResponse.

(** [delegate_to_agent] *)
Definition delegate_to_agent (uuid now1 now2 : string) (agent_id : string)
    (task_description : string) (m : Manager) : CartritaResponse * Manager :=
  if bool_decide (agent_id ∈ dom (agents m)) then
    execute_task lower rnd agent_execute uuid now1 now2 task_description
      (Some agent_id) m
  else (agent_not_found agent_id, m).


Lemma update_agent_performance_ids now agent_id response (m : Manager) :
  ids_in_step m -> ids_in_step (_update_agent_performance rnd now agent_id response m).
Proof.
  intros [Hc Hp]. unfold _update_agent_performance.
  destruct (agent_performance m !! agent_id) as [p|] eqn:E; [|done].
  split; simpl; [done|]. rewrite <- Hp. by apply dom_insert_lookup_L.
Qed.

Lemma execute_task_ids uuid now1 now2 d pref (m : Manager) :
  ids_in_step m ->
  ids_in_step (snd (execute_task lower rnd agent_execute uuid now1 now2 d pref m)).
Proof.
  intros Hm. unfold execute_task.
  set (task := mkAgentTask _ _ _ _).
  set (m1 := with_active m _).
  set (a := assign_agent lower m1 task pref).
  destruct (agents m1 !! a) as [agent|]; [|done].
  destruct (agent_execute agent task) as [e|response]; [done|].
  apply (update_agent_performance_ids now1 a response (store_result m1 uuid response)).
  done.
Qed.

Lemma apply_op_ids (o : Op) (m : Manager) :
  ids_in_step m -> ids_in_step (apply_op lower rnd agent_execute o m).
Proof.
  intros Hm. destruct o; simpl.
  - unfold create_agent. case_bool_decide; [done|].
    destruct Hm as [Hc Hp]. split; simpl; rewrite !dom_insert_L; congruence.
  - by apply execute_task_ids.
  - by apply update_agent_performance_ids.
  - unfold shutdown_agent. case_bool_decide; [|done].
    destruct Hm as [Hc Hp]. split; simpl; rewrite !dom_delete_L; congruence.
  - split; simpl; by rewrite !dom_empty_L.
Qed.

Lemma run_ids (ops : list Op) (m : Manager) :
  ids_in_step m -> ids_in_step (run lower rnd agent_execute ops m).
Proof.
  revert m. induction ops as [|o ops IH]; intros m Hm; [done|].
  simpl. apply IH. by apply apply_op_ids.
Qed.

End Delegate.

Lemma substring_prefix_length (n : nat) (s : string) :
  (String.length (substring 0 n s) <= n)%nat.
Proof.
  revert s. induction n as [|n IH]; intros [|c s]; simpl; try lia.
  specialize (IH s). lia.
Qed.

(** X1: from the empty manager, after any finite sequence of agent
    creations, task executions, performance updates and shutdowns, the
    configuration and performance dictionaries hold exactly the ids of the
    agents in the pool. *)
Theorem registries_share_ids
    (lower : string -> string) (rnd : Q -> Q)
    (agent_execute : CartritaCoreAgent -> AgentTask -> string + CartritaResponse)
    (ops : list Op) :
  let m := run lower rnd agent_execute ops init in
  dom (agent_configs m) = dom (agents m) /\
  dom (agent_performance m) = dom (agents m).
Proof.
  apply (run_ids lower rnd agent_execute ops init).
  split; reflexivity.
Qed.




Section History.
Variable lower : string -> string.
Variable rnd : Q -> Q.
Variable agent_execute : CartritaCoreAgent -> AgentTask -> string + CartritaResponse.

Definition truncated (d : Delegation) : Prop :=
  (String.length (d_description d) <= 100)%nat.

Lemma apply_op_history (o : Op) (m : Manager) :
  exists l,
    delegation_history (apply_op lower rnd agent_execute o m)
    = delegation_history m ++ l /\
    (length l <= 1)%nat /\ Forall truncated l.
Proof.
  destruct o as [now aid config|uuid now1 now2 task_description pref
                |now aid response|aid|]; simpl.
  - exists []. rewrite app_nil_r. split; [|by split; [simpl; lia|constructor]].
    unfold create_agent. by case_bool_decide.
  - unfold execute_task.
    set (task := mkAgentTask _ _ _ _).
    set (m1 := with_active m _).
    set (a := assign_agent lower m1 task pref).
    destruct (agents m1 !! a) as [agent|].
    + destruct (agent_execute agent task) as [e|response].
      * exists []. rewrite app_nil_r. by repeat split; [simpl; lia|constructor].
      * exists [mkDelegation uuid (String.substring 0 100 task_description) a
                  (success response) (execution_time_ms response) now2].
        split; [|split; [simpl; lia|]].
        { cbn [snd delegation_history with_active record_delegation].
          unfold _update_agent_performance.
          by destruct (agent_performance _ !! a). }
        apply List.Forall_cons; [|apply List.Forall_nil]. unfold truncated. cbn [d_description].
        apply substring_prefix_length.
    + exists []. rewrite app_nil_r. by repeat split; [simpl; lia|constructor].
  - exists []. rewrite app_nil_r. split; [|by split; [simpl; lia|constructor]].
    unfold _update_agent_performance. by destruct (agent_performance m !! aid).
  - exists []. rewrite app_nil_r. split; [|by split; [simpl; lia|constructor]].
    unfold shutdown_agent. by case_bool_decide.
  - exists []. rewrite app_nil_r. by repeat split; [simpl; lia|constructor].
Qed.

Lemma run_history (ops : list Op) (m : Manager) :
  exists l,
    delegation_history (run lower rnd agent_execute ops m)
    = delegation_history m ++ l /\
    (length l <= length ops)%nat /\ Forall truncated l.
Proof.
  revert m. induction ops as [|o ops IH]; intros m.
  - exists []. rewrite app_nil_r. by repeat split; [simpl; lia|constructor].
  - destruct (apply_op_history o m) as (l1 & E1 & L1 & T1).
    destruct (IH (apply_op lower rnd agent_execute o m)) as (l2 & E2 & L2 & T2).
    exists (l1 ++ l2). split; [|split].
    + change (run lower rnd agent_execute (o :: ops) m)
        with (run lower rnd agent_execute ops (apply_op lower rnd agent_execute o m)).
      rewrite E2, E1. by rewrite app_assoc.
    + rewrite length_app. simpl. lia.
    + by apply Forall_app.
Qed.

End History.

(** X4: the delegation history is append-only under every operation of
    the manager, [shutdown_all] included: a sequence of operations adds at
    most one entry per operation to what was there, and the description
    kept in each new entry is at most 100 characters long. *)
Theorem delegation_history_append_only
    (lower : string -> string) (rnd : Q -> Q)
    (agent_execute : CartritaCoreAgent -> AgentTask -> string + CartritaResponse)
    (ops : list Op) (m : Manager) :
  exists added,
    delegation_history (run lower rnd agent_execute ops m)
    = delegation_history m ++ added /\
    (length added <= length ops)%nat /\
    Forall (fun d => (String.length (d_description d) <= 100)%nat) added.
Proof. apply run_history. Qed.

(** X5: whatever the environment and the clock, [_initialize_default_agents]
    on a fresh manager ends with the [ValueError] of its seventh
    [create_agent] call; the six agents of the first round stay, each of
    the six with the configuration the first round gave it (the five
    configurations of the second round are never stored), and they are
    all the workers the router can name. *)
Theorem initialize_default_agents_stops_at_duplicate
    (getenv : string -> option string) (now : string) :
  let r := _initialize_default_agents getenv now init in
  fst r = Some "Agent research_agent_v2 already exists" /\
  dom (agents (snd r)) =
    {[ "supervisor_cartrita_v2"; "research_agent_v2"; "writer_agent_v2";
       "vision_agent_v2"; "computer_use_agent_v2"; "code_writer_agent_v2" ]} /\
  dom (agent_configs (snd r)) = dom (agents (snd r)) /\
  has_default_workers (snd r) /\
  Forall (fun entry => agent_configs (snd r) !! fst entry = Some (snd entry))
    (take 6 (default_agents getenv init)) /\
  map fst (take 6 (default_agents getenv init))
  = [ "supervisor_cartrita_v2"; "research_agent_v2"; "writer_agent_v2";
      "vision_agent_v2"; "computer_use_agent_v2"; "code_writer_agent_v2" ] /\
  map fst (drop 6 (default_agents getenv init))
  = [ "research_agent_v2"; "writer_agent_v2"; "vision_agent_v2";
      "computer_use_agent_v2"; "code_writer_agent_v2" ].
Proof.
  set (r := _initialize_default_agents getenv now init).
  assert (Hdom : dom (agents (snd r)) =
            {[ "supervisor_cartrita_v2"; "research_agent_v2"; "writer_agent_v2";
               "vision_agent_v2"; "computer_use_agent_v2"; "code_writer_agent_v2" ]}).
  { apply (bool_decide_unpack _). by vm_compute. }
  assert (Hcfg : dom (agent_configs (snd r)) = dom (agents (snd r))).
  { apply (bool_decide_unpack _). by vm_compute. }
  split; [by vm_compute|]. split; [exact Hdom|]. split; [exact Hcfg|]. split.
  { unfold has_default_workers, routed_worker_ids. rewrite Hdom.
    split; [change (supervisor_agent_id (snd r)) with "supervisor_cartrita_v2"|];
      repeat constructor; set_solver. }
  split.
  { cbn [take default_agents].
    repeat (apply List.Forall_cons; [by vm_compute|]). apply List.Forall_nil. }
  split; reflexivity.
Qed.

(** The second round would have given the research agent other tools. *)
Example research_agent_keeps_first_tools (getenv : string -> option string)
    (now : string) :
  tools_allowed
    <$> agent_configs (snd (_initialize_default_agents getenv now init))
        !! "research_agent_v2"
  = Some ["web_search"; "file_read"; "file_write"; "system_info"] /\
  (tools_allowed ∘ snd) <$> drop 6 (default_agents getenv init) !! 0%nat
  = Some ["web_search"; "file_read"; "web_fetch"].
Proof. split; by vm_compute. Qed.

Section DelegateFacts.
Variable lower : string -> string.
Variable rnd : Q -> Q.
Variable agent_execute : CartritaCoreAgent -> AgentTask -> string + CartritaResponse.


End DelegateFacts.


(** An id that is in the pool but empty falls through to the keyword
    router: the named agent does not get the task. *)
Example delegate_to_blank_id :
  "" ∈ dom (agents pool_with_blank_id) /\
  d_assigned_agent <$>
    delegation_history
      (snd (delegate_to_agent PyStr.lower (fun x => x) (fun _ _ => inr passing_response)
              "u1" "t1" "t2" "" "research the CVE feed" pool_with_blank_id))
  = ["research_agent_v2"].
Proof.
  split; [apply (bool_decide_unpack _); by vm_compute|].
  vm_compute. reflexivity.
Qed.

(** *** Counters of the performance records *)

Definition counters_ok (p : Perf) : Prop :=
  (0 <= tasks_completed p)%Z /\ (0 <= average_response_time p)%Q.

Definition manager_counters_ok (m : Manager) : Prop :=
  map_Forall (fun _ p => counters_ok p) (agent_performance m).

Section Counters.
Variable lower : string -> string.
Variable rnd : Q -> Q.
Variable agent_execute : CartritaCoreAgent -> AgentTask -> string + CartritaResponse.
Hypothesis R : Rounding rnd.

Lemma ema_nonneg (sample prev : Q) :
  (0 <= sample)%Q -> (0 <= prev)%Q -> (0 <= ema rnd sample prev)%Q.
Proof.
  intros Hs Hp. destruct (alpha_unit rnd R) as [Ha _].
  destruct (beta_unit rnd R) as [Hb _].
  assert (H1 : (0 <= rnd (alpha rnd * sample))%Q)
    by (apply (rnd_nonneg rnd R); by apply Qmult_le_0_compat).
  assert (H2 : (0 <= rnd (rnd (1 - alpha rnd) * prev))%Q)
    by (apply (rnd_nonneg rnd R); by apply Qmult_le_0_compat).
  unfold ema. apply (rnd_nonneg rnd R). lra.
Qed.

Lemma update_perf_counters (now : string) (response : CartritaResponse) (p : Perf) :
  counters_ok p ->
  counters_ok (update_perf rnd now response p) /\
  tasks_completed (update_perf rnd now response p) = (tasks_completed p + 1)%Z.
Proof.
  intros [Ht Ha]. unfold counters_ok, update_perf. simpl.
  split; [|done]. split; [lia|].
  destruct (Z.ltb_spec 0 (execution_time_ms response)); [|done].
  apply ema_nonneg; [|done]. apply (rnd_nonneg rnd R).
  change 0%Q with (inject_Z 0). rewrite <- Zle_Qle. lia.
Qed.

Lemma update_agent_performance_counters now aid response (m : Manager) :
  manager_counters_ok m ->
  manager_counters_ok (_update_agent_performance rnd now aid response m).
Proof.
  intros Hm. unfold _update_agent_performance.
  destruct (agent_performance m !! aid) as [p|] eqn:E; [|done].
  unfold manager_counters_ok. simpl. apply map_Forall_insert_2; [|done].
  apply update_perf_counters. by apply (Hm aid).
Qed.

Lemma apply_op_counters (o : Op) (m : Manager) :
  manager_counters_ok m ->
  manager_counters_ok (apply_op lower rnd agent_execute o m).
Proof.
  intros Hm.
  destruct o as [now aid config|uuid now1 now2 d pref|now aid response|aid|]; simpl.
  - unfold create_agent. case_bool_decide; [done|].
    unfold manager_counters_ok. simpl. apply map_Forall_insert_2; [|done].
    unfold counters_ok. simpl. split; [lia|lra].
  - unfold execute_task.
    set (task := mkAgentTask _ _ _ _).
    set (m1 := with_active m _).
    set (a := assign_agent lower m1 task pref).
    destruct (agents m1 !! a) as [agent|]; [|done].
    destruct (agent_execute agent task) as [e|response]; [done|].
    apply (update_agent_performance_counters now1 a response
             (store_result m1 uuid response)).
    done.
  - by apply update_agent_performance_counters.
  - unfold shutdown_agent. case_bool_decide; [|done].
    unfold manager_counters_ok. simpl. by apply map_Forall_delete.
  - unfold manager_counters_ok. simpl. apply map_Forall_empty.
Qed.

Lemma run_counters (ops : list Op) (m : Manager) :
  manager_counters_ok m -> manager_counters_ok (run lower rnd agent_execute ops m).
Proof.
  revert m. induction ops as [|o ops IH]; intros m Hm; [done|].
  simpl. apply IH. by apply apply_op_counters.
Qed.

End Counters.

(** X7: from the empty manager, after any finite sequence of operations,
    every agent's completed-task counter and average response time are
    non-negative, for any float rounding with the properties of
    [Rounding]; and one performance update of a known agent raises its
    counter by exactly one and touches no other agent's record. *)
Theorem performance_counters_nonnegative
    (lower : string -> string) (rnd : Q -> Q)
    (agent_execute : CartritaCoreAgent -> AgentTask -> string + CartritaResponse)
    (R : Rounding rnd) (ops : list Op) :
  let m := run lower rnd agent_execute ops init in
  map_Forall (fun _ p => (0 <= tasks_completed p)%Z /\
                         (0 <= average_response_time p)%Q)
    (agent_performance m) /\
  forall now aid response p,
    agent_performance m !! aid = Some p ->
    let m' := _update_agent_performance rnd now aid response m in
    (tasks_completed <$> agent_performance m' !! aid)
    = Some (tasks_completed p + 1)%Z /\
    forall other, other <> aid ->
      agent_performance m' !! other = agent_performance m !! other.
Proof.
  split.
  - apply (run_counters lower rnd agent_execute R ops init).
    unfold manager_counters_ok, init. simpl. apply map_Forall_empty.
  - intros now aid response p Hp. unfold _update_agent_performance.
    rewrite Hp. simpl. split.
    + by rewrite lookup_insert_eq.
    + intros other Hne. by rewrite lookup_insert_ne.
Qed.

Lemma performance_counters_nonnegative_witness :
  Rounding round_down /\
  let m := run PyStr.lower round_down (fun _ _ => inr passing_response)
             [ OpCreate "t0" "research_agent_v2" blank_config;
               OpExecute "u1" "t3" "t4" "look up the weather" None ] init in
  map_Forall (fun _ p => (0 <= tasks_completed p)%Z /\
                         (0 <= average_response_time p)%Q)
    (agent_performance m) /\
  forall now aid response p,
    agent_performance m !! aid = Some p ->
    let m' := _update_agent_performance round_down now aid response m in
    (tasks_completed <$> agent_performance m' !! aid)
    = Some (tasks_completed p + 1)%Z /\
    forall other, other <> aid ->
      agent_performance m' !! other = agent_performance m !! other.
Proof.
  split; [exact round_down_rounding|].
  apply (performance_counters_nonnegative PyStr.lower round_down
           (fun _ _ => inr passing_response) round_down_rounding).
Defined.

End ManagerFacts.


(* ===================================================================== *)
(** ** Grants, listings and the execution log (cartrita_core/tools.py) *)
(* ===================================================================== *)

Module RegistryFacts.
Import PyStr Py ToolRegistry.

(** [ToolPermissionLevel.<member>.value] *)
Definition level_value (l : ToolPermissionLevel) : string :=
  match l with
  | PUBLIC => "public"
  | RESTRICTED => "restricted"
  | SUPERVISED => "supervised"
  | ADMIN => "admin"
  end.

(** One entry of the dictionary [get_tools_for_agent] returns. *)
Record ToolInfo := mkToolInfo {
  info_description : string;
  info_parameters : PyVal;
  info_permission_level : string
}.

(** *** Revoking *)

Lemma remove_first_spec (t : string) (g : list string) :
  NoDup g ->
  (forall x, x ∈ remove_first t g <-> x ∈ g /\ x <> t) /\ NoDup (remove_first t g).
Proof.
  induction g as [|y g IH]; intros Hnd; simpl.
  - split; [|constructor]. intros x. split; [by intros ?%elem_of_nil|by intros [?%elem_of_nil _]].
  - apply NoDup_cons in Hnd as [Hy Hnd]. destruct (IH Hnd) as [IH1 IH2].
    destruct (String.eqb_spec t y) as [->|Hne].
    + split; [|done]. intros x. rewrite elem_of_cons. split.
      * intros Hx. split; [by right|]. intros ->. done.
      * intros [[->|?] ?]; done.
    + split.
      * intros x. rewrite !elem_of_cons, IH1. split.
        -- intros [->|[? ?]]; [split; [by left|congruence]|split; [by right|done]].
        -- intros [[->|?] ?]; [by left|by right].
      * apply NoDup_cons. split; [|done]. rewrite IH1. by intros [? _].
Qed.

Lemma fold_remove_spec (ts : list string) (g : list string) :
  NoDup g ->
  (forall x, x ∈ fold_left (fun g t => remove_first t g) ts g <-> x ∈ g /\ x ∉ ts) /\
  NoDup (fold_left (fun g t => remove_first t g) ts g).
Proof.
  revert g. induction ts as [|t ts IH]; intros g Hnd; simpl.
  - split; [|done]. intros x. split; [intros ?; split; [done|apply not_elem_of_nil]|by intros [? _]].
  - destruct (remove_first_spec t g Hnd) as [R1 R2].
    destruct (IH _ R2) as [IH1 IH2]. split; [|done].
    intros x. rewrite IH1, R1, not_elem_of_cons. tauto.
Qed.

Section Listing.
Variable World : Type.

(** [requested_tools and tool_name in requested_tools] *)
Definition requested (requested_tools : option (list string)) (tool_name : string)
    : bool :=
  match requested_tools with
  | Some l => mem tool_name l
  | None => false
  end.

(** [get_tools_for_agent]; [None] is the [KeyError] of a tool that has no
    permission level. *)
Definition get_tools_for_agent (r : Registry World) (agent_id : string)
    (requested_tools : option (list string)) : option (gmap string ToolInfo) :=
  let agent_tools := default [] (agent_permissions r !! agent_id) in
  if bool_decide (dom (tools r) ⊆ dom (tool_permissions r)) then
    Some (map_imap
            (fun tool_name tool_config =>
               permission_level ← tool_permissions r !! tool_name;
               if level_eqb permission_level PUBLIC || mem tool_name agent_tools
                  || requested requested_tools tool_name
               then Some (mkToolInfo (tool_description World tool_config)
                            (parameters World tool_config)
                            (level_value permission_level))
               else None)
            (tools r))
  else None.

(** The operations of the registry. *)
Inductive RegOp :=
| RegRegister (now : Z) (name : string) (fn : ToolFn World)
    (permission_level : ToolPermissionLevel) (descr : string) (params : PyVal)
| RegGrant (agent_id : string) (tool_names : list string)
| RegRevoke (agent_id : string) (tool_names : list string)
| RegExecute (t0 t1 : Z) (tool_name : string) (raw : PyVal) (agent_id : string).

Variable json_loads : string -> option PyVal.
Variable py_str : PyVal -> string.

Definition reg_apply (o : RegOp) (s : Registry World * World) : Registry World * World :=
  match o with
  | RegRegister now name fn level descr params =>
      (register_tool now name fn level descr params (fst s), snd s)
  | RegGrant agent_id tool_names => (grant_permission agent_id tool_names (fst s), snd s)
  | RegRevoke agent_id tool_names => (revoke_permission agent_id tool_names (fst s), snd s)
  | RegExecute t0 t1 tool_name raw agent_id =>
      let ex := execute_tool json_loads py_str t0 t1 tool_name raw agent_id (fst s) (snd s) in
      (ex_registry ex, ex_world ex)
  end.

Definition reg_run (ops : list RegOp) (s : Registry World * World)
    : Registry World * World :=
  fold_left (fun s o => reg_apply o s) ops s.

(** How many successful executions of [tool_name] the log holds. *)
Definition logged_successes (tool_name : string) (log : list LogEntry) : Z :=
  Z.of_nat (length (List.filter
                      (fun e => String.eqb (log_tool_name e) tool_name && log_success e)
                      log)).

(** What holds of every registry the operations can build. *)
Record registry_ok (r : Registry World) : Prop := {
  ok_permissions : dom (tool_permissions r) = dom (tools r);
  ok_usage : dom (tool_usage r) = dom (tools r);
  ok_grants : map_Forall (fun _ granted => NoDup granted) (agent_permissions r);
  ok_counts : map_Forall (fun tool_name n =>
                            (0 <= n <= logged_successes tool_name (execution_history r))%Z)
                (tool_usage r)
}.

(** *** Granting *)

Lemma grant_one_spec (r : Registry World) (g : list string) (t : string) :
  (forall x, x ∈ grant_one World r g t <-> x ∈ g \/ (x = t /\ t ∈ dom (tools r))) /\
  (NoDup g -> NoDup (grant_one World r g t)).
Proof.
  unfold grant_one. case_bool_decide as Hreg.
  - destruct (mem t g) eqn:E.
    + apply mem_spec in E. split; [|done]. intros x. split; [by left|].
      intros [? | [-> _]]; done.
    + assert (Hnot : t ∉ g) by (rewrite <- mem_spec; congruence). split.
      * intros x. rewrite elem_of_app, list_elem_of_singleton. split.
        -- intros [?| ->]; [by left|by right].
        -- intros [? | [-> _]]; [by left|by right].
      * intros Hnd. apply NoDup_app. split; [done|]. split.
        -- intros x Hx Hx'. apply list_elem_of_singleton in Hx' as ->. done.
        -- apply NoDup_singleton.
  - split; [|done]. intros x. split; [by left|]. intros [? | [_ ?]]; done.
Qed.

Lemma fold_grant_spec (r : Registry World) (ts : list string) (g : list string) :
  (forall x, x ∈ fold_left (grant_one World r) ts g
             <-> x ∈ g \/ (x ∈ ts /\ x ∈ dom (tools r))) /\
  (NoDup g -> NoDup (fold_left (grant_one World r) ts g)).
Proof.
  revert g. induction ts as [|t ts IH]; intros g; simpl.
  - split; [|done]. intros x. split; [by left|].
    intros [? | [H _]]; [done|]. by apply elem_of_nil in H.
  - destruct (IH (grant_one World r g t)) as [IH1 IH2].
    destruct (grant_one_spec r g t) as [G1 G2]. split.
    + intros x. rewrite IH1, G1, elem_of_cons. split.
      * intros [[? | [-> ?]]|[? ?]]; [by left|right|right]; split; auto.
      * intros [? | [[->|?] ?]]; [left; by left|left; right|right]; auto.
    + intros Hnd. by apply IH2, G2.
Qed.

Lemma fold_grant_fixed (r : Registry World) (ts : list string) (g : list string) :
  (forall t, t ∈ ts -> t ∈ dom (tools r) -> t ∈ g) ->
  fold_left (grant_one World r) ts g = g.
Proof.
  induction ts as [|t ts IH]; intros H; simpl; [done|].
  assert (E : grant_one World r g t = g).
  { unfold grant_one. case_bool_decide as Hreg; [|done].
    assert (Hin : t ∈ g) by (apply H; [by left|done]).
    apply mem_spec in Hin. by rewrite Hin. }
  rewrite E. apply IH. intros x Hx. apply H. by right.
Qed.

(** *** The invariant *)

Lemma logged_successes_app (t : string) (log : list LogEntry) (e : LogEntry) :
  logged_successes t (log ++ [e])
  = (logged_successes t log
     + if String.eqb (log_tool_name e) t && log_success e then 1 else 0)%Z.
Proof.
  unfold logged_successes. rewrite List.filter_app, length_app. simpl.
  destruct (String.eqb (log_tool_name e) t && log_success e); simpl; lia.
Qed.

Lemma logged_successes_nonneg (t : string) (log : list LogEntry) :
  (0 <= logged_successes t log)%Z.
Proof. unfold logged_successes. lia. Qed.

Lemma empty_registry_ok : registry_ok empty_registry.
Proof.
  split; simpl; try done; apply map_Forall_empty.
Qed.

Lemma register_tool_ok now name fn level descr params (r : Registry World) :
  registry_ok r -> registry_ok (register_tool now name fn level descr params r).
Proof.
  intros [H1 H2 H3 H4]. split; simpl.
  - rewrite !dom_insert_L. congruence.
  - rewrite !dom_insert_L. congruence.
  - done.
  - apply map_Forall_insert_2; [|done]. split; [lia|apply logged_successes_nonneg].
Qed.

Lemma granted_NoDup (r : Registry World) (agent_id : string) :
  registry_ok r -> NoDup (default [] (agent_permissions r !! agent_id)).
Proof.
  intros Hr. destruct (agent_permissions r !! agent_id) as [g|] eqn:E; simpl.
  - by apply (ok_grants r Hr agent_id).
  - constructor.
Qed.

Lemma grant_permission_ok agent_id tool_names (r : Registry World) :
  registry_ok r -> registry_ok (grant_permission agent_id tool_names r).
Proof.
  intros Hr. pose proof (granted_NoDup r agent_id Hr) as Hnd.
  destruct Hr as [H1 H2 H3 H4]. split; simpl; try done.
  apply map_Forall_insert_2; [|done]. by apply fold_grant_spec.
Qed.

Lemma revoke_permission_ok agent_id tool_names (r : Registry World) :
  registry_ok r -> registry_ok (revoke_permission agent_id tool_names r).
Proof.
  intros Hr. unfold revoke_permission.
  destruct (agent_permissions r !! agent_id) as [g|] eqn:E; [|done].
  destruct Hr as [H1 H2 H3 H4]. split; simpl; try done.
  apply map_Forall_insert_2; [|done].
  apply fold_remove_spec. by apply (H3 agent_id).
Qed.

Lemma execute_tool_ok t0 t1 tool_name raw agent_id (r : Registry World) (w : World) :
  registry_ok r ->
  registry_ok (ex_registry (execute_tool json_loads py_str t0 t1 tool_name raw agent_id r w)).
Proof.
  intros Hr. unfold execute_tool.
  destruct (tools r !! tool_name) as [tool|]; [|done].
  destruct (_check_permission r agent_id tool_name); [|done]. cbn [negb].
  assert (Hfail : forall e,
            registry_ok
              (mkRegistry (tools r) (tool_permissions r) (agent_permissions r)
                 (tool_usage r)
                 (execution_history r ++
                    [mkLogEntry tool_name agent_id false None (Some e) t1]))).
  { intros e. destruct Hr as [H1 H2 H3 H4]. split; simpl; try done.
    intros t n Hn. rewrite logged_successes_app. cbn [log_success].
    rewrite andb_false_r. specialize (H4 t n Hn). simpl in H4. lia. }
  destruct (call_tool World (function World tool) _ w) as [[result|e] w']; [|apply Hfail].
  destruct (tool_usage r !! tool_name) as [n|] eqn:En; [|apply Hfail].
  destruct Hr as [H1 H2 H3 H4]. split; cbn [ex_registry tools tool_permissions
    agent_permissions tool_usage execution_history]; try done.
  - rewrite <- H2. apply dom_insert_lookup_L. by eexists.
  - intros t k. rewrite lookup_insert_Some. rewrite logged_successes_app.
    cbn [log_tool_name log_success]. rewrite andb_true_r.
    intros [[<- <-]|[Hne Hk]].
    + rewrite String.eqb_refl. specialize (H4 tool_name n En). simpl in H4. lia.
    + destruct (String.eqb_spec tool_name t); [done|].
      specialize (H4 t k Hk). simpl in H4. lia.
Qed.

Lemma reg_apply_ok (o : RegOp) (s : Registry World * World) :
  registry_ok (fst s) -> registry_ok (fst (reg_apply o s)).
Proof.
  intros Hs. destruct o; simpl.
  - by apply register_tool_ok.
  - by apply grant_permission_ok.
  - by apply revoke_permission_ok.
  - by apply execute_tool_ok.
Qed.

Lemma reg_run_ok (ops : list RegOp) (s : Registry World * World) :
  registry_ok (fst s) -> registry_ok (fst (reg_run ops s)).
Proof.
  revert s. induction ops as [|o ops IH]; intros s Hs; [done|].
  simpl. apply IH. by apply reg_apply_ok.
Qed.

Lemma get_tools_for_agent_total (r : Registry World) agent_id requested_tools :
  registry_ok r -> is_Some (get_tools_for_agent r agent_id requested_tools).
Proof.
  intros Hr. unfold get_tools_for_agent.
  rewrite bool_decide_eq_true_2; [by eexists|]. by rewrite (ok_permissions r Hr).
Qed.

End Listing.

Arguments get_tools_for_agent {World}.
Arguments registry_ok {World}.
Arguments reg_run {World}.
Arguments RegRegister {World}.
Arguments RegGrant {World}.
Arguments RegRevoke {World}.
Arguments RegExecute {World}.

Lemma dict_get_set_eq (k : string) (v : PyVal) (d : Dict) :
  dict_get k (dict_set k v d) = Some v.
Proof.
  induction d as [|[k' v'] d IH]; simpl.
  - by rewrite String.eqb_refl.
  - destruct (String.eqb k' k) eqn:E; simpl; [by rewrite String.eqb_refl|].
    by rewrite E.
Qed.

Lemma dict_get_set_ne (k k' : string) (v : PyVal) (d : Dict) :
  k <> k' -> dict_get k (dict_set k' v d) = dict_get k d.
Proof.
  intros Hne. induction d as [|[k0 v0] d IH]; simpl.
  - destruct (String.eqb_spec k' k); [congruence|done].
  - destruct (String.eqb_spec k0 k') as [->|Hk0]; simpl.
    + destruct (String.eqb_spec k' k); [congruence|done].
    + by destruct (String.eqb k0 k).
Qed.

(** X8: in every registry built from the empty one by registrations,
    grants, revocations and executions, the permission levels and the usage
    counters are kept for exactly the registered tools; so
    [get_tools_for_agent] never meets a tool without a permission level,
    and no execution of a registered tool misses its usage counter. *)
Theorem registry_dictionaries_in_step {World : Type}
    (json_loads : string -> option PyVal) (py_str : PyVal -> string)
    (ops : list (RegOp World)) (w : World) :
  let r := fst (reg_run json_loads py_str ops (empty_registry, w)) in
  dom (tool_permissions r) = dom (tools r) /\
  dom (tool_usage r) = dom (tools r) /\
  (forall agent_id requested_tools,
     is_Some (get_tools_for_agent r agent_id requested_tools)) /\
  (forall tool_name, is_Some (tools r !! tool_name) ->
     is_Some (tool_usage r !! tool_name)).
Proof.
  intros r.
  assert (Hr : registry_ok r)
    by (apply reg_run_ok; apply empty_registry_ok).
  split; [apply (ok_permissions World r Hr)|].
  split; [apply (ok_usage World r Hr)|]. split.
  - intros agent_id requested_tools. by apply get_tools_for_agent_total.
  - intros tool_name Hin. apply elem_of_dom. rewrite (ok_usage World r Hr).
    by apply elem_of_dom.
Qed.

(** X9: in every such registry a tool's usage counter is non-negative and
    never exceeds the number of successful executions of that tool in the
    execution log (registering a tool anew resets its counter, never the
    log). *)
Theorem tool_usage_accounted {World : Type}
    (json_loads : string -> option PyVal) (py_str : PyVal -> string)
    (ops : list (RegOp World)) (w : World) :
  let r := fst (reg_run json_loads py_str ops (empty_registry, w)) in
  forall tool_name n,
    tool_usage r !! tool_name = Some n ->
    (0 <= n <= logged_successes tool_name (execution_history r))%Z.
Proof.
  intros r tool_name n Hn.
  assert (Hr : registry_ok r)
    by (apply reg_run_ok; apply empty_registry_ok).
  exact (ok_counts World r Hr tool_name n Hn).
Qed.

(** X10: in every such registry no grant list holds a tool twice, so a
    revocation removes the grant: after [revoke_permission] the revoked
    tool is not in the agent's list, and the agent passes the permission
    check for it only if the tool is public. *)
Theorem revoke_permission_revokes {World : Type}
    (json_loads : string -> option PyVal) (py_str : PyVal -> string)
    (ops : list (RegOp World)) (w : World)
    (agent_id : string) (tool_names : list string) (tool_name : string) :
  let r := fst (reg_run json_loads py_str ops (empty_registry, w)) in
  let r' := revoke_permission agent_id tool_names r in
  (tool_name ∈ tool_names ->
     (tool_name ∉ default [] (agent_permissions r' !! agent_id)) /\
     ((_check_permission r' agent_id tool_name = true)
      <-> (tool_permissions r !! tool_name = Some PUBLIC))) /\
  (tool_name ∉ tool_names ->
     _check_permission r' agent_id tool_name = _check_permission r agent_id tool_name).
Proof.
  intros r r'.
  assert (Hr : registry_ok r)
    by (apply reg_run_ok; apply empty_registry_ok).
  assert (Hmem : forall x,
            x ∈ default [] (agent_permissions r' !! agent_id)
            <-> x ∈ default [] (agent_permissions r !! agent_id) /\ x ∉ tool_names).
  { intros x. unfold r', revoke_permission.
    destruct (agent_permissions r !! agent_id) as [g|] eqn:E.
    - cbn [agent_permissions]. rewrite lookup_insert_eq. cbn [default].
      apply fold_remove_spec. by apply (ok_grants World r Hr agent_id).
    - rewrite E. simpl. split; [by intros ?%elem_of_nil|by intros [?%elem_of_nil _]]. }
  assert (Hlevels : tool_permissions r' = tool_permissions r).
  { unfold r', revoke_permission. by destruct (agent_permissions r !! agent_id). }
  split.
  - intros Hin.
    assert (Hout : tool_name ∉ default [] (agent_permissions r' !! agent_id))
      by (rewrite Hmem; tauto).
    split; [done|]. rewrite check_permission_spec, Hlevels. tauto.
  - intros Hnot. apply eq_true_iff_eq.
    rewrite !check_permission_spec, Hlevels, Hmem. tauto.
Qed.

(** X11: granting the same tools to the same agent a second time changes
    nothing. *)
Theorem grant_permission_idempotent {World : Type}
    (agent_id : string) (tool_names : list string) (r : Registry World) :
  grant_permission agent_id tool_names (grant_permission agent_id tool_names r)
  = grant_permission agent_id tool_names r.
Proof.
  unfold grant_permission. cbn [tools tool_permissions agent_permissions tool_usage
    execution_history]. rewrite lookup_insert_eq. cbn [default].
  rewrite insert_insert_eq. f_equal. f_equal.
  set (g := fold_left (grant_one World r) tool_names _).
  change (fold_left (grant_one World (mkRegistry (tools r) (tool_permissions r)
            (<[agent_id := g]> (agent_permissions r)) (tool_usage r)
            (execution_history r))) tool_names g)
    with (fold_left (grant_one World r) tool_names g).
  apply fold_grant_fixed. intros t Hin Hreg. unfold g.
  apply fold_grant_spec. right. by split.
Qed.

(** X12: after [grant_permission] the agent's list holds what it held
    before and those of the named tools that are registered, a name that
    is no registered tool being skipped; other agents' lists, the tools and
    their levels are as before, and the agent passes the permission check
    for every registered tool that was named. *)
Theorem grant_permission_grants {World : Type}
    (agent_id : string) (tool_names : list string) (r : Registry World) :
  let r' := grant_permission agent_id tool_names r in
  (forall t, t ∈ default [] (agent_permissions r' !! agent_id)
             <-> t ∈ default [] (agent_permissions r !! agent_id) \/
                 (t ∈ tool_names /\ t ∈ dom (tools r))) /\
  (forall other, other <> agent_id ->
     agent_permissions r' !! other = agent_permissions r !! other) /\
  tools r' = tools r /\ tool_permissions r' = tool_permissions r /\
  (forall t, t ∈ tool_names -> t ∈ dom (tools r) ->
     _check_permission r' agent_id t = true).
Proof.
  intros r'.
  assert (Hmem : forall t, t ∈ default [] (agent_permissions r' !! agent_id)
             <-> t ∈ default [] (agent_permissions r !! agent_id) \/
                 (t ∈ tool_names /\ t ∈ dom (tools r))).
  { intros t. unfold r', grant_permission. cbn [agent_permissions].
    rewrite lookup_insert_eq. cbn [default]. apply fold_grant_spec. }
  split; [exact Hmem|]. split.
  - intros other Hne. unfold r', grant_permission. cbn [agent_permissions].
    by rewrite lookup_insert_ne.
  - split; [done|]. split; [done|]. intros t Hin Hreg.
    apply check_permission_spec. right. apply Hmem. right. by split.
Qed.


(** X14: whatever dictionary a tool returns, [execute_tool] reports the
    call as a success: it sets "success" to true and "execution_time" to
    the measured time over whatever the tool put under those keys, passes
    every other key on unchanged (an "error" key included), counts the
    call in the usage counter and logs it as successful. *)
Theorem execute_tool_flags_returned_results {World : Type}
    (json_loads : string -> option PyVal) (py_str : PyVal -> string)
    (t0 t1 : Z) (tool_name : string) (raw : PyVal) (agent_id : string)
    (r : Registry World) (w w' : World) (tool : Tool World) (n : Z) (d : Dict) :
  tools r !! tool_name = Some tool ->
  _check_permission r agent_id tool_name = true ->
  tool_usage r !! tool_name = Some n ->
  call_tool World (function World tool) (parse_parameters json_loads raw) w
  = (Returned (VDict d), w') ->
  let ex := execute_tool json_loads py_str t0 t1 tool_name raw agent_id r w in
  dict_get "success" (ex_result ex) = Some (VBool true) /\
  dict_get "execution_time" (ex_result ex) = Some (VInt (t1 - t0)) /\
  (forall k, k <> "success" -> k <> "execution_time" ->
     dict_get k (ex_result ex) = dict_get k d) /\
  tool_usage (ex_registry ex) !! tool_name = Some (n + 1)%Z /\
  execution_history (ex_registry ex)
  = execution_history r ++ [mkLogEntry tool_name agent_id true (Some (t1 - t0)%Z) None t0] /\
  ex_world ex = w'.
Proof.
  intros Htool Hperm Husage Hcall. unfold execute_tool.
  rewrite Htool, Hperm. cbn [negb]. rewrite Hcall, Husage.
  cbn [ex_registry ex_result ex_world tool_usage execution_history].
  split; [rewrite dict_get_set_ne by done; apply dict_get_set_eq|].
  split; [apply dict_get_set_eq|]. split.
  - intros k H1 H2. by rewrite !dict_get_set_ne.
  - split; [by rewrite lookup_insert_eq|done].
Qed.

(** A public tool that reports its own failure in the dictionary it
    returns. *)
Definition failing_probe : ToolFn unit :=
  fun _ w => (Returned (VDict [("success", VBool false); ("error", VStr "exit 1")]), w).

Definition probe_registry : Registry unit :=
  register_tool 0 "probe" failing_probe PUBLIC "Report a failure" (VDict []) empty_registry.

Lemma execute_tool_flags_returned_results_witness :
  let r := probe_registry in
  let d := [("success", VBool false); ("error", VStr "exit 1")] in
  tools r !! "probe" = Some (mkTool failing_probe "Report a failure" (VDict []) 0) /\
  _check_permission r "A" "probe" = true /\
  tool_usage r !! "probe" = Some 0%Z /\
  call_tool unit failing_probe (parse_parameters (fun _ => None) (VDict [])) tt
  = (Returned (VDict d), tt) /\
  let ex := execute_tool (fun _ => None) (fun _ => "") 10 20 "probe" (VDict []) "A" r tt in
  dict_get "success" (ex_result ex) = Some (VBool true) /\
  dict_get "execution_time" (ex_result ex) = Some (VInt (20 - 10)) /\
  (forall k, k <> "success" -> k <> "execution_time" ->
     dict_get k (ex_result ex) = dict_get k d) /\
  tool_usage (ex_registry ex) !! "probe" = Some (0 + 1)%Z /\
  execution_history (ex_registry ex)
  = execution_history r ++ [mkLogEntry "probe" "A" true (Some (20 - 10)%Z) None 10] /\
  ex_world ex = tt.
Proof.
  intros r d.
  assert (H1 : tools r !! "probe"
               = Some (mkTool failing_probe "Report a failure" (VDict []) 0))
    by (vm_compute; reflexivity).
  assert (H2 : _check_permission r "A" "probe" = true) by (vm_compute; reflexivity).
  assert (H3 : tool_usage r !! "probe" = Some 0%Z) by (vm_compute; reflexivity).
  assert (H4 : call_tool unit failing_probe (parse_parameters (fun _ => None) (VDict [])) tt
               = (Returned (VDict d), tt)) by reflexivity.
  repeat (split; [assumption|]).
  exact (execute_tool_flags_returned_results (fun _ => None) (fun _ => "") 10 20
           "probe" (VDict []) "A" r tt tt _ 0 d H1 H2 H3 H4).
Defined.

Definition probe_ops : list (RegOp unit) :=
  [ RegRegister 0 "probe" failing_probe PUBLIC "Report a failure" (VDict []);
    RegExecute 10 20 "probe" (VDict []) "A";
    RegExecute 30 40 "probe" (VStr "not json") "B" ].

Lemma tool_usage_accounted_witness :
  let r := fst (reg_run (fun _ => None) (fun _ => "") probe_ops (empty_registry, tt)) in
  tool_usage r !! "probe" = Some 2%Z /\
  (0 <= 2 <= logged_successes "probe" (execution_history r))%Z.
Proof.
  intros r.
  assert (H : tool_usage r !! "probe" = Some 2%Z) by (vm_compute; reflexivity).
  split; [exact H|].
  exact (tool_usage_accounted (fun _ => None) (fun _ => "") probe_ops tt "probe" 2%Z H).
Defined.

(** The probe's own verdict is overwritten, its error text kept. *)
Example probe_reported_successful :
  ex_result (execute_tool (fun _ => None) (fun _ => "") 10 20 "probe" (VDict []) "A"
               probe_registry tt)
  = [("success", VBool true); ("error", VStr "exit 1"); ("execution_time", VInt 10)].
Proof. vm_compute. reflexivity. Qed.

(** X15: [get_tools_for_agent] lists a tool exactly when it is registered
    and either the agent passes the permission check for it or the caller
    named it in [requested_tools]: without requested tools the listing is
    the set of tools the agent may execute, and naming a tool lists it even
    for an agent [execute_tool] would refuse. *)
Theorem get_tools_for_agent_lists {World : Type}
    (r : Registry World) (agent_id : string) (requested_tools : option (list string))
    (listed : gmap string ToolInfo) :
  get_tools_for_agent r agent_id requested_tools = Some listed ->
  forall t,
    is_Some (listed !! t) <->
    is_Some (tools r !! t) /\
    (_check_permission r agent_id t = true \/
     exists l, requested_tools = Some l /\ t ∈ l).
Proof.
  unfold get_tools_for_agent. case_bool_decide as Hsub; [|done].
  intros [= <-] t. rewrite map_lookup_imap.
  assert (Hreq : requested requested_tools t = true
                 <-> exists l, requested_tools = Some l /\ t ∈ l).
  { unfold requested. destruct requested_tools as [l|].
    - rewrite mem_spec. split; [intros ?; by exists l|by intros (? & [= <-] & ?)].
    - split; [done|by intros (? & ? & ?)]. }
  destruct (tools r !! t) as [tool|] eqn:Et; simpl.
  - assert (Hlev : is_Some (tool_permissions r !! t)).
    { apply elem_of_dom, Hsub, elem_of_dom. by eexists. }
    destruct Hlev as [level Hlevel]. rewrite Hlevel. simpl.
    unfold _check_permission. rewrite Hlevel. simpl.
    rewrite <- Hreq.
    destruct (level_eqb level PUBLIC); simpl.
    + split; [intros _; split; [by eexists|by left]|intros _; by eexists].
    + destruct (mem t _); simpl.
      * split; [intros _; split; [by eexists|by left]|intros _; by eexists].
      * destruct (requested requested_tools t); simpl.
        -- split; [intros _; split; [by eexists|by right]|intros _; by eexists].
        -- split; [by intros [? ?]|]. intros [_ [?|?]]; done.
  - split; [by intros [? ?]|by intros [[? ?] _]].
Qed.

Lemma get_tools_for_agent_lists_witness :
  let listed := default ∅ (get_tools_for_agent core_registry "A" (Some ["file_read"])) in
  get_tools_for_agent core_registry "A" (Some ["file_read"]) = Some listed /\
  forall t,
    is_Some (listed !! t) <->
    is_Some (tools core_registry !! t) /\
    (_check_permission core_registry "A" t = true \/
     exists l, Some ["file_read"] = Some l /\ t ∈ l).
Proof.
  intros listed.
  assert (H : get_tools_for_agent core_registry "A" (Some ["file_read"]) = Some listed).
  { unfold listed, get_tools_for_agent.
    rewrite bool_decide_eq_true_2; [done|].
    apply (bool_decide_unpack _). by vm_compute. }
  split; [exact H|].
  exact (get_tools_for_agent_lists core_registry "A" (Some ["file_read"]) listed H).
Defined.

(** Agent [A] holds no grant: it is shown [file_read] on request, next to
    the two public tools, and is refused when it calls it. *)
Example listed_but_refused :
  dom (default ∅ (get_tools_for_agent core_registry "A" (Some ["file_read"])))
  = {[ "web_search"; "system_info"; "file_read" ]} /\
  dom (default ∅ (get_tools_for_agent core_registry "A" None))
  = {[ "web_search"; "system_info" ]} /\
  _check_permission core_registry "A" "file_read" = false.
Proof.
  split; [apply (bool_decide_unpack _); by vm_compute|].
  split; [apply (bool_decide_unpack _); by vm_compute|]. by vm_compute.
Qed.

End RegistryFacts.


(* ===================================================================== *)
(** ** Identifiers, task types and payload models (mcp_core/schema.py) *)
(* ===================================================================== *)

Module SchemaFacts.
Import PyStr Py Schema Transport.

(** [s.count(c)] *)
Fixpoint count_char (c : ascii) (s : string) : nat :=
  match s with
  | EmptyString => 0
  | String x r => (if Ascii.eqb x c then 1 else 0) + count_char c r
  end.

(** [getattr(cls, name)] for a class of constants. *)
Definition getattr (cls : list (string * string)) (name : string) : string :=
  default "" (snd <$> List.find (fun kv => String.eqb (fst kv) name) cls).

Definition AGENT_CAPABILITIES : list (string * list string) :=
  [ ("intelligence",
     map (getattr TaskTypes)
       [ "LC_AGENT_EXECUTE"; "LC_CHAT_EXECUTE"; "LC_REACT_EXECUTE";
         "HF_TEXT_GENERATION"; "HF_TEXT_CLASSIFICATION"; "RESEARCH_WEB_SEARCH";
         "WRITER_COMPOSE"; "CODEWRITER_GENERATE"; "ANALYTICS_RUN_QUERY" ]);
    ("multimodal",
     map (getattr TaskTypes)
       [ "HF_VISION_CLASSIFICATION"; "HF_AUDIO_STT"; "DG_AUDIO_TRANSCRIBE_LIVE";
         "DG_AUDIO_AGENT_LIVE"; "MULTIMODAL_FUSE"; "ARTIST_GENERATE_IMAGE" ]);
    ("system",
     map (getattr TaskTypes)
       [ "SYS_HEALTH_CHECK"; "SYS_TELEMETRY_QUERY"; "LIFEOS_CALENDAR_SYNC";
         "SEC_AUDIT"; "MEM_KG_QUERY"; "NOTIFICATION_SEND" ]) ].

(** The loop of [get_supervisor_for_task] over the items that are left. *)
Fixpoint first_supervisor (items : list (string * list string)) (task_type : string)
    : string :=
  match items with
  | [] => "intelligence"
  | (supervisor, capabilities) :: rest =>
      if existsb (String.eqb task_type) capabilities then supervisor
      else first_supervisor rest task_type
  end.

Definition get_supervisor_for_task (task_type : string) : string :=
  first_supervisor AGENT_CAPABILITIES task_type.

(** *** [TaskRequest], [TaskMetrics] and [TaskResponse] *)

Record TaskRequest := mkTaskRequest {
  tr_task_type : string;
  tr_task_id : string;
  tr_parameters : PyVal;
  tr_metadata : gmap string string;
  tr_preferred_agent : option string;
  tr_priority : Z;
  tr_deadline : option Z
}.

Definition TaskRequest_fields : list string :=
  ["task_type"; "task_id"; "parameters"; "metadata"; "preferred_agent"; "priority";
   "deadline"].

Section Models.
Variable lax : Lax.

Definition validate_TaskRequest : PyVal -> Res TaskRequest :=
  as_model TaskRequest_fields (fun d =>
    a <- required d "task_type" (as_str lax) ;;
    b <- required d "task_id" (as_str lax) ;;
    c <- required d "parameters" inr ;;
    e <- optional d "metadata" (as_str_map lax) ∅ ;;
    f <- optional d "preferred_agent" (as_optional (as_str lax)) None ;;
    g <- optional d "priority" (fun v => n <- as_int lax v ;; n <- ge 0 n ;; le 10 n) 5%Z ;;
    h <- optional d "deadline" (as_optional (as_datetime lax)) None ;;
    inr (mkTaskRequest a b c e f g h)).

(** [MCPValidator.validate_task_request] *)
Definition validate_task_request (data : PyVal) : Res TaskRequest :=
  validate_TaskRequest data.

Definition TaskMetrics_fields : list string :=
  ["processing_time_ms"; "queue_time_ms"; "retry_count"; "cost_usd"; "tokens_used";
   "model_used"; "custom_metrics"].

Definition validate_TaskMetrics : PyVal -> Res TaskMetrics :=
  as_model TaskMetrics_fields (fun d =>
    a <- required d "processing_time_ms" (fun v => n <- as_int lax v ;; ge 0 n) ;;
    b <- required d "queue_time_ms" (fun v => n <- as_int lax v ;; ge 0 n) ;;
    c <- required d "retry_count" (fun v => n <- as_int lax v ;; ge 0 n) ;;
    e <- required d "cost_usd" (fun v => q <- as_float lax v ;; ge0_float q) ;;
    f <- required d "tokens_used" (fun v => n <- as_int lax v ;; ge 0 n) ;;
    g <- optional d "model_used" (as_optional (as_str lax)) None ;;
    h <- optional d "custom_metrics" (as_dict (as_float lax)) [] ;;
    inr (mkTaskMetrics a b c e f g h)).

(** A member of [TaskStatus] from its value. *)
Definition as_status (v : PyVal) : Res TaskStatus :=
  s <- as_str lax v ;;
  match TaskStatus_member s with
  | Some st => inr st
  | None =>
      fail "Input should be 'PENDING', 'RUNNING', 'COMPLETED', 'FAILED', 'CANCELLED' or 'TIMEOUT'"
  end.

(** [Optional[Any]] *)
Definition as_optional_any (v : PyVal) : Res (option PyVal) :=
  match v with VNone => inr None | _ => inr (Some v) end.

Definition TaskResponse_fields : list string :=
  ["task_id"; "status"; "result"; "error_message"; "error_code"; "metrics"; "warnings"].

Definition validate_TaskResponse : PyVal -> Res TaskResponse :=
  as_model TaskResponse_fields (fun d =>
    a <- required d "task_id" (as_str lax) ;;
    b <- required d "status" as_status ;;
    c <- optional d "result" as_optional_any None ;;
    e <- optional d "error_message" (as_optional (as_str lax)) None ;;
    f <- optional d "error_code" (as_optional (as_str lax)) None ;;
    g <- required d "metrics" validate_TaskMetrics ;;
    h <- optional d "warnings" (as_list (as_str lax)) [] ;;
    inr (mkTaskResponse a b c e f g h)).

(** [MCPValidator.validate_task_response] *)
Definition validate_task_response (data : PyVal) : Res TaskResponse :=
  validate_TaskResponse data.

End Models.

(** [create_delivery_options]: the [DeliveryOptions] constructor checks
    the two bounded fields. *)
Definition create_delivery_options (guarantee : DeliveryGuarantee)
    (priority retry_count : Z) : Res DeliveryOptions :=
  b <- (n <- ge 0 retry_count ;; le 10 n) ;;
  f <- (n <- ge 0 priority ;; le 10 n) ;;
  inr (mkDelivery guarantee b 1000 true f).

(** *** What a message must satisfy to be built *)

Definition valid_budget (b : CostBudget) : Prop :=
  (0 <= max_usd b)%Q /\ (0 <= max_tokens b)%Z /\
  (0 <= used_usd b)%Q /\ (0 <= used_tokens b)%Z.

Definition valid_limits (l : ResourceLimits) : Prop :=
  (0 <= max_cpu_percent l <= 100)%Z /\ (0 <= max_memory_mb l)%Z /\
  (1 <= max_concurrent_requests l)%Z /\ (0 <= max_processing_time_ms l)%Z.

Definition valid_context (c : MCPContext) : Prop :=
  (0 <= timeout_ms c)%Z /\
  from_option valid_budget True (budget c) /\
  from_option valid_limits True (limits c).

Definition valid_delivery (o : DeliveryOptions) : Prop :=
  (0 <= retry_count o <= 10)%Z /\ (0 <= retry_delay_ms o)%Z /\
  (0 <= priority o <= 10)%Z.

Definition valid_message (m : MCPMessage MCPContext) : Prop :=
  length (split "-"%char (id m)) = 5%nat /\
  valid_context (context m) /\ valid_delivery (delivery m).

(** *** Dashes *)

Lemma split_aux_count (sep : ascii) (cur s : string) :
  length (split_aux sep cur s) = S (count_char sep s).
Proof.
  revert cur. induction s as [|c s IH]; intros cur; simpl; [done|].
  destruct (Ascii.eqb c sep); simpl; by rewrite IH.
Qed.

(** *** Case and separators *)

Lemma upper_char_idem (c : ascii) : upper_char (upper_char c) = upper_char c.
Proof. destruct c as [[] [] [] [] [] [] [] []]; reflexivity. Qed.

Lemma upper_lower_char (c : ascii) : upper_char (lower_char c) = upper_char c.
Proof. destruct c as [[] [] [] [] [] [] [] []]; reflexivity. Qed.

Lemma upper_char_dot (c : ascii) :
  Ascii.eqb (upper_char c) "."%char = Ascii.eqb c "."%char.
Proof. destruct c as [[] [] [] [] [] [] [] []]; reflexivity. Qed.

Lemma upper_idem (s : string) : upper (upper s) = upper s.
Proof. induction s as [|c s IH]; simpl; [done|]. by rewrite upper_char_idem, IH. Qed.

Lemma upper_lower (s : string) : upper (lower s) = upper s.
Proof. induction s as [|c s IH]; simpl; [done|]. by rewrite upper_lower_char, IH. Qed.

Lemma upper_replace_dot (s : string) :
  upper (replace_char "."%char "_"%char s) = replace_char "."%char "_"%char (upper s).
Proof.
  induction s as [|c s IH]; simpl; [done|]. rewrite IH, upper_char_dot.
  by destruct (Ascii.eqb c "."%char).
Qed.

Lemma replace_dot_idem (s : string) :
  replace_char "."%char "_"%char (replace_char "."%char "_"%char s)
  = replace_char "."%char "_"%char s.
Proof.
  induction s as [|c s IH]; simpl; [done|]. rewrite IH.
  destruct (Ascii.eqb c "."%char) eqn:E; [done|]. by rewrite E.
Qed.

(** X16: the [id] validator of [MCPMessage] accepts a string exactly when
    it holds four "-" characters, wherever they stand; it looks at nothing
    else. *)
Theorem validate_uuid_counts_dashes (v : string) :
  validate_uuid v
  = if (count_char "-"%char v =? 4)%nat then inr v else inl "Invalid UUID format".
Proof.
  unfold validate_uuid, split. rewrite split_aux_count.
  change (S (count_char "-"%char v) =? 5)%nat with (count_char "-"%char v =? 4)%nat.
  reflexivity.
Qed.

(** X17: on ASCII text [is_valid_task_type] does not tell upper case from
    lower case nor "." from "_": upper-casing or lower-casing its argument,
    or replacing the dots by underscores, never changes its answer. *)
Theorem is_valid_task_type_ignores_case_and_dots (task_type : string) :
  is_valid_task_type (upper task_type) = is_valid_task_type task_type /\
  is_valid_task_type (lower task_type) = is_valid_task_type task_type /\
  is_valid_task_type (replace_char "."%char "_"%char task_type)
  = is_valid_task_type task_type.
Proof.
  unfold is_valid_task_type. split; [|split].
  - by rewrite upper_idem.
  - by rewrite upper_lower.
  - by rewrite upper_replace_dot, replace_dot_idem.
Qed.

Lemma first_supervisor_among (items : list (string * list string)) (t : string) :
  first_supervisor items t = "intelligence" \/
  exists capabilities, (first_supervisor items t, capabilities) ∈ items /\ t ∈ capabilities.
Proof.
  induction items as [|[supervisor capabilities] rest IH]; simpl; [by left|].
  destruct (existsb (String.eqb t) capabilities) eqn:E.
  - right. exists capabilities. split; [by left|].
    apply existsb_exists in E as (x & Hx & Heq).
    apply String.eqb_eq in Heq as ->. by apply list_elem_of_In.
  - destruct IH as [?|(c & Hin & Ht)]; [by left|]. right. exists c.
    split; [by right|done].
Qed.

(** No task type is listed under two supervisors. *)
Definition listed_once : bool :=
  forallb (fun item =>
             forallb (fun t => String.eqb (get_supervisor_for_task t) (fst item))
               (snd item))
          AGENT_CAPABILITIES.

(** X18: [get_supervisor_for_task] returns the supervisor under which
    [AGENT_CAPABILITIES] lists the task type, each listed type having one
    supervisor only; every other string, a supported task type or not,
    gets "intelligence". *)
Theorem get_supervisor_for_task_table (task_type : string) :
  (forall supervisor capabilities,
     (supervisor, capabilities) ∈ AGENT_CAPABILITIES -> task_type ∈ capabilities ->
     get_supervisor_for_task task_type = supervisor) /\
  ((forall supervisor capabilities,
      (supervisor, capabilities) ∈ AGENT_CAPABILITIES -> task_type ∉ capabilities) ->
   get_supervisor_for_task task_type = "intelligence") /\
  get_supervisor_for_task task_type ∈ ["intelligence"; "multimodal"; "system"].
Proof.
  assert (Hall : listed_once = true) by (vm_compute; reflexivity).
  split; [|split].
  - intros supervisor capabilities Hitem Hin.
    unfold listed_once in Hall. rewrite forallb_forall in Hall.
    apply list_elem_of_In in Hitem. specialize (Hall _ Hitem).
    rewrite forallb_forall in Hall. apply list_elem_of_In in Hin.
    specialize (Hall _ Hin). by apply String.eqb_eq in Hall.
  - intros Hnone. unfold get_supervisor_for_task.
    destruct (first_supervisor_among AGENT_CAPABILITIES task_type)
      as [?|(c & Hin & Ht)]; [done|]. by destruct (Hnone _ _ Hin).
  - unfold get_supervisor_for_task.
    destruct (first_supervisor_among AGENT_CAPABILITIES task_type)
      as [->|(c & Hin & _)]; [by left|].
    apply (list_elem_of_fmap_2 fst) in Hin. cbn [fst] in Hin.
    apply elem_of_cons in Hin as [->|Hin]; [by left|].
    apply elem_of_cons in Hin as [->|Hin]; [right; by left|].
    apply elem_of_cons in Hin as [->|Hin]; [do 2 right; by left|].
    by apply elem_of_nil in Hin.
Qed.

(** Twenty-four of the forty-five task types are listed nowhere and fall
    to the default. *)
Example unlisted_task_types :
  length (List.filter
            (fun t => negb (existsb (fun item => existsb (String.eqb t) (snd item))
                              AGENT_CAPABILITIES))
            supported_task_types) = 24%nat /\
  get_supervisor_for_task "huggingface.text.summarization" = "intelligence" /\
  get_supervisor_for_task "no.such.task" = "intelligence".
Proof. repeat split; vm_compute; reflexivity. Qed.

(** X19: the payload [_create_error_response] puts into its message is a
    valid [TaskResponse]: [validate_task_response] returns the response
    the transport built, with status FAILED and the given error text and
    code. *)
Theorem error_response_payload_validates (lax : Lax) (original : Message)
    (error_message error_code : string) :
  validate_task_response lax (payload (error_response original error_message error_code))
  = inr (error_task_response original error_message error_code) /\
  status (error_task_response original error_message error_code) = FAILED.
Proof.
  split; [|reflexivity].
  unfold error_response, error_task_response. cbn [payload].
  set (tid := match correlation_id original with
              | Some c => if truthy c then c else id original
              | None => id original
              end).
  vm_compute. reflexivity.
Qed.

(** X20: [validate_task_request] gives a request without a priority the
    priority 5, and accepts a given priority only when it reads as an
    integer from 0 to 10: an integer is read as itself, a value of another
    type through pydantic's conversion, whatever that is. The task type
    is taken as it reads, whether [is_valid_task_type] accepts it or
    not. *)
Theorem validate_task_request_priority (lax : Lax) (data : PyVal) (r : TaskRequest) :
  validate_task_request lax data = inr r ->
  exists d,
    data = VDict d /\
    (0 <= tr_priority r <= 10)%Z /\
    match dict_get "priority" d with
    | None => tr_priority r = 5%Z
    | Some v => as_int lax v = inr (tr_priority r)
    end /\
    (forall n, dict_get "priority" d = Some (VInt n) -> tr_priority r = n) /\
    (exists v, dict_get "task_type" d = Some v /\ as_str lax v = inr (tr_task_type r)) /\
    (exists v, dict_get "task_id" d = Some v /\ as_str lax v = inr (tr_task_id r)).
Proof.
  unfold validate_task_request, validate_TaskRequest, as_model.
  destruct data as [| | | | | | |d]; try done. intros H. exists d. split; [done|].
  apply bind_inr in H as (u & _ & H).
  apply bind_inr in H as (a & Ha & H). apply required_inr in Ha as (va & Hva & Ha).
  apply bind_inr in H as (b & Hb & H). apply required_inr in Hb as (vb & Hvb & Hb).
  apply bind_inr in H as (c & _ & H).
  apply bind_inr in H as (e & _ & H).
  apply bind_inr in H as (f & _ & H).
  apply bind_inr in H as (g & Hg & H).
  apply bind_inr in H as (h & _ & H).
  injection H as <-. cbn [tr_priority tr_task_type tr_task_id].
  assert (Hids : (exists v, dict_get "task_type" d = Some v /\ as_str lax v = inr a) /\
                 (exists v, dict_get "task_id" d = Some v /\ as_str lax v = inr b)).
  { split; [by exists va|by exists vb]. }
  unfold optional in Hg. destruct (dict_get "priority" d) as [v|].
  - apply bind_inr in Hg as (n1 & H1 & Hg).
    apply bind_inr in Hg as (n2 & H2 & Hg). apply ge_inr in H2 as [-> Hlo].
    apply le_inr in Hg as [-> Hhi]. split; [lia|]. split; [done|]. split; [|done].
    intros n [= ->]. rewrite as_int_typed in H1. by injection H1.
  - injection Hg as <-. split; [lia|]. split; [done|]. split; [done|done].
Qed.

Definition sample_task_request (task_type : string) : PyVal :=
  VDict [("task_type", VStr task_type); ("task_id", VStr "T");
         ("parameters", VDict [("prompt", VStr "hello")])].

Definition sample_request : TaskRequest :=
  mkTaskRequest "no.such.task" "T" (VDict [("prompt", VStr "hello")]) ∅ None 5 None.

Lemma validate_task_request_priority_witness :
  is_valid_task_type "no.such.task" = false /\
  forall lax,
    validate_task_request lax (sample_task_request "no.such.task") = inr sample_request /\
    exists d,
      sample_task_request "no.such.task" = VDict d /\
      (0 <= tr_priority sample_request <= 10)%Z /\
      match dict_get "priority" d with
      | None => tr_priority sample_request = 5%Z
      | Some v => as_int lax v = inr (tr_priority sample_request)
      end /\
      (forall n, dict_get "priority" d = Some (VInt n) -> tr_priority sample_request = n) /\
      (exists v, dict_get "task_type" d = Some v /\
                 as_str lax v = inr (tr_task_type sample_request)) /\
      (exists v, dict_get "task_id" d = Some v /\
                 as_str lax v = inr (tr_task_id sample_request)).
Proof.
  split; [vm_compute; reflexivity|]. intros lax.
  assert (H : validate_task_request lax (sample_task_request "no.such.task")
              = inr sample_request)
    by (vm_compute; reflexivity).
  split; [exact H|].
  exact (validate_task_request_priority lax (sample_task_request "no.such.task")
           sample_request H).
Defined.

(** A priority given as text: accepted as 7 when pydantic's conversion
    reads it so, whatever the text. *)
Example text_priority_request (lax : Lax) (text : string) :
  lax_int lax (VStr text) = Some 7%Z ->
  validate_task_request lax
    (VDict [("task_type", VStr "writer.compose"); ("task_id", VStr "T");
            ("parameters", VNone); ("priority", VStr text)])
  = inr (mkTaskRequest "writer.compose" "T" VNone ∅ None 7 None).
Proof.
  intros H. unfold validate_task_request, validate_TaskRequest, as_model. cbn.
  unfold converted. by rewrite H.
Qed.

(** X21: [create_delivery_options] returns options exactly when priority
    and retry count both lie in 0..10, with a retry delay of 1000 ms and
    acknowledgement required; any other value raises. *)
Theorem create_delivery_options_bounds (guarantee : DeliveryGuarantee)
    (priority retry_count : Z) :
  if bool_decide ((0 <= retry_count <= 10)%Z /\ (0 <= priority <= 10)%Z)
  then create_delivery_options guarantee priority retry_count
       = inr (mkDelivery guarantee retry_count 1000 true priority)
  else exists e, create_delivery_options guarantee priority retry_count = inl e.
Proof.
  unfold create_delivery_options, ge, le. case_bool_decide as H.
  - destruct H as [[H1 H2] [H3 H4]].
    apply Z.leb_le in H1, H2, H3, H4. cbn [bind]. rewrite H1. cbn [bind].
    rewrite H2. cbn [bind]. rewrite H3. cbn [bind]. by rewrite H4.
  - destruct (Z.leb_spec 0 retry_count); cbn [bind fail]; [|by eexists].
    destruct (Z.leb_spec retry_count 10); cbn [bind fail]; [|by eexists].
    destruct (Z.leb_spec 0 priority); cbn [bind fail]; [|by eexists].
    destruct (Z.leb_spec priority 10); cbn [bind fail]; [|by eexists].
    lia.
Qed.

(** *** [model_dump] followed by [model_validate] *)

Section Dump.
Variable lax : Lax.

Lemma all_of_str (l : list string) : all_of (as_str lax) (map VStr l) = inr l.
Proof. induction l as [|x l IH]; [done|]. cbn [map all_of as_str bind]. by rewrite IH. Qed.

Lemma all_values_str (l : list (string * string)) :
  all_values (as_str lax) (map (fun kv => (fst kv, VStr (snd kv))) l) = inr l.
Proof.
  induction l as [|[k v] l IH]; [done|].
  cbn [map all_values as_str bind fst snd]. by rewrite IH.
Qed.

Lemma all_values_float (l : list (string * Q)) :
  all_values (as_float lax) (map (fun kv => (fst kv, VFloat (snd kv))) l) = inr l.
Proof.
  induction l as [|[k v] l IH]; [done|].
  cbn [map all_values as_float bind fst snd]. by rewrite IH.
Qed.

Lemma as_str_map_dump (g : gmap string string) : as_str_map lax (dump_str_map g) = inr g.
Proof.
  unfold as_str_map, dump_str_map, as_dict. rewrite all_values_str. cbn [bind].
  by rewrite list_to_map_to_list.
Qed.

Lemma ge_ok (lo n : Z) : (lo <= n)%Z -> ge lo n = inr n.
Proof. intros H. unfold ge. apply Z.leb_le in H. by rewrite H. Qed.

Lemma le_ok (hi n : Z) : (n <= hi)%Z -> le hi n = inr n.
Proof. intros H. unfold le. apply Z.leb_le in H. by rewrite H. Qed.

Lemma ge0_float_ok (q : Q) : (0 <= q)%Q -> ge0_float q = inr q.
Proof. intros H. unfold ge0_float. apply Qle_bool_iff in H. by rewrite H. Qed.

Lemma as_optional_str_dump (o : option string) :
  as_optional (as_str lax) (dump_opt VStr o) = inr o.
Proof. by destruct o. Qed.

Lemma as_optional_datetime_dump (o : option Z) :
  as_optional (as_datetime lax) (dump_opt VDatetime o) = inr o.
Proof. by destruct o. Qed.

Lemma validate_CostBudget_dump (b : CostBudget) :
  valid_budget b -> validate_CostBudget lax (dump_CostBudget b) = inr b.
Proof.
  intros (H1 & H2 & H3 & H4). destruct b as [a1 a2 a3 a4 a5]. simpl in *.
  unfold validate_CostBudget, dump_CostBudget, as_model.
  cbn [forbid_extra forallb existsb fst CostBudget_fields String.eqb Ascii.eqb Bool.eqb
       andb orb bind required optional dict_get as_float as_int
       max_usd max_tokens used_usd used_tokens model_costs].
  rewrite ?ge0_float_ok, ?ge_ok by done. cbn [bind].
  unfold dump_float_map, as_dict. rewrite all_values_float. reflexivity.
Qed.

Lemma validate_ResourceLimits_dump (l : ResourceLimits) :
  valid_limits l -> validate_ResourceLimits lax (dump_ResourceLimits l) = inr l.
Proof.
  intros ([H1 H1'] & H2 & H3 & H4). destruct l as [a1 a2 a3 a4]. simpl in *.
  unfold validate_ResourceLimits, dump_ResourceLimits, as_model.
  cbn [forbid_extra forallb existsb fst ResourceLimits_fields String.eqb Ascii.eqb
       Bool.eqb andb orb bind required optional dict_get as_int
       max_cpu_percent max_memory_mb max_concurrent_requests max_processing_time_ms].
  rewrite ?ge_ok by done. cbn [bind]. rewrite ?le_ok by done. cbn [bind].
  rewrite ?ge_ok by done. reflexivity.
Qed.

Lemma validate_MCPContext_dump (c : MCPContext) :
  valid_context c -> validate_MCPContext lax (dump_MCPContext c) = inr c.
Proof.
  intros (H1 & H2 & H3).
  destruct c as [a1 a2 a3 a4 a5 a6 a7 a8 a9 a10 a11 a12]. simpl in *.
  unfold validate_MCPContext, dump_MCPContext, as_model.
  cbn [forbid_extra forallb existsb fst MCPContext_fields String.eqb Ascii.eqb
       Bool.eqb andb orb bind required optional dict_get as_str as_int
       ctx_trace_id ctx_span_id parent_span_id baggage user_id session_id
       workspace_id request_id timeout_ms metadata budget limits].
  rewrite !as_optional_str_dump, !as_str_map_dump. cbn [bind].
  rewrite ?ge_ok by done. cbn [bind].
  assert (E11 : as_optional (validate_CostBudget lax) (dump_opt dump_CostBudget a11) = inr a11).
  { destruct a11 as [b|]; [|done]. simpl in H2.
    change (as_optional (validate_CostBudget lax) (dump_opt dump_CostBudget (Some b)))
      with (x <- validate_CostBudget lax (dump_CostBudget b) ;; inr (Some x)).
    by rewrite validate_CostBudget_dump. }
  assert (E12 : as_optional (validate_ResourceLimits lax) (dump_opt dump_ResourceLimits a12)
                = inr a12).
  { destruct a12 as [l|]; [|done]. simpl in H3.
    change (as_optional (validate_ResourceLimits lax) (dump_opt dump_ResourceLimits (Some l)))
      with (x <- validate_ResourceLimits lax (dump_ResourceLimits l) ;; inr (Some x)).
    by rewrite validate_ResourceLimits_dump. }
  rewrite E11. cbn [bind]. rewrite E12. reflexivity.
Qed.

Lemma validate_DeliveryOptions_dump (o : DeliveryOptions) :
  valid_delivery o -> validate_DeliveryOptions lax (dump_DeliveryOptions o) = inr o.
Proof.
  intros ([H1 H1'] & H2 & [H3 H3']). destruct o as [g a2 a3 a4 a5]. simpl in *.
  unfold validate_DeliveryOptions, dump_DeliveryOptions, as_model.
  cbn [forbid_extra forallb existsb fst DeliveryOptions_fields String.eqb Ascii.eqb
       Bool.eqb andb orb bind required optional dict_get as_int as_bool
       guarantee retry_count retry_delay_ms require_ack priority].
  assert (Eg : as_guarantee lax (VStr (guarantee_value g)) = inr g) by (by destruct g).
  rewrite Eg. cbn [bind]. rewrite ?ge_ok by done. cbn [bind].
  rewrite ?le_ok by done. cbn [bind]. rewrite ?ge_ok by done. reflexivity.
Qed.

Lemma validate_message_dump (m : MCPMessage MCPContext) :
  valid_message m -> validate_message lax (dump_MCPMessage m) = inr m.
Proof.
  intros (Hid & Hc & Hd).
  destruct m as [a1 a2 a3 a4 a5 a6 a7 a8 a9 a10 a11 a12 a13 a14 a15]. simpl in *.
  unfold validate_message, validate_MCPMessage, dump_MCPMessage, as_model.
  cbn [forbid_extra forallb existsb fst MCPMessage_fields String.eqb Ascii.eqb
       Bool.eqb andb orb bind required optional dict_get as_str as_datetime as_list
       id correlation_id trace_id span_id sender recipient message_type payload tags
       context delivery created_at expires_at security_token permissions].
  unfold validate_uuid. rewrite Hid. cbn [Nat.eqb bind].
  rewrite !as_optional_str_dump, as_optional_datetime_dump, !all_of_str. cbn [bind].
  rewrite validate_MCPContext_dump by done. cbn [bind].
  rewrite validate_DeliveryOptions_dump by done. reflexivity.
Qed.

End Dump.

(** X22: a message whose id has five dash-separated groups, whose
    delivery priority and retry count lie in 0..10 and whose context,
    budget and limits keep their declared bounds survives [model_dump]
    followed by [validate_message] unchanged: the validation a connection
    runs before it sends such a message passes, and so does
    [model_validate] on the dumped context, delivery options, budget and
    limits. *)
Theorem dump_validate_roundtrip (lax : Lax) (m : MCPMessage MCPContext) :
  valid_message m ->
  validate_message lax (dump_MCPMessage m) = inr m /\
  validate_MCPContext lax (dump_MCPContext (context m)) = inr (context m) /\
  validate_DeliveryOptions lax (dump_DeliveryOptions (delivery m)) = inr (delivery m).
Proof.
  intros Hm. split; [by apply validate_message_dump|].
  destruct Hm as (_ & Hc & Hd).
  split; [by apply validate_MCPContext_dump|by apply validate_DeliveryOptions_dump].
Qed.

Lemma dump_validate_roundtrip_witness :
  valid_message (sample_message sample_id "TASK_REQUEST" 5) /\
  forall lax,
    let m := sample_message sample_id "TASK_REQUEST" 5 in
    validate_message lax (dump_MCPMessage m) = inr m /\
    validate_MCPContext lax (dump_MCPContext (context m)) = inr (context m) /\
    validate_DeliveryOptions lax (dump_DeliveryOptions (delivery m)) = inr (delivery m).
Proof.
  assert (H : valid_message (sample_message sample_id "TASK_REQUEST" 5)).
  { unfold valid_message, valid_context, valid_delivery. simpl.
    split; [reflexivity|]. repeat split; lia. }
  split; [exact H|]. intros lax.
  exact (dump_validate_roundtrip lax (sample_message sample_id "TASK_REQUEST" 5) H).
Defined.

End SchemaFacts.


(* ===================================================================== *)
(** ** The receive loop and the server's sends (transport/unix_socket.py) *)
(* ===================================================================== *)

Module TransportFacts.
Import PyStr Py Schema Transport SchemaFacts.

(** The bytes [send_message] writes for a packed body. *)
Definition frame_of (data : list byte) : list byte :=
  default [] (pack_be32 (Z.of_nat (length data))) ++ data.

(** A body the peer can have framed for this connection. *)
Definition framable (c : Connection) (data : list byte) : Prop :=
  data <> [] /\ (Z.of_nat (length data) <= max_message_size c)%Z /\
  (Z.of_nat (length data) < 2 ^ 32)%Z.

(** The stream stops here: it ends, or announces too long a body. *)
Definition stops (c : Connection) (tail : list byte) : Prop :=
  match receive_frame (max_message_size c) tail with
  | Frame _ _ => False
  | _ => True
  end.

Lemma pack_be32_some (n : Z) :
  (0 <= n < 2 ^ 32)%Z -> exists h, pack_be32 n = Some h /\ length h = 4%nat.
Proof.
  intros [H1 H2]. unfold pack_be32.
  apply Z.leb_le in H1. apply Z.ltb_lt in H2. rewrite H1, H2. simpl.
  by eexists.
Qed.

Lemma receive_frame_of (c : Connection) (data rest : list byte) :
  framable c data ->
  receive_frame (max_message_size c) (frame_of data ++ rest) = Frame data rest /\
  (5 <= length (frame_of data))%nat.
Proof.
  intros (Hne & Hmax & H32). unfold frame_of.
  destruct (pack_be32_some (Z.of_nat (length data))) as (h & Hh & Hl); [lia|].
  rewrite Hh. change (default [] (Some h)) with h. split.
  - rewrite <- !app_assoc. by apply frame_roundtrip.
  - rewrite length_app, Hl. destruct data; [done|]. simpl. lia.
Qed.

Lemma frames_length (c : Connection) (bodies : list (list byte)) :
  Forall (framable c) bodies ->
  (length bodies <= length (concat (map frame_of bodies)))%nat.
Proof.
  induction 1 as [|data bodies Hdata Hall IH]; [done|].
  cbn [map concat]. rewrite length_app.
  destruct (receive_frame_of c data [] Hdata) as [_ H5]. simpl. lia.
Qed.

Section Receive.
(** Whatever the connection's handler acts upon. *)
Variable State : Type.
(** Pydantic's conversions, for the validation of what was unpacked. *)
Variable lax : Lax.
(** [msgpack.unpackb(data, raw=False)]; [inl] is the text of the exception. *)
Variable unpackb : list byte -> string + PyVal.
(** The connection's [message_handler]: it is given the message and the
    client id, and returns or raises ([Some e]). *)
Variable message_handler :
  option (MCPMessage MCPContext -> string -> State -> State * option string).

(** The inner [try] of [_receive_loop] on one body: whatever is raised
    while unpacking, validating or handling is logged and the loop goes
    on. *)
Definition process (c : Connection) (message_data : list byte) (s : State) : State :=
  match unpackb message_data with
  | inl _ => s
  | inr raw_message =>
      match (if enable_validation c then validate_message lax raw_message
             else validate_MCPMessage lax raw_message) with
      | inl _ => s
      | inr message =>
          match message_handler with
          | Some handler => fst (handler message (client_id c) s)
          | None => s
          end
      end
  end.

(** [fuel] turns of the [while] loop on the bytes still to come. *)
Fixpoint receive_turns (fuel : nat) (c : Connection) (stream : list byte) (s : State)
    : State :=
  match fuel with
  | O => s
  | S fuel' =>
      match receive_frame (max_message_size c) stream with
      | Frame message_data rest => receive_turns fuel' c rest (process c message_data s)
      | Closed => s
      | TooLarge _ => s
      end
  end.

(** [_receive_loop] on a stream that ends: every turn that goes on takes
    at least five bytes, so [length stream] turns are enough. *)
Definition _receive_loop (c : Connection) (stream : list byte) (s : State) : State :=
  receive_turns (length stream) c stream s.

Lemma receive_turns_frames (c : Connection) (bodies : list (list byte))
    (tail : list byte) (fuel : nat) (s : State) :
  Forall (framable c) bodies -> stops c tail ->
  (length bodies <= fuel)%nat ->
  receive_turns fuel c (concat (map frame_of bodies) ++ tail) s
  = fold_left (fun s data => process c data s) bodies s.
Proof.
  intros Hall Hstop. revert fuel s.
  induction Hall as [|data bodies Hdata Hall IH]; intros fuel s Hfuel.
  - simpl. destruct fuel as [|fuel]; [done|]. simpl. unfold stops in Hstop.
    by destruct (receive_frame (max_message_size c) tail).
  - destruct fuel as [|fuel]; [simpl in Hfuel; lia|].
    cbn [map concat]. rewrite <- app_assoc. cbn [receive_turns].
    destruct (receive_frame_of c data (concat (map frame_of bodies) ++ tail) Hdata)
      as [-> _].
    cbn [fold_left]. apply IH. simpl in Hfuel. lia.
Qed.

End Receive.

Arguments process {State}.
Arguments receive_turns {State}.
Arguments _receive_loop {State}.

(** X23: on a stream made of the frames of bodies that are non-empty and
    within the size limit, followed by the end of the stream or by a
    header announcing too long a body, [_receive_loop] takes the bodies in
    the order they were written and hands each to the unpack, validate and
    handle step; a body that fails there is skipped and the next one is
    still taken; nothing after the point where the stream stops is
    handled. *)
Theorem receive_loop_takes_frames_in_order {State : Type} (lax : Lax)
    (unpackb : list byte -> string + PyVal)
    (message_handler :
       option (MCPMessage MCPContext -> string -> State -> State * option string))
    (c : Connection) (bodies : list (list byte)) (tail : list byte) (s : State) :
  Forall (framable c) bodies -> stops c tail ->
  _receive_loop lax unpackb message_handler c (concat (map frame_of bodies) ++ tail) s
  = fold_left (fun s data => process lax unpackb message_handler c data s) bodies s.
Proof.
  intros Hall Hstop. unfold _receive_loop. apply receive_turns_frames; [done|done|].
  rewrite length_app. pose proof (frames_length c bodies Hall). lia.
Qed.

(** A receiver that counts the messages its handler is given. *)
Definition counting_handler : MCPMessage MCPContext -> string -> nat -> nat * option string :=
  fun _ _ n => (S n, None).

(** A raw message as a peer sends it: [created_at] travels as text,
    there being no datetime on the wire. *)
Definition created_at_text : string := "2023-11-14T22:13:20+00:00".

Definition sample_wire_raw : PyVal :=
  VDict [("id", VStr sample_id); ("trace_id", VStr "trace-1"); ("span_id", VStr "span-1");
         ("sender", VStr "orchestrator"); ("recipient", VStr "python-bridge");
         ("message_type", VStr "TASK_REQUEST");
         ("payload", VDict [("task_id", VStr "T")]);
         ("context", sample_context); ("delivery", sample_delivery 5);
         ("created_at", VStr created_at_text)].

(** An unpacker for the examples: bodies of one byte unpack to that raw
    message, longer ones are not valid MessagePack. *)
Definition toy_unpackb (data : list byte) : string + PyVal :=
  match data with
  | [_] => inr sample_wire_raw
  | _ => inl "unpack failed"
  end.

Lemma receive_loop_takes_frames_in_order_witness :
  let bodies := [[Byte.xc0]; [Byte.x01; Byte.x02]; [Byte.xc1]] in
  let tail := [Byte.xff; Byte.xff; Byte.xff; Byte.xff; Byte.x00] in
  Forall (framable demo_client) bodies /\ stops demo_client tail /\
  forall lax,
    _receive_loop lax toy_unpackb (Some counting_handler) demo_client
      (concat (map frame_of bodies) ++ tail) 0%nat
    = fold_left
        (fun s data => process lax toy_unpackb (Some counting_handler) demo_client data s)
        bodies 0%nat.
Proof.
  intros bodies tail.
  assert (H1 : Forall (framable demo_client) bodies).
  { repeat apply List.Forall_cons; try apply List.Forall_nil;
      (split; [discriminate|split; vm_compute; congruence]). }
  assert (H2 : stops demo_client tail) by (vm_compute; exact I).
  split; [exact H1|]. split; [exact H2|]. intros lax.
  exact (receive_loop_takes_frames_in_order lax toy_unpackb (Some counting_handler)
           demo_client bodies tail 0%nat H1 H2).
Defined.

(** The second body does not unpack and is skipped; the frame after it is
    still handled; the oversized header ends the loop. The two bodies
    that unpack are handed on when pydantic reads the text of
    [created_at] as a datetime, and dropped when it does not. *)
Example receive_loop_skips_bad_body (lax : Lax) :
  _receive_loop lax toy_unpackb (Some counting_handler) demo_client
    (concat (map frame_of [[Byte.xc0]; [Byte.x01; Byte.x02]; [Byte.xc1]])
     ++ [Byte.xff; Byte.xff; Byte.xff; Byte.xff; Byte.x00]
     ++ frame_of [Byte.xc0]) 0%nat
  = match lax_datetime lax (VStr created_at_text) with
    | Some _ => 2%nat
    | None => 0%nat
    end.
Proof.
  destruct (lax_datetime lax (VStr created_at_text)) eqn:E;
    vm_compute in E |- *; rewrite E; reflexivity.
Qed.

Section ServerFacts.
Variable lax : Lax.
Variable carrier : gmap string string.
Variable packb : PyVal -> string + list byte.








End ServerFacts.





End TransportFacts.


(* ===================================================================== *)
(** ** Agent selection and replies of the bridge (bridge/python_bridge.py) *)
(* ===================================================================== *)

Module BridgeFacts.
Import PyStr Py Schema SchemaFacts Bridge.

(** A message of the bridge that answers [message]. *)
Definition answers (response_target correlation : string) (m : BridgeMessage) : Prop :=
  type m = "task_response" /\ source m = "python-bridge" /\
  target m = response_target /\ correlation_id m = Some correlation.

Section Facts.
Variable Request : Type.
Variable Response : Type.
Variable request_task_id : Request -> string.
Variable parse_task_request : Dict -> string + Request.
Variable required_capabilities : Request -> string + list string.
Variable execute_task : PythonAgent -> Request -> string + Response.
Variable timed_response_dict : Response -> string -> string -> string + Dict.
Variable send_fails : nat -> BridgeMessage -> option string.

(** What one step of the bridge has done to the wire: [added] went out,
    every message of it answering the request, and the counter of sent
    messages has grown by their number. *)
Definition wrote (response_target correlation : string) (bound : nat)
    (b b' : BridgeState Request) : Prop :=
  exists added,
    wire Request b' = wire Request b ++ added /\
    (length added <= bound)%nat /\
    messages_sent Request b' = (messages_sent Request b + length added)%nat /\
    Forall (answers response_target correlation) added.

Lemma wrote_nothing (t c : string) (n : nat) (b b' : BridgeState Request) :
  wire Request b' = wire Request b ->
  messages_sent Request b' = messages_sent Request b ->
  wrote t c n b b'.
Proof.
  intros Hw Hm. exists []. rewrite app_nil_r. repeat split; [done|simpl; lia| |constructor].
  simpl. lia.
Qed.

Lemma wrote_trans (t c : string) (n1 n2 : nat) (b1 b2 b3 : BridgeState Request) :
  wrote t c n1 b1 b2 -> wrote t c n2 b2 b3 -> wrote t c (n1 + n2) b1 b3.
Proof.
  intros (a1 & W1 & L1 & M1 & F1) (a2 & W2 & L2 & M2 & F2). exists (a1 ++ a2).
  split; [by rewrite W2, W1, app_assoc|]. rewrite length_app.
  split; [lia|]. split; [lia|]. by apply Forall_app.
Qed.

Lemma send_wrote (t c : string) (payload : Dict) (b : BridgeState Request) :
  wrote t c 1 b (snd (_send_message Request send_fails (task_response t payload c) b)).
Proof.
  unfold _send_message. destruct (send_fails _ _); cbn [snd].
  - by apply wrote_nothing.
  - exists [task_response t payload c]. cbn [wire messages_sent length].
    split; [done|]. split; [lia|]. split; [lia|].
    apply List.Forall_cons; [by repeat split|apply List.Forall_nil].
Qed.

(** Closes a [wrote] goal once the final state is explicit. *)
Ltac close_wrote :=
  unfold wrote; cbn [wire messages_sent snd];
  first
    [ exists []; rewrite app_nil_r;
      split; [reflexivity|]; split; [simpl; lia|]; split; [simpl; lia|];
      apply List.Forall_nil
    | eexists [_]; split; [reflexivity|]; split; [simpl; lia|];
      split; [simpl; lia|];
      apply List.Forall_cons; [by repeat split|apply List.Forall_nil]
    | eexists [_; _]; split; [by rewrite <- app_assoc|]; split; [simpl; lia|];
      split; [simpl; lia|];
      apply List.Forall_cons;
        [by repeat split
        |apply List.Forall_cons; [by repeat split|apply List.Forall_nil]] ].

Lemma activity_wrote (elapsed : string) (a : Activity Request) (b : BridgeState Request) :
  let b' := snd (_execute_agent_task Request Response request_task_id execute_task
                   timed_response_dict send_fails elapsed a b) in
  wrote (act_response_target Request a) (act_correlation_id Request a) 2 b b' /\
  scheduled Request b' = scheduled Request b /\
  registered_agents Request b' = registered_agents Request b.
Proof.
  unfold _execute_agent_task, try_except, mbind, lift, _send_message, finish_task.
  rewrite status_value_running. cbn [fst snd].
  destruct (send_fails (messages_sent Request b) _); cbn [fst snd ret raise].
  { rewrite status_value_failed.
    destruct (send_fails (messages_sent Request b) _); cbn [snd];
      (split; [close_wrote|done]). }
  destruct (execute_task _ _) as [e|response]; cbn [fst snd ret raise].
  { rewrite status_value_failed. cbn [messages_sent].
    destruct (send_fails _ _); cbn [snd]; (split; [close_wrote|done]). }
  destruct (timed_response_dict _ _ _) as [e|dumped]; cbn [fst snd ret raise].
  { rewrite status_value_failed. cbn [messages_sent].
    destruct (send_fails _ _); cbn [snd]; (split; [close_wrote|done]). }
  cbn [messages_sent].
  destruct (send_fails (S (messages_sent Request b)) _); cbn [fst snd ret raise].
  { rewrite status_value_failed. cbn [messages_sent].
    destruct (send_fails _ _); cbn [snd]; (split; [close_wrote|done]). }
  split; [close_wrote|done].
Qed.

Lemma handler_outcome (message : Incoming) (b : BridgeState Request) :
  let b1 := snd (_handle_task_request Request request_task_id parse_task_request
                   required_capabilities send_fails message b) in
  registered_agents Request b1 = registered_agents Request b /\
  ((wrote (in_source message) (in_id message) 1 b b1 /\
    scheduled Request b1 = scheduled Request b) \/
   (exists a, scheduled Request b1 = scheduled Request b ++ [a] /\
              act_response_target Request a = in_source message /\
              act_correlation_id Request a = in_id message /\
              wire Request b1 = wire Request b /\
              messages_sent Request b1 = messages_sent Request b)).
Proof.
  unfold _handle_task_request, try_except, mbind, lift, get_agents.
  destruct (parse_task_request _) as [e|req]; cbn [fst snd ret raise].
  { split; [done|]. left. split; [close_wrote|done]. }
  destruct (capable_agents _ _ _ _) as [e|[|[n agent] rest]]; cbn [fst snd ret raise].
  - split; [done|]. left. split; [close_wrote|done].
  - rewrite status_value_failed. unfold _send_message.
    destruct (send_fails _ _); cbn [fst snd];
      (split; [done|]; left; split; [close_wrote|done]).
  - unfold spawn. cbn [fst snd]. rewrite status_value_accepted. cbn [fst snd].
    split; [done|]. right. by eexists.
Qed.


End Facts.

(** X28: while the bridge handles one task request and runs the activity
    it scheduled, it writes at most two messages; each of them is a
    task_response from "python-bridge" to the request's source whose
    correlation id is the request's id, and the counter of sent messages
    grows by exactly the number of messages written. *)
Theorem task_request_replies_correlate
    (Request Response : Type) (request_task_id : Request -> string)
    (parse_task_request : Dict -> string + Request)
    (required_capabilities : Request -> string + list string)
    (execute_task : PythonAgent -> Request -> string + Response)
    (timed_response_dict : Response -> string -> string -> string + Dict)
    (send_fails : nat -> BridgeMessage -> option string)
    (elapsed : string) (message : Incoming) (b : BridgeState Request) :
  scheduled Request b = [] ->
  let b' := on_task_request Request Response request_task_id parse_task_request
              required_capabilities execute_task timed_response_dict send_fails
              elapsed message b in
  exists added,
    wire Request b' = wire Request b ++ added /\
    (length added <= 2)%nat /\
    messages_sent Request b' = (messages_sent Request b + length added)%nat /\
    Forall (answers (in_source message) (in_id message)) added.
Proof.
  intros Hempty. unfold on_task_request, take_scheduled.
  destruct (handler_outcome Request request_task_id parse_task_request
              required_capabilities send_fails message b) as [_ Hout].
  set (b1 := snd (_handle_task_request Request request_task_id parse_task_request
                    required_capabilities send_fails message b)) in *.
  destruct Hout as [[Hw Hs]|(a & Hs & Ht & Hc & Hw & Hm)].
  - rewrite Hs, Hempty. cbn [run_activities].
    destruct Hw as (added & W & L & M & F). exists added.
    cbn [wire messages_sent]. split; [done|]. split; [lia|]. by split.
  - rewrite Hs, Hempty. cbn [app run_activities].
    set (b2 := mkBridge Request _ _ _ _ _ _).
    destruct (activity_wrote Request Response request_task_id execute_task
                timed_response_dict send_fails elapsed a b2) as [Hact _].
    rewrite Ht, Hc in Hact. destruct Hact as (added & W & L & M & F).
    exists added. rewrite W, M. unfold b2. cbn [wire messages_sent].
    rewrite Hw, Hm. by repeat split.
Qed.

(** *** The bridge as it starts, and a task request *)

(** The bridge before anything is registered or received. *)
Definition new_bridge_state : BridgeState TaskRequest :=
  mkBridge TaskRequest [] ∅ [] [] 0 0.

(** [TaskRequest] built from the keywords of the payload, with the
    [TaskRequest] of the schema. *)
Definition schema_parse (lax : Lax) (payload : Dict) : string + TaskRequest :=
  validate_TaskRequest lax (VDict payload).

(** A task request whose payload the schema's [TaskRequest] takes. *)
Definition scenario_request : Incoming :=
  mkIncoming "msg-1" "node-orchestrator"
    [("task_type", VStr "huggingface.text.generation"); ("task_id", VStr "T");
     ("parameters", VDict [("prompt", VStr "hello")])].

Example scenario_request_parses (lax : Lax) :
  schema_parse lax (in_payload scenario_request)
  = inr (mkTaskRequest "huggingface.text.generation" "T"
           (VDict [("prompt", VStr "hello")]) ∅ None 5 None).
Proof. vm_compute. reflexivity. Qed.

Lemma task_request_replies_correlate_witness :
  scheduled TaskRequest new_bridge_state = [] /\
  forall (lax : Lax) (Response : Type)
         (required_capabilities : TaskRequest -> string + list string)
         (execute_task : PythonAgent -> TaskRequest -> string + Response)
         (timed_response_dict : Response -> string -> string -> string + Dict)
         (send_fails : nat -> BridgeMessage -> option string) (elapsed : string),
    let b' := on_task_request TaskRequest Response tr_task_id (schema_parse lax)
                required_capabilities execute_task timed_response_dict send_fails
                elapsed scenario_request new_bridge_state in
    exists added,
      wire TaskRequest b' = wire TaskRequest new_bridge_state ++ added /\
      (length added <= 2)%nat /\
      messages_sent TaskRequest b'
      = (messages_sent TaskRequest new_bridge_state + length added)%nat /\
      Forall (answers (in_source scenario_request) (in_id scenario_request)) added.
Proof.
  assert (H : scheduled TaskRequest new_bridge_state = []) by reflexivity.
  split; [exact H|].
  intros lax Response required_capabilities execute_task timed_response_dict
    send_fails elapsed.
  exact (task_request_replies_correlate TaskRequest Response tr_task_id
           (schema_parse lax) required_capabilities execute_task timed_response_dict
           send_fails elapsed scenario_request new_bridge_state H).
Defined.

End BridgeFacts.


(* ===================================================================== *)
(** ** Registration of agents with the bridge (bridge/python_bridge.py) *)
(* ===================================================================== *)

Module BridgeRegistration.
Import PyStr Py Schema SchemaFacts Bridge BridgeFacts.

(** [capability_index]: capability name to agent names, in insertion
    order. *)
Definition Index := list (string * list string).

(** [index.get(cap, [])] *)
Fixpoint index_get (cap : string) (index : Index) : list string :=
  match index with
  | [] => []
  | (k, names) :: rest => if String.eqb k cap then names else index_get cap rest
  end.

(** [if cap not in index: index[cap] = []] and then
    [index[cap].append(agent_name)] *)
Fixpoint index_append (cap agent_name : string) (index : Index) : Index :=
  match index with
  | [] => [(cap, [agent_name])]
  | (k, names) :: rest =>
      if String.eqb k cap then (k, names ++ [agent_name]) :: rest
      else (k, names) :: index_append cap agent_name rest
  end.

(** [registered_agents[name] = agent] on an insertion-ordered dictionary. *)
Fixpoint agents_set (agent_name : string) (agent : PythonAgent)
    (agents : list (string * PythonAgent)) : list (string * PythonAgent) :=
  match agents with
  | [] => [(agent_name, agent)]
  | (k, a) :: rest =>
      if String.eqb k agent_name then (k, agent) :: rest
      else (k, a) :: agents_set agent_name agent rest
  end.

Fixpoint agents_get (agent_name : string) (agents : list (string * PythonAgent))
    : option PythonAgent :=
  match agents with
  | [] => None
  | (k, a) :: rest => if String.eqb k agent_name then Some a else agents_get agent_name rest
  end.

Lemma index_get_append_same (cap agent_name : string) (index : Index) :
  agent_name ∈ index_get cap (index_append cap agent_name index).
Proof.
  induction index as [|[k names] rest IH]; simpl.
  - rewrite String.eqb_refl. by left.
  - destruct (String.eqb k cap) eqn:E; simpl; rewrite E; [|done].
    apply elem_of_app. right. by left.
Qed.

Lemma index_get_append_mono (cap agent_name k n : string) (index : Index) :
  n ∈ index_get k index -> n ∈ index_get k (index_append cap agent_name index).
Proof.
  induction index as [|[k0 names] rest IH]; simpl.
  - by intros ?%elem_of_nil.
  - destruct (String.eqb_spec k0 cap) as [->|Hne]; simpl.
    + destruct (String.eqb cap k); [|done]. intros H. apply elem_of_app. by left.
    + destruct (String.eqb k0 k); [done|]. apply IH.
Qed.

Lemma index_fold_mono (caps : list string) (agent_name k n : string) (index : Index) :
  n ∈ index_get k index ->
  n ∈ index_get k (fold_left (fun idx cap => index_append cap agent_name idx) caps index).
Proof.
  revert index. induction caps as [|c caps IH]; intros index H; simpl; [done|].
  by apply IH, index_get_append_mono.
Qed.

Lemma index_fold_all (caps : list string) (agent_name : string) (index : Index) :
  Forall (fun cap =>
            agent_name ∈ index_get cap
              (fold_left (fun idx cap => index_append cap agent_name idx) caps index))
    caps.
Proof.
  revert index. induction caps as [|c caps IH]; intros index; [constructor|].
  apply List.Forall_cons; [|apply IH].
  simpl. apply index_fold_mono, index_get_append_same.
Qed.

Lemma agents_get_set (agent_name : string) (agent : PythonAgent)
    (agents : list (string * PythonAgent)) :
  agents_get agent_name (agents_set agent_name agent agents) = Some agent.
Proof.
  induction agents as [|[k a] rest IH]; simpl.
  - by rewrite String.eqb_refl.
  - destruct (String.eqb k agent_name) eqn:E; simpl; by rewrite E.
Qed.

Section Registration.
Variable Request : Type.
(** The payload of the registration message: the agent's type and the
    details of its capabilities are not part of [PythonAgent] here. *)
Variable registration_payload : PythonAgent -> Dict.
Variable send_fails : nat -> BridgeMessage -> option string.

Record BridgeRegistry := mkBridgeRegistry {
  bridge : BridgeState Request;
  capability_index : Index;
  agents_registered : nat
}.

Definition registration (agent : PythonAgent) : BridgeMessage :=
  mkBridgeMessage "agent_registration" "python-bridge" "node-orchestrator"
    (registration_payload agent) None.

Definition with_agent (b : BridgeState Request) (agent : PythonAgent)
    : BridgeState Request :=
  mkBridge Request (agents_set (name agent) agent (registered_agents Request b))
    (active_tasks Request b) (scheduled Request b) (wire Request b)
    (messages_sent Request b) (tasks_executed Request b).

(** [register_python_agent] *)
Definition register_python_agent (agent : PythonAgent) (r : BridgeRegistry)
    : bool * BridgeRegistry :=
  let index :=
    fold_left (fun idx cap => index_append cap (name agent) idx)
      (capabilities agent) (capability_index r) in
  match _send_message Request send_fails (registration agent) (bridge r) with
  | (inl _, b) => (false, mkBridgeRegistry b index (agents_registered r))
  | (inr _, b) =>
      (true, mkBridgeRegistry (with_agent b agent) index (S (agents_registered r)))
  end.

End Registration.

Arguments bridge {Request}.
Arguments capability_index {Request}.
Arguments agents_registered {Request}.

(** X29: [register_python_agent] enters the agent under each of its
    capabilities in the capability index before it sends the registration
    message, and keeps what the index held. When the send fails it
    returns false with the agent in the index but not among the
    registered agents, and nothing written; when the send goes through
    the registration message is the one message written, the agent is
    registered under its name and the counter of registered agents has
    grown by one. *)
Theorem register_python_agent_indexes_first
    (Request : Type) (registration_payload : PythonAgent -> Dict)
    (send_fails : nat -> BridgeMessage -> option string)
    (agent : PythonAgent) (r : BridgeRegistry Request) :
  let res := register_python_agent Request registration_payload send_fails agent r in
  let r' := snd res in
  Forall (fun cap => name agent ∈ index_get cap (capability_index r'))
    (capabilities agent) /\
  (forall cap n, n ∈ index_get cap (capability_index r) ->
                 n ∈ index_get cap (capability_index r')) /\
  if fst res
  then agents_get (name agent) (registered_agents Request (bridge r')) = Some agent /\
       wire Request (bridge r')
       = wire Request (bridge r) ++ [registration registration_payload agent] /\
       agents_registered r' = S (agents_registered r)
  else registered_agents Request (bridge r') = registered_agents Request (bridge r) /\
       wire Request (bridge r') = wire Request (bridge r) /\
       agents_registered r' = agents_registered r.
Proof.
  unfold register_python_agent, _send_message.
  destruct (send_fails _ _); cbn [fst snd capability_index bridge agents_registered].
  - split; [apply index_fold_all|]. split; [intros cap n; apply index_fold_mono|done].
  - split; [apply index_fold_all|]. split; [intros cap n; apply index_fold_mono|].
    unfold with_agent. cbn [registered_agents wire]. split; [apply agents_get_set|done].
Qed.

(** The bridge as it starts: no agent, no task, an empty index. *)
Definition new_bridge : BridgeRegistry TaskRequest :=
  mkBridgeRegistry TaskRequest new_bridge_state [] 0.

(** With the [MCPMessage] of the schema the registration message cannot
    be built: the agent, registered twice over, is named twice in the
    index and is not among the registered agents. *)
Example failed_registration_stays_indexed (lax : Lax) (uuid : nat -> string)
    (now : nat -> Z) (write_fails : BridgeMessage -> option string)
    (registration_payload : PythonAgent -> Dict) :
  let agent := mkAgent "MLModelAgent" ["text_generation"] in
  let register :=
    register_python_agent TaskRequest registration_payload
      (schema_send_fails lax uuid now write_fails) agent in
  let r2 := snd (register (snd (register new_bridge))) in
  fst (register new_bridge) = false /\
  capability_index r2 = [("text_generation", ["MLModelAgent"; "MLModelAgent"])] /\
  registered_agents TaskRequest (bridge r2) = [].
Proof. vm_compute. repeat split; reflexivity. Qed.

End BridgeRegistration.


(* ===================================================================== *)
(** ** The bridge on the schema of the repository (bridge/python_bridge.py) *)
(* ===================================================================== *)

Module BridgeRuns.
Import PyStr Py Schema SchemaFacts Bridge BridgeFacts BridgeRegistration.


Section Runs.
Variable lax : Lax.
(** [uuid.uuid4()] and [datetime.now()] at the n-th message, and the
    write of a message that was built. *)
Variable uuid : nat -> string.
Variable now : nat -> Z.
Variable write_fails : BridgeMessage -> option string.
(** The agents: what they return, how their capabilities are described,
    and what [task_request.context] gives. *)
Variable Response : Type.
Variable required_capabilities : TaskRequest -> string + list string.
Variable execute_task : PythonAgent -> TaskRequest -> string + Response.
Variable timed_response_dict : Response -> string -> string -> string + Dict.
Variable registration_payload : PythonAgent -> Dict.
Variable elapsed : string.






End Runs.



(** What [can_handle_task] of the base class does with a [TaskRequest]
    of the schema, which has no [context]: it raises, and the handler's
    own [except] ends the request there, even for a bridge that held an
    agent. *)
Definition no_context (request : TaskRequest) : string + list string :=
  inl "'TaskRequest' object has no attribute 'context'".

Example can_handle_task_raises (agent : PythonAgent) (request : TaskRequest) :
  can_handle_task TaskRequest no_context agent request
  = inl "'TaskRequest' object has no attribute 'context'".
Proof. reflexivity. Qed.

End BridgeRuns.


(* ===================================================================== *)
(** ** What the file tools touch (cartrita_core/tools.py) *)
(* ===================================================================== *)

Module FileFacts.
Import PyStr Py ToolRegistry FileTools.

(** The path passed the security check on this file system. *)
Definition passes_check {FS : Type} (path_resolve : FS -> string -> string + string)
    (fs : FS) (file_path : string) : Prop :=
  exists resolved, path_resolve fs file_path = inr resolved /\ in_safe_dirs resolved = true.

(** X30: on every input [_file_read] leaves the file system as it was and
    reads at most the one file it was given, and only when the path
    exists, is no directory and passed the security check; [_file_write]
    leaves the file system untouched and does nothing unless the path
    passed the check, a failing [resolve] included; and a result of either
    tool without an "error" key reports the length of the content. *)
Theorem file_tools_touch_only_past_check
    (FS : Type) (path_exists path_is_dir : FS -> string -> string + bool)
    (path_resolve : FS -> string -> string + string)
    (path_parent : string -> string)
    (read_text : FS -> string -> string + string)
    (mkdir_parents : FS -> string -> string + FS)
    (write_text : FS -> string -> string -> string -> string + FS)
    (file_path content mode : string) (fs : FS) :
  let read := _file_read FS path_exists path_is_dir path_resolve read_text file_path fs in
  let written :=
    _file_write FS path_resolve path_parent mkdir_parents write_text
      file_path content mode fs in
  fr_fs read = fs /\
  (fr_ops read = [] \/
   (fr_ops read = [OpRead file_path] /\ path_exists fs file_path = inr true /\
    path_is_dir fs file_path = inr false /\ passes_check path_resolve fs file_path)) /\
  ((fr_ops written = [] /\ fr_fs written = fs) \/
   passes_check path_resolve fs file_path) /\
  (dict_get "error" (fr_result read) = None ->
   exists text, read_text fs file_path = inr text /\
     dict_get "content" (fr_result read) = Some (VStr text) /\
     dict_get "size_bytes" (fr_result read) = Some (VInt (Z.of_nat (String.length text)))) /\
  (dict_get "error" (fr_result written) = None ->
   dict_get "bytes_written" (fr_result written)
   = Some (VInt (Z.of_nat (String.length content))) /\
   fr_ops written = [OpMkdir (path_parent file_path); OpWrite file_path mode]).
Proof.
  cbv zeta. unfold _file_read, read_checked, _file_write, passes_check, error_result.
  destruct (path_exists fs file_path) as [e4|[|]]; cbn [negb];
    destruct (path_is_dir fs file_path) as [e5|[|]];
    destruct (path_resolve fs file_path) as [e|resolved];
    try destruct (in_safe_dirs resolved) eqn:Hsafe; cbn [negb];
    try destruct (read_text fs file_path) as [e1|text];
    try destruct (mkdir_parents fs (path_parent file_path)) as [e2|fs1];
    try destruct (write_text fs1 file_path mode content) as [e3|fs2];
    cbn [fr_fs fr_ops fr_result];
    (split; [reflexivity|]);
    (split; [first [by left | right; repeat split; try done; by eexists]|]);
    (split; [first [by left | right; by eexists]|]);
    (split; [first [by intros [=] | intros _; by eexists]|]);
    first [by intros [=] | by intros _].
Qed.

End FileFacts.
